(** * The signature bridge of libshiboken, embedded in Rocq

    A shallow embedding of the functions of [signature.cpp] and
    [signature_helper.cpp] that store, unpack and look up the signature
    strings of the generated types:

    - [Resolver]: [GetClassOrModOf], [GetTypeKey] and the [_get_class_of_*]
      helpers (the type and function key resolver);
    - [Heap]: the Python objects a PropsDict is made of, with their identity,
      and the calls of the C API on them;
    - [Variants]: [_build_new_entry] and [insert_snake_case_variants] over
      that heap;
    - [Lines]: the newline scanner of [bytesToStrings];
    - [Store]: [byteExpand], [PySide_BuildSignatureProps] and
      [TypeKey_to_PropsDict] over the process-wide [arg_dict];
    - [Patcher]: [_fixup_getset] and [add_more_getsets];
    - [Frame], [Blobs]: what the variant builder leaves alone, and the
      stored blobs as plain data;
    - [Registry]: the registration of types and modules, [map_dict] with
      [_build_func_to_type], and [name_key_to_func].

    The code of the CPython build is modelled (the [PYPY_VERSION] branches are
    compiled out). *)

From Stdlib Require Import Strings.Ascii Strings.Byte.
From stdpp Require Import base option list strings gmap.

Set Warnings "-register-all,-clear-no-such-hyp".

(** A C function that either returns a (possibly null) pointer or ends the
    process through [Py_FatalError]. *)
Inductive outcome (A : Type) : Type :=
  | Ret (p : option A)
  | Fatal (msg : string).
Arguments Ret {A} p.
Arguments Fatal {A} msg.

(** ** The type and function key resolver *)

Module Resolver.

(** The attributes the resolver reads through [PyObject_GetAttr]; [None] is a
    failed lookup. *)
Record attrs : Type := Attrs {
  a_module : option string;     (* __module__ *)
  a_name : option string;       (* __name__ *)
  a_qualname : option string    (* __qualname__ *)
}.

(** The objects the resolver meets, by their concrete kind.  A static method
    wraps a builtin function ([__func__]), which is kept by its fields. *)
Inductive entity : Type :=
  | EType (a : attrs)                                 (* PyType_Check *)
  | EModule (a : attrs)                               (* PyModule_Check *)
  | ECFunction (id : nat) (m_self : option entity)    (* subtype of PyCFunction_Type *)
  | EStaticMethod (id : nat) (m_self : option entity) (* PepStaticMethod_TypePtr *)
  | EMethodDescr (objclass : option entity)           (* PepMethodDescr_TypePtr *)
  | EWrapperDescr (objclass : option entity)          (* PyWrapperDescr_Type *)
  | EClassMethodDescr (objclass : option entity)      (* PyClassMethodDescr_Type *)
  | EFunction (a : attrs)                             (* PepFunction_TypePtr *)
  | ENone                                             (* Py_None *)
  | EInstance (cls : attrs).                          (* any other object, with its class *)

Definition PyType_Check (ob : entity) : bool :=
  match ob with EType _ => true | _ => false end.

Definition PyModule_Check (ob : entity) : bool :=
  match ob with EModule _ => true | _ => false end.

Definition builtin_type (name : string) : entity :=
  EType (Attrs (Some "builtins") (Some name) (Some name)).

(** [Py_TYPE(ob)] *)
Definition Py_TYPE (ob : entity) : entity :=
  match ob with
  | EType _ => builtin_type "type"
  | EModule _ => builtin_type "module"
  | ECFunction _ _ => builtin_type "builtin_function_or_method"
  | EStaticMethod _ _ => builtin_type "staticmethod"
  | EMethodDescr _ => builtin_type "method_descriptor"
  | EWrapperDescr _ => builtin_type "wrapper_descriptor"
  | EClassMethodDescr _ => builtin_type "classmethod_descriptor"
  | EFunction _ => builtin_type "function"
  | ENone => builtin_type "NoneType"
  | EInstance cls => EType cls
  end.

(** The keys of [pyside_globals->map_dict] that [_get_class_of_cf] looks up:
    the function itself, or the pair of the function and the string
    ["overload"]. *)
Inductive map_key : Type :=
  | MKObject (ob : entity)
  | MKOverload (ob : entity).

Section WithMapDict.

Variable map_dict : map_key -> option entity.

Definition PyCFunction_GET_SELF (ob_cf : entity) : option entity :=
  match ob_cf with
  | ECFunction _ m_self => m_self
  | _ => None
  end.

Definition _get_class_of_cf (ob_cf : entity) : option entity :=
  let selftype :=
    match PyCFunction_GET_SELF ob_cf with
    | Some s => s
    | None =>
        match map_dict (MKObject ob_cf) with
        | Some s => s
        | None =>
            (* This must be an overloaded function that we handled special. *)
            match map_dict (MKOverload ob_cf) with
            | Some s => s
            | None => ENone  (* probably a module function *)
            end
        end
    end in
  let obtype_mod :=
    if PyType_Check selftype || PyModule_Check selftype
    then selftype else Py_TYPE selftype in
  Some obtype_mod.

Definition _get_class_of_sm (id : nat) (m_self : option entity) : option entity :=
  let func := ECFunction id m_self in      (* ob_sm.__func__ *)
  _get_class_of_cf func.

Definition _get_class_of_descr (objclass : option entity) : option entity :=
  objclass.                                (* ob.__objclass__ *)

Definition GetClassOrModOf (ob : entity) : outcome entity :=
  match ob with
  | EType _ => Ret (Some ob)
  | ECFunction _ _ => Ret (_get_class_of_cf ob)
  | EStaticMethod id m_self => Ret (_get_class_of_sm id m_self)
  | EMethodDescr objclass => Ret (_get_class_of_descr objclass)
  | EWrapperDescr objclass => Ret (_get_class_of_descr objclass)
  | _ => Fatal "unexpected type in GetClassOrModOf"
  end.

End WithMapDict.

(** The result of [GetTypeKey]: [Py_BuildValue("O", name)] is the name object
    itself, [Py_BuildValue("(OO)", m, q)] a 2-tuple. *)
Inductive TypeKey : Type :=
  | KeyName (name : string)
  | KeyPair (module_name class_name : string).

Definition get_attrs (ob : entity) : attrs :=
  match ob with
  | EType a | EModule a | EFunction a => a
  | _ => Attrs None None None
  end.

Definition GetTypeKey (ob : entity) : outcome TypeKey :=
  match a_module (get_attrs ob) with
  | None =>
      (* We have no module_name because this is a module ;-) *)
      Ret (KeyName <$> a_name (get_attrs ob))
  | Some module_name =>
      match a_qualname (get_attrs ob) with
      | None => Fatal "Signature: missing class name in GetTypeKey"
      | Some class_name => Ret (Some (KeyPair module_name class_name))
      end
  end.




End Resolver.

(** ** Python objects with identity: the heap *)

Module Heap.

Abbreviation addr := nat.

(** The objects a PropsDict is made of.  A dict keeps its entries in insertion
    order (the order [PyDict_Next] walks them in); its keys are interned [str]
    objects, kept by their text.  A list slot is [None] while it is still
    unset ([PyList_New] leaves null slots). *)
Inductive pyobj : Type :=
  | ObStr (s : string)
  | ObList (items : list (option addr))
  | ObDict (entries : list (string * addr))
  | ObOther (tag : nat).

Abbreviation heap := (list pyobj).

(** Heap-passing computations; allocation appends, so an address is an index
    and a fresh address is the length of the heap. *)
Definition M (A : Type) : Type := heap -> heap * A.

Definition ret {A} (a : A) : M A := fun h => (h, a).

Definition bind {A B} (c : M A) (k : A -> M B) : M B :=
  fun h => let '(h', a) := c h in k a h'.

Notation "x <- c ;; k" := (bind c (fun x => k))
  (at level 100, c at next level, right associativity).

Definition alloc (o : pyobj) : M addr := fun h => (h ++ [o], length h).

Fixpoint dict_get (k : string) (es : list (string * addr)) : option addr :=
  match es with
  | [] => None
  | (k', v) :: es' => if decide (k = k') then Some v else dict_get k es'
  end.

(** Assignment keeps the position of a key that is present and appends a new
    one. *)
Fixpoint dict_set (k : string) (v : addr) (es : list (string * addr))
  : list (string * addr) :=
  match es with
  | [] => [(k, v)]
  | (k', v') :: es' =>
      if decide (k = k') then (k, v) :: es' else (k', v') :: dict_set k v es'
  end.

Definition dict_merge (override : bool) (a b : list (string * addr))
  : list (string * addr) :=
  fold_left (fun acc '(k, v) =>
               if override || negb (bool_decide (is_Some (dict_get k acc)))
               then dict_set k v acc else acc) b a.

Definition PyDict_New : M (option addr) :=
  a <- alloc (ObDict []) ;; ret (Some a).

(** [PyDict_Copy]: a new dict with the same entries (the values are shared);
    null for a null or non-dict argument. *)
Definition PyDict_Copy (o : option addr) : M (option addr) := fun h =>
  match o ≫= (h !!.) with
  | Some (ObDict es) => (a <- alloc (ObDict es) ;; ret (Some a)) h
  | _ => (h, None)
  end.

(** [PyDict_GetItem]: a borrowed reference, null when the key is missing or
    the object is no dict. *)
Definition PyDict_GetItem (o : option addr) (key : string) : M (option addr) :=
  fun h =>
  match o ≫= (h !!.) with
  | Some (ObDict es) => (h, dict_get key es)
  | _ => (h, None)
  end.

(** [PyDict_SetItem]: 0, or -1 when the target is no dict.  The C function
    reads through a null target or value: the -1 given here for a null is
    no outcome of the code, and the properties of the builder are stated for
    arguments on which it passes no null ([wf_record], [wf_props],
    [records_or_no_dict]). *)
Definition PyDict_SetItem (o : option addr) (key : string) (v : option addr)
  : M Z := fun h =>
  match o, v with
  | Some d, Some v =>
      match h !! d with
      | Some (ObDict es) => (<[d := ObDict (dict_set key v es)]> h, 0%Z)
      | _ => (h, (-1)%Z)
      end
  | _, _ => (h, (-1)%Z)
  end.

(** The entries [PyDict_Next] yields, in order; none for a non-dict. *)
Definition PyDict_Next (dict : addr) : M (list (string * addr)) := fun h =>
  match h !! dict with
  | Some (ObDict es) => (h, es)
  | _ => (h, [])
  end.

(** [PyDict_Merge(a, b, override)] *)
Definition PyDict_Merge (a b : option addr) (override : bool) : M Z := fun h =>
  match a ≫= (h !!.), b ≫= (h !!.), a with
  | Some (ObDict ea), Some (ObDict eb), Some a =>
      (<[a := ObDict (dict_merge override ea eb)]> h, 0%Z)
  | _, _, _ => (h, (-1)%Z)
  end.

(** [Py_TYPE(o) == &PyList_Type], false for null *)
Definition PyList_CheckExact (o : option addr) : M bool := fun h =>
  match o ≫= (h !!.) with
  | Some (ObList _) => (h, true)
  | _ => (h, false)
  end.

Definition PyList_Size (o : option addr) : M nat := fun h =>
  match o ≫= (h !!.) with
  | Some (ObList items) => (h, length items)
  | _ => (h, 0)
  end.

Definition PyList_New (len : nat) : M (option addr) :=
  a <- alloc (ObList (replicate len None)) ;; ret (Some a).

Definition PyList_GetItem (o : option addr) (idx : nat) : M (option addr) :=
  fun h =>
  match o ≫= (h !!.) with
  | Some (ObList items) => (h, mjoin (items !! idx))
  | _ => (h, None)
  end.

(** [PyList_SetItem]: -1 for a non-list or an index out of range. *)
Definition PyList_SetItem (o : option addr) (idx : nat) (v : option addr)
  : M Z := fun h =>
  match o with
  | Some l =>
      match h !! l with
      | Some (ObList items) =>
          if decide (idx < length items)
          then (<[l := ObList (<[idx := v]> items)]> h, 0%Z)
          else (h, (-1)%Z)
      | _ => (h, (-1)%Z)
      end
  | None => (h, (-1)%Z)
  end.

End Heap.

(** ** Name variants of a PropsDict *)

Module Variants.
Import Heap.

Section WithSnake.

(** [String::getSnakeCaseName(name, true)], whose definition is in
    [sbkfeature_base.cpp]; the functions below only call it. *)
Variable getSnakeCaseName : string -> string.

(** The loop of [_build_new_entry] over the indices of [multi]; [false] is
    its [return nullptr]. *)
Fixpoint copy_multi (new_name : addr) (multi list_ : option addr)
    (idxs : list nat) : M bool :=
  match idxs with
  | [] => ret true
  | idx :: idxs' =>
      multi_entry <- PyList_GetItem multi idx ;;
      dup <- PyDict_Copy multi_entry ;;
      r <- PyDict_SetItem dup "name" (Some new_name) ;;
      if (r <? 0)%Z then ret false else
      r <- PyList_SetItem list_ idx dup ;;
      if (r <? 0)%Z then ret false else
      copy_multi new_name multi list_ idxs'
  end.

Definition _build_new_entry (new_name value : addr) : M (option addr) :=
  new_value <- PyDict_Copy (Some value) ;;
  multi <- PyDict_GetItem (Some value) "multi" ;;
  is_list <- PyList_CheckExact multi ;;
  if is_list then
    len <- PyList_Size multi ;;
    list_ <- PyList_New len ;;
    if negb (bool_decide (is_Some list_)) then ret None else
    ok <- copy_multi new_name multi list_ (seq 0 len) ;;
    if negb ok then ret None else
    r <- PyDict_SetItem new_value "multi" list_ ;;
    if (r <? 0)%Z then ret None else ret new_value
  else
    r <- PyDict_SetItem new_value "name" (Some new_name) ;;
    if (r <? 0)%Z then ret None else ret new_value.

(** The [while (PyDict_Next(...))] loop of [insert_snake_case_variants];
    [false] is its [return -1]. *)
Fixpoint snake_loop (snake_dict : option addr) (items : list (string * addr))
  : M bool :=
  match items with
  | [] => ret true
  | (key, value) :: items' =>
      name <- alloc (ObStr (getSnakeCaseName key)) ;;
      new_value <- _build_new_entry name value ;;
      r <- PyDict_SetItem snake_dict (getSnakeCaseName key) new_value ;;
      if (r <? 0)%Z then ret false else snake_loop snake_dict items'
  end.

(** The loop body writes to objects it has just made only, so the entries of
    [dict] are read once. *)
Definition insert_snake_case_variants (dict : addr) : M Z :=
  snake_dict <- PyDict_New ;;
  items <- PyDict_Next dict ;;
  ok <- snake_loop snake_dict items ;;
  if negb ok then ret (-1)%Z else
  PyDict_Merge (Some dict) snake_dict false.

End WithSnake.

(** *** What the functions build, as plain data *)

(** The copy [_build_new_entry] makes of one record of an overload family. *)
Definition renamed (new_name : addr) (d : list (string * addr)) : pyobj :=
  ObDict (dict_set "name" new_name d).

(** The entries of the dict a list slot points to. *)
Definition item_dict (h : heap) (it : option addr)
  : option (list (string * addr)) :=
  match it ≫= (h !!.) with
  | Some (ObDict d) => Some d
  | _ => None
  end.

(** The overload family of a record: the slots of its ["multi"] entry when
    that is a list. *)
Definition family (h : heap) (es : list (string * addr))
  : option (list (option addr)) :=
  match dict_get "multi" es ≫= (h !!.) with
  | Some (ObList items) => Some items
  | _ => None
  end.

(** The objects [_build_new_entry] appends for a record with the entries
    [es]: with a family the new record, the new list and a renamed copy of
    each record of the family; without one the renamed record alone. *)
Definition new_entry_objects (h : heap) (new_name : addr)
    (es : list (string * addr)) : option (list pyobj) :=
  match family h es with
  | Some items =>
      ds ← mapM (item_dict h) items;
      Some (ObDict (dict_set "multi" (S (length h)) es)
            :: ObList (Some <$> seq (length h + 2) (length items))
            :: (renamed new_name <$> ds))
  | None => Some [renamed new_name es]
  end.

(** A record: a dict whose ["multi"] entry, if it has one, is an object of
    the heap, and whose overload family, if it has one, holds dicts. *)
Definition wf_record (h : heap) (v : addr) : bool :=
  match h !! v with
  | Some (ObDict es) =>
      match dict_get "multi" es with
      | None => true
      | Some m =>
          match h !! m with
          | Some (ObList items) =>
              forallb (fun it => bool_decide (is_Some (item_dict h it))) items
          | Some _ => true
          | None => false
          end
      end
  | _ => false
  end.

(** The record [nv] of [h'] is the variant [_build_new_entry] makes of a
    record of [h] with the entries [es], for the name object [nm]: objects
    that [h] does not have, a copy of each record of the family renamed, or,
    without a family, the record renamed. *)
Definition copy_at (h h' : heap) (nv nm : addr) (es : list (string * addr))
  : Prop :=
  match family h es with
  | Some items =>
      ∃ l dups,
        length h < l
        ∧ h' !! nv = Some (ObDict (dict_set "multi" l es))
        ∧ h' !! l = Some (ObList (Some <$> dups))
        ∧ Forall2 (fun it dup =>
                     length h < dup
                     ∧ ∃ d, item_dict h it = Some d
                            ∧ h' !! dup = Some (renamed nm d))
                  items dups
  | None => h' !! nv = Some (renamed nm es)
  end.

(** A PropsDict: a dict of records that does not hold itself. *)
Definition wf_props (h : heap) (dict : addr) : bool :=
  match h !! dict with
  | Some (ObDict es) =>
      forallb (fun '(_, v) => negb (bool_decide (v = dict)) && wf_record h v) es
  | _ => false
  end.

(** An entry [k], [nv] of the dict of variants: the variant of a record under
    a key of [src] whose transformed name is [k]. *)
Definition variant_entry (snake : string -> string) (h hc : heap)
    (src : list (string * addr)) (k : string) (nv : addr) : Prop :=
  ∃ key value es nm,
    (key, value) ∈ src ∧ k = snake key
    ∧ h !! value = Some (ObDict es)
    ∧ length h < nm ∧ hc !! nm = Some (ObStr k)
    ∧ length h < nv ∧ copy_at h hc nv nm es.

(** The heap [hc'] still has every object of [hc] above the address
    [length h]. *)
Definition keeps_above (h hc hc' : heap) : Prop :=
  ∀ a o, length h < a → hc !! a = Some o → hc' !! a = Some o.

(** The heap [hc] still has every object of [h]. *)
Definition keeps (h hc : heap) : Prop :=
  ∀ a o, h !! a = Some o → hc !! a = Some o.

(** Modelled from the spec: the definition of [getSnakeCaseName] is not among
    the sources; the spec describes it as a deterministic, idempotent
    case-style transform of a name, camel case to snake case.  This instance
    puts an underscore before every upper-case letter and lowers it; it serves
    as the sample transform of the examples. *)
Definition is_upper (c : ascii) : bool :=
  let n := Ascii.nat_of_ascii c in (65 <=? n) && (n <=? 90).

Definition to_lower (c : ascii) : ascii :=
  if is_upper c then Ascii.ascii_of_nat (Ascii.nat_of_ascii c + 32) else c.

Fixpoint camel_to_snake (s : string) : string :=
  match s with
  | EmptyString => EmptyString
  | String c s' =>
      if is_upper c
      then String "_" (String (to_lower c) (camel_to_snake s'))
      else String c (camel_to_snake s')
  end.

(** A sample PropsDict at address 0: ["resizeEvent"] is an overload family of
    two records, ["size"] a single record whose ["multi"] is no list. *)
Definition sample_heap : heap :=
  [ ObDict [("resizeEvent", 1); ("size", 6)];
    ObDict [("name", 2); ("multi", 3)];
    ObStr "resizeEvent";
    ObList [Some 4; Some 5];
    ObDict [("name", 2); ("sig", 8)];
    ObDict [("name", 2); ("sig", 9)];
    ObDict [("name", 7); ("multi", 10); ("sig", 11)];
    ObStr "size";
    ObOther 0; ObOther 1; ObOther 2; ObOther 3;
    ObStr "resize_event" ].

(** The same family as the parser lays it out: the record of the family has
    the entries ["multi"] and ["fullname"] and no ["name"] of its own. *)
Definition sample_family : heap :=
  [ ObDict [("multi", 1); ("fullname", 5)];
    ObList [Some 2; Some 3];
    ObDict [("name", 4); ("sig", 6)];
    ObDict [("name", 4); ("sig", 7)];
    ObStr "resizeEvent";
    ObOther 0; ObOther 1; ObOther 2;
    ObStr "resize_event" ].

End Variants.


(** ** The newline scanner of [bytesToStrings] *)

Module Lines.

Definition newline : byte := x0a.
Definition nul : byte := x00.

Global Instance byte_eq_dec : EqDecision byte := Byte.byte_eq_dec.

(** The variables of the scanning loop: the buffer [cdata] (written in
    place), the array [lines] of pointers into it (offsets; [None] is a null
    or unset slot), the next free slot [pos] and the start [line] of the
    current line. *)
Record scan_state : Type := ScanState {
  cdata : list byte;
  lines : list (option nat);
  pos : nat;
  line : nat
}.

(** One turn of [for (char *p = cdata; p < cdataEnd; ++p)]. *)
Definition scan_step (st : scan_state) (p : nat) : scan_state :=
  match cdata st !! p with
  | Some c =>
      if decide (c = newline)
      then {| cdata := <[p := nul]> (cdata st);
              lines := <[pos st := Some (line st)]> (lines st);
              pos := S (pos st);
              line := S p |}
      else st
  | None => st
  end.

(** [std::count(cdata, cdataEnd, '\n')] *)
Definition count_newlines (data : list byte) : nat :=
  length (filter (fun c => c = newline) data).

(** The part of [bytesToStrings] after the unpacking: the array [lines] and
    the buffer its entries point into. *)
Definition split_lines (data : list byte) : list byte * list (option nat) :=
  let nlines := count_newlines data in
  let st0 := {| cdata := data; lines := replicate (nlines + 1) None;
                pos := 0; line := 0 |} in
  let st := fold_left scan_step (seq 0 (length data)) st0 in
  (cdata st, <[pos st := None]> (lines st)).

(** The C string at an offset of a buffer: the bytes before the first zero
    byte. *)
Fixpoint c_str_of (bytes : list byte) : list byte :=
  match bytes with
  | [] => []
  | c :: bytes' => if decide (c = nul) then [] else c :: c_str_of bytes'
  end.

Definition c_str (buf : list byte) (off : nat) : list byte :=
  c_str_of (drop off buf).

(** The walk [for (; *sig_strings != nullptr; ++sig_strings)] over a
    null-terminated array. *)
Fixpoint until_null {A} (arr : list (option A)) : list A :=
  match arr with
  | Some x :: arr' => x :: until_null arr'
  | _ => []
  end.

(** The C strings a consumer of the array reads. *)
Definition strings_of (r : list byte * list (option nat)) : list (list byte) :=
  c_str r.1 <$> until_null r.2.

(** The lines of a payload, one for each newline; what follows the last
    newline belongs to no line. *)
Fixpoint lines_of (cur : list byte) (data : list byte) : list (list byte) :=
  match data with
  | [] => []
  | c :: data' =>
      if decide (c = newline) then reverse cur :: lines_of [] data'
      else lines_of (c :: cur) data'
  end.

(** The buffer after the scan: every newline overwritten by a zero byte. *)
Definition zeroed (l : list byte) : list byte :=
  (fun c => if decide (c = newline) then nul else c) <$> l.

(** The offsets the scan stores for the bytes [rest] at offset [p], the
    current line starting at [line]. *)
Fixpoint starts (p line : nat) (rest : list byte) : list nat :=
  match rest with
  | [] => []
  | c :: rest' =>
      if decide (c = newline) then line :: starts (S p) (S p) rest'
      else starts (S p) line rest'
  end.

(** The scanning loop, reading the bytes still ahead from [rest]. *)
Fixpoint scan_from (p : nat) (rest : list byte) (st : scan_state) : scan_state :=
  match rest with
  | [] => st
  | c :: rest' =>
      scan_from (S p) rest'
        (if decide (c = newline)
         then {| cdata := <[p := nul]> (cdata st);
                 lines := <[pos st := Some (line st)]> (lines st);
                 pos := S (pos st);
                 line := S p |}
         else st)
  end.

End Lines.

(** ** The signature store *)

Module Store.
Import Heap.
Export Resolver(TypeKey, KeyName, KeyPair).

Global Instance TypeKey_eq_dec : EqDecision TypeKey.
Proof. solve_decision. Defined.

Global Instance TypeKey_countable : Countable TypeKey :=
  inj_countable'
    (fun k => match k with KeyName n => inl n | KeyPair m c => inr (m, c) end)
    (fun x => match x with inl n => KeyName n | inr (m, c) => KeyPair m c end)
    (fun k => match k with KeyName _ | KeyPair _ _ => eq_refl end).

(** The exceptions the store leaves in the error indicator. *)
Inductive exc : Type :=
  | ImportError | NameError | ValueError | TypeError
  | UnicodeDecodeError | SystemError
  | Raised (n : nat).      (* raised by the Python code called *)

(** What [arg_dict] holds for a key: the integer [PyLong_FromVoidPtr] made of
    a null-terminated array of C strings (kept by the strings), the 2-tuple of
    the address and the size of a packed buffer (kept by its [size] bytes), or
    any other object. *)
Inductive entry : Type :=
  | EAddress (signatures : list (list byte))
  | EPacked (signatures : list byte)
  | EObject (a : addr).

(** What [PyObject_CallObject(pyside_type_init_func, ...)] gives back: an
    object, or null with an exception.  The call never gives null without
    one: for a callable that returns null and sets no exception it sets
    [SystemError] itself.  A Python function without a result returns the
    object [None]. *)
Inductive call_result : Type :=
  | PResult (dict : addr)
  | PRaise (e : exc).

(** The process-wide state: the objects, [pyside_globals->arg_dict], the
    static [empty_dict], the error indicator, and two probes that count the
    calls of [zlib.decompress] and of the parser. *)
Record state : Type := State {
  objects : heap;
  arg_dict : gmap TypeKey entry;
  empty_dict : option addr;
  py_err : option exc;
  n_expand : nat;
  n_parse : nat
}.

Definition S_ (A : Type) : Type := state -> state * A.

Definition sret {A} (a : A) : S_ A := fun s => (s, a).

Definition sbind {A B} (c : S_ A) (k : A -> S_ B) : S_ B :=
  fun s => let '(s', a) := c s in k a s'.

Notation "x <~ c ;; k" := (sbind c (fun x => k))
  (at level 100, c at next level, right associativity).

(** The state after [c] more calls of [zlib.decompress]. *)
Definition expanded (c : nat) (s : state) : state :=
  State (objects s) (arg_dict s) (empty_dict s) (py_err s)
        (c + n_expand s) (n_parse s).

(** The state with an exception set. *)
Definition raised (e : exc) (s : state) : state :=
  State (objects s) (arg_dict s) (empty_dict s) (Some e)
        (n_expand s) (n_parse s).

Definition with_objects (s : state) (h : heap) : state :=
  State h (arg_dict s) (empty_dict s) (py_err s) (n_expand s) (n_parse s).

Definition lift {A} (c : M A) : S_ A := fun s =>
  let '(h, a) := c (objects s) in (with_objects s h, a).

(** [PyErr_Format(e, ...)]: sets the exception and returns null. *)
Definition PyErr_Format {A} (e : exc) : S_ (option A) := fun s =>
  (State (objects s) (arg_dict s) (empty_dict s) (Some e)
         (n_expand s) (n_parse s), None).

Definition PyErr_Occurred : S_ bool := fun s => (s, bool_decide (is_Some (py_err s))).

Definition PyDict_Check (o : option addr) : S_ bool := fun s =>
  (s, match o ≫= (objects s !!.) with Some (ObDict _) => true | _ => false end).

(** [if (empty_dict == nullptr) empty_dict = PyDict_New();] and the value of
    [empty_dict] *)
Definition get_empty_dict : S_ (option addr) := fun s =>
  match empty_dict s with
  | Some e => (s, Some e)
  | None =>
      let '(h, e) := PyDict_New (objects s) in
      (State h (arg_dict s) e (py_err s) (n_expand s) (n_parse s), e)
  end.

Section WithEnvironment.

Variable getSnakeCaseName : string -> string.

(** [PyImport_ImportModule("zlib")], and in it the attribute [decompress]:
    each can be missing, and the function fails on bytes it cannot unpack. *)
Variable zlib : option (option (list byte -> option (list byte))).

(** [Py_BuildValue("s", sig_str)]: the [str] of a C string, null when the
    bytes do not decode. *)
Variable Py_BuildValue_s : list byte -> option string.

(** [pyside_globals->pyside_type_init_func], the parser of [parser.py]: it is
    given the key and the list of strings and builds objects. *)
Variable pyside_type_init_func :
  TypeKey -> list string -> heap -> heap * call_result.

Definition count_expand : S_ unit := fun s =>
  (State (objects s) (arg_dict s) (empty_dict s) (py_err s)
         (S (n_expand s)) (n_parse s), ()).

Definition byteExpand (packed : list byte) : S_ (option (list byte)) :=
  match zlib with
  | None => PyErr_Format ImportError
  | Some None => PyErr_Format NameError
  | Some (Some expandFunc) =>
      _ <~ count_expand ;;
      match expandFunc packed with
      | None => PyErr_Format ValueError
      | Some unpacked => sret (Some unpacked)
      end
  end.

Definition bytesToStrings (signatures : list byte)
  : S_ (option (list byte * list (option nat))) :=
  let size := length signatures in
  let packed := signatures in
  (* The Qt compressor treats empty arrays specially. *)
  data <~ (if decide (0 < size) then byteExpand packed else sret (Some [])) ;;
  match data with
  | None => sret None
  | Some data => sret (Some (Lines.split_lines data))
  end.

(** The loop of [_address_ptr_to_stringlist] *)
Fixpoint string_list (sig_strings : list (list byte)) : option (list string) :=
  match sig_strings with
  | [] => Some []
  | sig_str :: rest =>
      match Py_BuildValue_s sig_str with
      | None => None
      | Some pystr => (pystr ::.) <$> string_list rest
      end
  end.

Definition _address_ptr_to_stringlist (sig_strings : list (list byte))
  : S_ (option (list string)) :=
  match string_list sig_strings with
  | Some res_list => sret (Some res_list)
  | None => PyErr_Format UnicodeDecodeError
  end.

Definition _address_to_stringlist (numkey : entry) : S_ (option (list string)) :=
  match numkey with
  | EAddress signatures => _address_ptr_to_stringlist signatures
  | _ => PyErr_Format TypeError     (* PyLong_AsVoidPtr of no integer *)
  end.

Definition call_type_init (type_key : TypeKey) (strings : list string)
  : S_ (option addr) := fun s =>
  let '(h, r) := pyside_type_init_func type_key strings (objects s) in
  let err := match r with PRaise e => Some e | _ => py_err s end in
  (State h (arg_dict s) (empty_dict s) err (n_expand s) (S (n_parse s)),
   match r with PResult d => Some d | _ => None end).

Definition set_arg_dict (type_key : TypeKey) (v : entry) : S_ Z := fun s =>
  (State (objects s) (<[type_key := v]> (arg_dict s)) (empty_dict s)
         (py_err s) (n_expand s) (n_parse s), 0%Z).

(** The first half of [PySide_BuildSignatureProps]: the list [strings] made
    of the stored [numkey]. *)
Definition stored_strings (numkey : entry) : S_ (option (list string)) :=
  match numkey with
  | EPacked signatures =>
      (* PyTuple_Check(numkey) *)
      cstrings <~ bytesToStrings signatures ;;
      match cstrings with
      | None => sret None
      | Some cstrings => _address_ptr_to_stringlist (Lines.strings_of cstrings)
      end
  | _ => _address_to_stringlist numkey
  end.

Definition PySide_BuildSignatureProps (type_key : TypeKey) : S_ (option addr) :=
  fun s =>
  match arg_dict s !! type_key with
  | None => (s, None)    (* not reached from TypeKey_to_PropsDict *)
  | Some numkey =>
      (strings <~ stored_strings numkey ;;
       match strings with
       | None => sret None
       | Some strings =>
           dict <~ call_type_init type_key strings ;;
           match dict with
           | None =>
               failed <~ PyErr_Occurred ;;
               if failed then sret None
               else (* No error: return an empty dict. *) get_empty_dict
           | Some dict =>
               (* PYSIDE-1019: Build snake case versions of the functions. *)
               r <~ lift (Variants.insert_snake_case_variants
                            getSnakeCaseName dict) ;;
               if (r <? 0)%Z then PyErr_Format SystemError else
               (* We replace the arguments by the result dict. *)
               r <~ set_arg_dict type_key (EObject dict) ;;
               if (r <? 0)%Z then sret None else sret (Some dict)
           end
       end) s
  end.

Definition TypeKey_to_PropsDict (type_key : TypeKey) : S_ (option addr) :=
  fun s =>
  match arg_dict s !! type_key with
  | None =>
      (dict <~ get_empty_dict ;;
       is_dict <~ PyDict_Check dict ;;
       if negb is_dict then PySide_BuildSignatureProps type_key
       else sret dict) s
  | Some (EObject a) =>
      (is_dict <~ PyDict_Check (Some a) ;;
       if negb is_dict then PySide_BuildSignatureProps type_key
       else sret (Some a)) s
  | Some _ =>
      (* an integer or a tuple is no dict *)
      PySide_BuildSignatureProps type_key s
  end.

(** *** The environment, as plain data *)

(** The exception [byteExpand] leaves for a buffer, if it fails on it. *)
Definition unpack_error (packed : list byte) : option exc :=
  match zlib with
  | None => Some ImportError
  | Some None => Some NameError
  | Some (Some expandFunc) =>
      match expandFunc packed with
      | None => Some ValueError
      | Some _ => None
      end
  end.

(** The bytes [bytesToStrings] scans for a buffer. *)
Definition unpacked (packed : list byte) : option (list byte) :=
  if decide (0 < length packed)
  then match zlib with
       | Some (Some expandFunc) => expandFunc packed
       | _ => None
       end
  else Some [].

(** The strings the parser is given for a stored blob. *)
Definition strings_for (numkey : entry) : option (list string) :=
  match numkey with
  | EAddress signatures => string_list signatures
  | EPacked signatures =>
      data ← unpacked signatures;
      string_list (Lines.strings_of (Lines.split_lines data))
  | EObject _ => None
  end.

(** The calls of [zlib.decompress] that reading a stored blob makes. *)
Definition expand_calls (numkey : entry) : nat :=
  match numkey, zlib with
  | EPacked (_ :: _), Some (Some _) => 1
  | _, _ => 0
  end.

(** Whether an entry of [arg_dict] is a blob still to be built. *)
Definition is_raw (numkey : entry) : bool :=
  match numkey with
  | EAddress _ | EPacked _ => true
  | EObject _ => false
  end.

End WithEnvironment.

(** A parser for the examples: one record for each string, under the string
    itself, in a new dict. *)
Fixpoint sample_records (strings : list string) (base : nat)
  : list pyobj * list (string * addr) :=
  match strings with
  | [] => ([], [])
  | str :: rest =>
      let '(objs, es) := sample_records rest (base + 2) in
      (ObStr str :: ObDict [("name", base)] :: objs,
       dict_set str (S base) es)
  end.

Definition sample_parser (_ : TypeKey) (strings : list string) (h : heap)
  : heap * call_result :=
  let '(objs, es) := sample_records strings (length h) in
  (h ++ objs ++ [ObDict es], PResult (length h + length objs)).

(** A parser without a result: it returns [None], an object that is no
    dict. *)
Definition none_parser (_ : TypeKey) (_ : list string) (h : heap)
  : heap * call_result := (h ++ [ObOther 0], PResult (length h)).

(** A callable that returns null and sets no exception: the call gives null
    with [SystemError]. *)
Definition null_parser (_ : TypeKey) (_ : list string) (h : heap)
  : heap * call_result := (h, PRaise SystemError).

(** A stand-in for [zlib.decompress], for the examples: the packed form of a
    payload is the payload behind one byte. *)
Definition sample_zlib : option (option (list byte -> option (list byte))) :=
  Some (Some (fun packed =>
                match packed with
                | x01 :: data => Some data
                | _ => None
                end)).

(** [Py_BuildValue("s", ...)] for the examples: every byte is a character. *)
Definition sample_str (bytes : list byte) : option string :=
  Some (String.string_of_list_byte bytes).

Definition initial_state (registered : list (TypeKey * entry)) : state :=
  State [] (list_to_map registered) None None 0 0.

End Store.

(** ** The attribute patcher *)

Module Patcher.

(** A [PyGetSetDef]; the function pointers and the closure are kept by a
    number, [None] is null. *)
Record PyGetSetDef : Type := GetSetDef {
  name : string;
  get : option nat;
  set : option nat;
  doc : option string;
  closure : option nat
}.

(** The tables of a type that [_fixup_getset] searches; [None] is a null
    table, [tp_members] is kept by the names of its entries. *)
Record PyTypeObject : Type := TypeObject {
  tp_getset : option (list PyGetSetDef);
  tp_members : option (list string)
}.

(** Where the [PyGetSetDef] of a descriptor lives: in the table of the type,
    or in the array handed to [add_more_getsets]. *)
Inductive defref : Type :=
  | InType (i : nat)
  | InNew (i : nat).

(** The objects of a type's namespace, with their identity [id]: a getset
    descriptor points to its [PyGetSetDef] ([d_getset]). *)
Inductive object : Type :=
  | GetSetDescr (id : nat) (d_getset : defref)
  | Object (id : nat).

(** The memory [add_more_getsets] works on: the dict of the type, the array
    [gsp] (its entries are written by [_fixup_getset]), the cell [*doc_descr]
    and the number of objects made so far. *)
Record memory : Type := Memory {
  tp_dict : gmap string object;
  gsp : list PyGetSetDef;
  doc_descr : option object;
  next_id : nat
}.

(** How a call ends: it returns, or [assert(false)] aborts the process.  The
    two calls that can fail for lack of memory only, [PyDescr_NewGetSet] and
    [PyDict_SetItemString], succeed here. *)
Inductive ending : Type :=
  | Returned (r : Z)
  | Aborted.

Definition _fixup_getset (type : PyTypeObject) (name_ : string)
    (new_gsp : PyGetSetDef) : PyGetSetDef * Z :=
  match
    List.find (fun g => bool_decide (name g = name_)) (default [] (tp_getset type))
  with
  | Some g =>
      (GetSetDef (name new_gsp) (get new_gsp) (set g) (doc g) (closure g), 1%Z)
  | None =>
      if bool_decide (name_ ∈ default [] (tp_members type))
      then (new_gsp, 1%Z) else (new_gsp, 0%Z)
  end.

(** [PyDescr_NewGetSet(type, gsp)] followed by [PyDict_SetItemString]. *)
Definition install_descr (i : nat) (name_ : string) (m : memory) : memory :=
  let descr := GetSetDescr (next_id m) (InNew i) in
  Memory (<[name_ := descr]> (tp_dict m)) (gsp m) (doc_descr m) (S (next_id m)).

Section WithBuild.

(** Whether [NDEBUG] is defined: [assert] is compiled out. *)
Variable NDEBUG : bool.

(** The loop [for (; gsp->name != nullptr; gsp++)] by the index of [gsp]. *)
Fixpoint install_loop (type : PyTypeObject) (idxs : list nat) (m : memory)
  : memory * ending :=
  match idxs with
  | [] => (m, Returned 0)
  | i :: idxs' =>
      match gsp m !! i with
      | None => (m, Returned 0)
      | Some g =>
          match tp_dict m !! name g with
          | Some have_descr =>
              if bool_decide (name g = "__doc__") || NDEBUG then
                let m1 :=
                  if bool_decide (name g = "__doc__")
                  then Memory (tp_dict m) (gsp m) (Some have_descr) (next_id m)
                  else m in
                let '(g', r) := _fixup_getset type (name g) g in
                let m2 := Memory (tp_dict m1) (<[i := g']> (gsp m1))
                                 (doc_descr m1) (next_id m1) in
                if (r =? 0)%Z then install_loop type idxs' m2
                else install_loop type idxs' (install_descr i (name g) m2)
              else (m, Aborted)
          | None => install_loop type idxs' (install_descr i (name g) m)
          end
      end
  end.

(** The loop runs on the dict that [PyType_Ready(type)] leaves; the call
    changes nothing on a type that is ready, and [tp_dict m] is the dict of
    such a type (see [ready]). *)
Definition add_more_getsets (type : PyTypeObject) (m : memory)
  : memory * ending :=
  install_loop type (seq 0 (length (gsp m))) m.

End WithBuild.

(** The definition a descriptor points to. *)
Definition deref (type : PyTypeObject) (m : memory) (r : defref)
  : option PyGetSetDef :=
  match r with
  | InType i => default [] (tp_getset type) !! i
  | InNew i => gsp m !! i
  end.

(** Whether the tables of the type declare a name: [_fixup_getset] returns 1
    for it. *)
Definition declared (type : PyTypeObject) (name_ : string) : bool :=
  bool_decide (name_ ∈ name <$> default [] (tp_getset type))
  || bool_decide (name_ ∈ default [] (tp_members type)).

(** The names of the entries of [gsp] at the indices [idxs]. *)
Definition names_at (m : memory) (idxs : list nat) : list string :=
  omap (fun i => name <$> gsp m !! i) idxs.

(** What [PyType_Ready] leaves in the dict of every type: an entry for
    ["__doc__"]. *)
Definition ready (m : memory) : Prop := is_Some (tp_dict m !! "__doc__").

(** The builtin [type], cut down to its [__doc__] getset, with that getset in
    its dict, and the array of new getsets of the signature module. *)
Definition sample_type : PyTypeObject :=
  TypeObject (Some [GetSetDef "__doc__" (Some 1) (Some 2) None None]) None.

Definition sample_memory : memory :=
  Memory {[ "__doc__" := GetSetDescr 0 (InType 0) ]}
         [GetSetDef "__doc__" (Some 7) None None None] None 1.

End Patcher.

(** ** The frame of the variant builder *)

Module Frame.
Import Heap.


(** The computation [c] keeps the first [n] objects of every heap that has
    them, and its result satisfies [Q]. *)
Definition framed {A} (n : nat) (c : M A) (Q : A → Prop) : Prop :=
  ∀ h : heap,
    n ≤ length h →
    n ≤ length (c h).1 ∧ (∀ i, i < n → (c h).1 !! i = h !! i) ∧ Q (c h).2.


End Frame.

(** ** The stored blobs, as plain data *)

Module Blobs.
Import Store.

Section WithZlib.

Variable zlib : option (option (list byte -> option (list byte))).

(** The C strings [PySide_BuildSignatureProps] reads for a stored blob,
    before they are made into [str] objects. *)
Definition cstrings_for (numkey : entry) : option (list (list byte)) :=
  match numkey with
  | EAddress signatures => Some signatures
  | EPacked signatures =>
      data ← unpacked zlib signatures;
      Some (Lines.strings_of (Lines.split_lines data))
  | EObject _ => None
  end.

End WithZlib.

(** The payload the comment of [bytesToStrings] describes: a newline after
    each string. *)
Definition joined (strings : list (list byte)) : list byte :=
  mjoin ((fun l => l ++ [Lines.newline]) <$> strings).

(** Whether an object is a dict. *)
Definition is_dict (h : Heap.heap) (a : Heap.addr) : bool :=
  match h !! a with Some (Heap.ObDict _) => true | _ => false end.

(** A parser that raises, and a [Py_BuildValue] that decodes nothing, for the
    examples. *)
Definition raising_parser (_ : TypeKey) (_ : list string) (h : Heap.heap)
  : Heap.heap * call_result := (h, PRaise (Raised 0)).

Definition no_str (_ : list byte) : option string := None.

End Blobs.

(** ** The registry: [arg_dict], [map_dict] and the dicts of the types *)

Module Registry.
Import Resolver Store.

Global Instance attrs_eq_dec : EqDecision attrs.
Proof. solve_decision. Defined.

Global Instance attrs_countable : Countable attrs :=
  inj_countable'
    (fun a => (a_module a, a_name a, a_qualname a))
    (fun '(m, n, q) => Attrs m n q)
    (fun a => match a with Attrs _ _ _ => eq_refl end).

(** Objects are dict keys by their identity; an [entity] is kept by its
    fields, which stand for it. *)
Fixpoint entity_tree (e : entity) : gen_tree (attrs + nat) :=
  let sub o := match o with Some x => [entity_tree x] | None => [] end in
  match e with
  | EType a => GenNode 0 [GenLeaf (inl a)]
  | EModule a => GenNode 1 [GenLeaf (inl a)]
  | ECFunction id m_self => GenNode 2 (GenLeaf (inr id) :: sub m_self)
  | EStaticMethod id m_self => GenNode 3 (GenLeaf (inr id) :: sub m_self)
  | EMethodDescr objclass => GenNode 4 (sub objclass)
  | EWrapperDescr objclass => GenNode 5 (sub objclass)
  | EClassMethodDescr objclass => GenNode 6 (sub objclass)
  | EFunction a => GenNode 7 [GenLeaf (inl a)]
  | ENone => GenNode 8 []
  | EInstance cls => GenNode 9 [GenLeaf (inl cls)]
  end.

Fixpoint tree_entity (t : gen_tree (attrs + nat)) : option entity :=
  let sub l := match l with
               | [] => Some None
               | [x] => Some <$> tree_entity x
               | _ => None
               end in
  match t with
  | GenNode 0 [GenLeaf (inl a)] => Some (EType a)
  | GenNode 1 [GenLeaf (inl a)] => Some (EModule a)
  | GenNode 2 (GenLeaf (inr id) :: l) => ECFunction id <$> sub l
  | GenNode 3 (GenLeaf (inr id) :: l) => EStaticMethod id <$> sub l
  | GenNode 4 l => EMethodDescr <$> sub l
  | GenNode 5 l => EWrapperDescr <$> sub l
  | GenNode 6 l => EClassMethodDescr <$> sub l
  | GenNode 7 [GenLeaf (inl a)] => Some (EFunction a)
  | GenNode 8 [] => Some ENone
  | GenNode 9 [GenLeaf (inl cls)] => Some (EInstance cls)
  | _ => None
  end.

Fixpoint tree_entity_tree (e : entity) : tree_entity (entity_tree e) = Some e.
Proof.
  destruct e as [a|a|id [s|]|id [s|]|[s|]|[s|]|[s|]|a| |cls]; cbn;
    try reflexivity; rewrite tree_entity_tree; reflexivity.
Defined.

Global Instance entity_eq_dec : EqDecision entity.
Proof.
  intros x y. destruct (decide (entity_tree x = entity_tree y)) as [H|H].
  - left. apply (f_equal tree_entity) in H.
    rewrite !tree_entity_tree in H. congruence.
  - right. congruence.
Defined.

Global Instance entity_countable : Countable entity :=
  inj_countable entity_tree tree_entity tree_entity_tree.

(** The Python values used as keys of [map_dict]: a [str], a 2-tuple, or an
    object, kept by what Python compares and hashes it by (see [ident_of]
    for a function). *)
Inductive pyval : Type :=
  | VStr (s : string)
  | VTuple (a b : pyval)
  | VObj (ob : entity).

Global Instance pyval_eq_dec : EqDecision pyval.
Proof. solve_decision. Defined.

Fixpoint pyval_tree (v : pyval) : gen_tree (string + entity) :=
  match v with
  | VStr s => GenLeaf (inl s)
  | VObj ob => GenLeaf (inr ob)
  | VTuple a b => GenNode 0 [pyval_tree a; pyval_tree b]
  end.

Fixpoint tree_pyval (t : gen_tree (string + entity)) : option pyval :=
  match t with
  | GenLeaf (inl s) => Some (VStr s)
  | GenLeaf (inr ob) => Some (VObj ob)
  | GenNode 0 [a; b] =>
      match tree_pyval a, tree_pyval b with
      | Some a, Some b => Some (VTuple a b)
      | _, _ => None
      end
  | _ => None
  end.

Fixpoint tree_pyval_tree (v : pyval) : tree_pyval (pyval_tree v) = Some v.
Proof.
  destruct v as [s|a b|ob]; cbn; try reflexivity.
  rewrite !tree_pyval_tree. reflexivity.
Defined.

Global Instance pyval_countable : Countable pyval :=
  inj_countable pyval_tree tree_pyval tree_pyval_tree.

(** The key object of a [TypeKey]. *)
Definition key_of (type_key : TypeKey) : pyval :=
  match type_key with
  | KeyName name => VStr name
  | KeyPair module_name class_name =>
      VTuple (VStr module_name) (VStr class_name)
  end.

(** A [PyMethodDef]; the C function [ml_meth] is kept by a number. *)
Record PyMethodDef : Type := MethodDef {
  ml_name : string;
  ml_meth : nat;
  ml_flags : Z;
  ml_doc : option string
}.

Definition METH_CLASS : Z := 16.    (* 0x0010 *)
Definition METH_STATIC : Z := 32.   (* 0x0020 *)

(** [meth->ml_flags & METH_STATIC] *)
Definition is_static (meth : PyMethodDef) : bool :=
  negb (Z.land (ml_flags meth) METH_STATIC =? 0)%Z.

(** The objects the registry holds and is asked about: a builtin function, a
    static method and a method descriptor come with the [PyMethodDef] they
    were made of; [OEntity] is an object that has none (a type, a module,
    [None]); [OOther] is any other object, with its class and its
    [__name__], if it has one. *)
Inductive object : Type :=
  | OEntity (e : entity)
  | OFunction (ml : PyMethodDef) (m_self : option entity)
  | OStaticMethod (ml : PyMethodDef) (m_self : option entity)
  | OMethodDescr (ml : PyMethodDef) (objclass : entity)
  | OOther (cls : attrs) (name_ : option string).

(** What [PyCFunction_GET_SELF] gives for a function made of [ml]: null for
    a static method. *)
Definition get_self (ml : PyMethodDef) (m_self : option entity)
  : option entity :=
  if is_static ml then None else m_self.

(** The object as the resolver sees it: the self of a builtin function is
    what [PyCFunction_GET_SELF] gives. *)
Definition entity_of (ob : object) : entity :=
  match ob with
  | OEntity e => e
  | OFunction ml m_self => ECFunction (ml_meth ml) (get_self ml m_self)
  | OStaticMethod ml m_self => EStaticMethod (ml_meth ml) (get_self ml m_self)
  | OMethodDescr ml objclass => EMethodDescr (Some objclass)
  | OOther cls _ => EInstance cls
  end.

(** The object as the key of a dict.  Python compares and hashes a builtin
    function by the self it stores ([m_self], which a static function has
    as well: the type it was made for) and its C function. *)
Definition ident_of (ob : object) : entity :=
  match ob with
  | OFunction ml m_self => ECFunction (ml_meth ml) m_self
  | _ => entity_of ob
  end.

Definition Py_None : object := OEntity ENone.

(** [PyCFunction_NewEx(meth, self, nullptr)], [PyStaticMethod_New(cfunc)] and
    [PyDescr_NewMethod(type, meth)] *)
Definition PyCFunction_NewEx (meth : PyMethodDef) (self : entity) : object :=
  OFunction meth (Some self).

Definition PyStaticMethod_New (meth : PyMethodDef) (self : entity) : object :=
  OStaticMethod meth (Some self).

Definition PyDescr_NewMethod (type : entity) (meth : PyMethodDef) : object :=
  OMethodDescr meth type.

(** [PyCFunction_Check(func)] *)
Definition PyCFunction_Check (func : object) : bool :=
  match entity_of func with ECFunction _ _ => true | _ => false end.

(** [PyObject_GetAttr(ob, "__func__")]: the function a static method wraps;
    [None] is a failed lookup. *)
Definition attr_func (ob : object) : option object :=
  match ob with
  | OStaticMethod ml m_self => Some (OFunction ml m_self)
  | OEntity (EStaticMethod id m_self) => Some (OEntity (ECFunction id m_self))
  | _ => None
  end.

(** The dict of a type: [PepType_GetDict(type)] is a plain dict, or, when the
    dict has been switched, an object of another type, whose [orig_dict]
    attribute, if it has one, is the plain dict. *)
Inductive namespace : Type :=
  | Plain (entries : gmap string object)
  | Switched (orig_dict : option (gmap string object)).

(** The globals: the store with [arg_dict] and the error indicator,
    [pyside_globals->map_dict], and the dicts of the types. *)
Record globals : Type := Globals {
  store : state;
  map_dict : gmap pyval object;
  tp_dict : gmap entity namespace
}.

(** How a call ends: it returns, [Py_FatalError] or a failed [assert] ends
    the process, or the C code leaves defined behaviour (it reads through a
    null pointer, or writes past the end of a buffer). *)
Inductive run (A : Type) : Type :=
  | Done (g : globals) (a : A)
  | FatalError (msg : string)
  | AssertionFailed
  | Undefined.
Arguments Done {A} g a.
Arguments FatalError {A} msg.
Arguments AssertionFailed {A}.
Arguments Undefined {A}.

Definition R (A : Type) : Type := globals -> run A.

Definition rret {A} (a : A) : R A := fun g => Done g a.

Definition rbind {A B} (c : R A) (k : A -> R B) : R B := fun g =>
  match c g with
  | Done g' a => k a g'
  | FatalError msg => FatalError msg
  | AssertionFailed => AssertionFailed
  | Undefined => Undefined
  end.

Notation "x <<- c ;; k" := (rbind c (fun x => k))
  (at level 100, c at next level, right associativity).

Definition with_store (g : globals) (s : state) : globals :=
  Globals s (map_dict g) (tp_dict g).

Definition with_err (g : globals) (e : option exc) : globals :=
  with_store g (State (objects (store g)) (arg_dict (store g))
                      (empty_dict (store g)) e
                      (n_expand (store g)) (n_parse (store g))).

Definition lift_store {A} (c : S_ A) : R A := fun g =>
  let '(s, a) := c (store g) in Done (with_store g s) a.

Definition PyErr_Clear : R unit := fun g => Done (with_err g None) ().

Definition PyErr_SetNone (e : exc) : R unit := fun g =>
  Done (with_err g (Some e)) ().

(** [PyErr_Print()] prints the exception, if one is set, and clears it. *)
Definition PyErr_Print : R unit := PyErr_Clear.

(** [PyDict_SetItem(pyside_globals->map_dict, key, value)] *)
Definition map_dict_set (key : pyval) (value : object) : R Z := fun g =>
  Done (Globals (store g) (<[key := value]> (map_dict g)) (tp_dict g)) 0%Z.

(** [PyDict_GetItem(pyside_globals->map_dict, key)] *)
Definition map_dict_get (key : pyval) : R (option object) := fun g =>
  Done g (map_dict g !! key).

(** The function [_get_class_of_cf] is called with when [GetClassOrModOf] is
    given [ob]: the [__func__] of a static method, or [ob] itself. *)
Definition func_of (ob : object) : object :=
  match attr_func ob with
  | Some func => func
  | None => ob
  end.

(** [map_dict] as [_get_class_of_cf] reads it when [GetClassOrModOf] is given
    [ob]: the entry of the function, and the entry of the pair of the
    function and ["overload"]. *)
Definition map_view (m : gmap pyval object) (ob : object) (k : map_key)
  : option entity :=
  let func := func_of ob in
  entity_of <$> match k with
                | MKObject e =>
                    if decide (e = entity_of func)
                    then m !! VObj (ident_of func) else None
                | MKOverload e =>
                    if decide (e = entity_of func)
                    then m !! VTuple (VObj (ident_of func)) (VStr "overload")
                    else None
                end.

(** [PyModule_GetName(module)]: null, with [SystemError] set, for a module
    that has no name, and with [TypeError] set for an object that is no
    module. *)
Definition PyModule_GetName (module : entity) : R (option string) :=
  match module with
  | EModule (Attrs _ (Some name) _) => rret (Some name)
  | EModule _ => _ <<- PyErr_SetNone SystemError ;; rret None
  | _ => _ <<- PyErr_SetNone TypeError ;; rret None
  end.

(** The name of a hidden method in the dicts: [strcpy] and [strcat] into
    [char mangled_name[200]]. *)
Definition mangled (name : string) : string := name +:+ ".overload".

Section WithEnvironment.

(** The exception a failed [PyObject_GetAttr] leaves. *)
Variable AttributeError : exc.

(** Whether [NDEBUG] is defined: [assert] is compiled out. *)
Variable NDEBUG : bool.

(** Whether a static method object has a [__name__] of its own (that of the
    function it wraps), which depends on the version of Python. *)
Variable staticmethod_name : bool.

(** [type->tp_methods]; [None] is a null table. *)
Variable tp_methods : entity -> option (list PyMethodDef).

(** [PyModule_GetDict(module)]: the entries of the namespace of a module, in
    the order [PyDict_Next] walks them. *)
Variable PyModule_GetDict : entity -> list (string * object).

(** [pyside_globals->finish_import_func], null until phase 2 of the
    initialization has run: a Python function, which is given the module,
    works on the objects and may raise. *)
Variable finish_import_func :
  option (entity -> Heap.heap -> Heap.heap * option exc).

(** [PySide_PatchTypes()], whose definition is in [signature_extend.cpp]. *)
Variable PySide_PatchTypes : R Z.

(** [String::getSnakeCaseName(name, true)], whose definition is in
    [sbkfeature_base.cpp]. *)
Variable getSnakeCaseName : string -> string.

Definition assert_ (cond : bool) : R unit := fun g =>
  if NDEBUG || cond then Done g () else AssertionFailed.

(** [PyObject_GetAttr(ob, "__name__")], when the value is a [str]. *)
Definition attr_name (ob : object) : option string :=
  match ob with
  | OEntity e => a_name (get_attrs e)
  | OFunction ml _ => Some (ml_name ml)
  | OMethodDescr ml _ => Some (ml_name ml)
  | OStaticMethod ml _ =>
      if staticmethod_name then Some (ml_name ml) else None
  | OOther _ name_ => name_
  end.

(** [GetTypeKey] with its effect on the error indicator: [PyErr_Clear] after
    the failed lookup of [__module__], and the exception of a failed lookup
    of [__name__].  A null argument is read through. *)
Definition GetTypeKey (ob : option entity) : R (option TypeKey) :=
  match ob with
  | None => fun _ => Undefined
  | Some ob =>
      match Resolver.GetTypeKey ob with
      | Fatal msg => fun _ => FatalError msg
      | Ret type_key =>
          match a_module (get_attrs ob) with
          | Some _ => rret type_key
          | None =>
              _ <<- PyErr_Clear ;;
              match type_key with
              | Some _ => rret type_key
              | None => _ <<- PyErr_SetNone AttributeError ;; rret None
              end
          end
      end
  end.

(** [GetClassOrModOf] over the [map_dict] of the globals; a failed lookup of
    [__objclass__] leaves its exception. *)
Definition GetClassOrModOf (ob : object) : R (option entity) := fun g =>
  match Resolver.GetClassOrModOf (map_view (map_dict g) ob) (entity_of ob) with
  | Fatal msg => FatalError msg
  | Ret (Some owner) => Done g (Some owner)
  | Ret None => Done (with_err g (Some AttributeError)) None
  end.

(** *** Registration *)

Definition PySide_BuildSignatureArgs (obtype_mod : entity)
    (signatures : list (list byte)) : R Z :=
  type_key <<- GetTypeKey (Some obtype_mod) ;;
  match type_key with
  | None => rret (-1)%Z
  | Some type_key =>
      r <<- lift_store (set_arg_dict type_key (EAddress signatures)) ;;
      if (r <? 0)%Z then rret (-1)%Z else
      (* We record also a mapping from type key to type/module. *)
      r <<- map_dict_set (key_of type_key) (OEntity obtype_mod) ;;
      rret (if (r =? 0)%Z then 0 else -1)%Z
  end.

Definition PySide_BuildSignatureArgsByte (obtype_mod : entity)
    (signatures : list byte) : R Z :=
  type_key <<- GetTypeKey (Some obtype_mod) ;;
  match type_key with
  | None => rret (-1)%Z
  | Some type_key =>
      r <<- lift_store (set_arg_dict type_key (EPacked signatures)) ;;
      if (r <? 0)%Z then rret (-1)%Z else
      r <<- map_dict_set (key_of type_key) (OEntity obtype_mod) ;;
      rret (if (r =? 0)%Z then 0 else -1)%Z
  end.

(** The loop [while (PyDict_Next(obdict, &pos, &key, &func))] of
    [_finishSignaturesCommon]. *)
Fixpoint collect_functions (module : entity) (items : list (string * object))
  : R Z :=
  match items with
  | [] => rret 0%Z
  | (key, func) :: items' =>
      if PyCFunction_Check func then
        r <<- map_dict_set (VObj (ident_of func)) (OEntity module) ;;
        if (r <? 0)%Z then rret (-1)%Z else collect_functions module items'
      else collect_functions module items'
  end.

Definition call_finish_import (f : entity -> Heap.heap -> Heap.heap * option exc)
    (module : entity) : R bool := fun g =>
  let '(h, e) := f module (objects (store g)) in
  let s := with_objects (store g) h in
  match e with
  | Some e => Done (with_store g (raised e s)) false
  | None => Done (with_store g s) true
  end.

Definition _finishSignaturesCommon (module : entity) : R Z :=
  (* Here we collect all global functions to finish our mapping. *)
  r <<- collect_functions module (PyModule_GetDict module) ;;
  if (r <? 0)%Z then rret (-1)%Z else
  name <<- PyModule_GetName module ;;
  match finish_import_func with
  | None =>
      match name with
      | Some name =>
          _ <<- assert_ (negb (String.prefix "PySide6." name)) ;; rret 0%Z
      | None => if NDEBUG then rret 0%Z else fun _ => Undefined
      end
  | Some f =>
      (* Call a Python function which has to finish something as well. *)
      ok <<- call_finish_import f module ;;
      rret (if ok then 0 else -1)%Z
  end.

Definition PySide_FinishSignatures (module : entity)
    (signatures : list (list byte)) : R Z :=
  name <<- PyModule_GetName module ;;
  match name with
  | None => rret (-1)%Z
  | Some _ =>
      r <<- PySide_BuildSignatureArgs module signatures ;;
      if (r <? 0)%Z then rret (-1)%Z else _finishSignaturesCommon module
  end.


(** *** The mapping from static methods to their type *)

(** [PepType_GetDict(type)]; a type without a dict is read through. *)
Definition PepType_GetDict (obtype : entity) : R namespace := fun g =>
  match tp_dict g !! obtype with
  | Some ns => Done g ns
  | None => Undefined
  end.

(** The dict the loop of [_build_func_to_type] works on: the plain dict, or
    the [orig_dict] of a switched one; a null [dict] is read through. *)
Definition the_dict (obtype : entity) : R (gmap string object) := fun g =>
  match tp_dict g !! obtype with
  | Some (Plain entries) => Done g entries
  | Some (Switched (Some entries)) => Done g entries
  | _ => Undefined
  end.

(** [PyDict_SetItemString(dict, key, value)] on that dict. *)
Definition the_dict_set (obtype : entity) (key : string) (value : object)
  : R Z := fun g =>
  match tp_dict g !! obtype with
  | Some (Plain entries) =>
      Done (Globals (store g) (map_dict g)
              (<[obtype := Plain (<[key := value]> entries)]> (tp_dict g))) 0%Z
  | Some (Switched (Some entries)) =>
      Done (Globals (store g) (map_dict g)
              (<[obtype := Switched (Some (<[key := value]> entries))]>
                 (tp_dict g))) 0%Z
  | _ => Undefined
  end.

(** The loop [for (; meth->ml_name != nullptr; meth++)] of
    [_build_func_to_type]. *)
Fixpoint func_to_type_loop (obtype : entity) (meths : list PyMethodDef)
  : R Z :=
  match meths with
  | [] => rret 0%Z
  | meth :: meths' =>
      dict <<- the_dict obtype ;;
      match dict !! ml_name meth with
      | None => rret (-1)%Z
      | Some descr =>
          (* We first check all methods if one is hidden by something else. *)
          let hidden :=
            if is_static meth
            then negb (bool_decide (is_Some (attr_func descr)))
            else negb (bool_decide (attr_name descr = Some (ml_name meth))) in
          if hidden then
            _ <<- PyErr_Clear ;;
            let cfunc := PyCFunction_NewEx meth obtype in
            let descr :=
              if is_static meth then PyStaticMethod_New meth obtype
              else PyDescr_NewMethod obtype meth in
            if decide (String.length (ml_name meth) + 9 < 200) then
              let mangled_name := mangled (ml_name meth) in
              r <<- the_dict_set obtype mangled_name descr ;;
              if (r <? 0)%Z then rret (-1)%Z else
              r <<- (if is_static meth then
                       (* the special case where a static method is hidden *)
                       map_dict_set
                         (VTuple (VObj (ident_of cfunc)) (VStr "overload"))
                         (OEntity obtype)
                     else rret 0%Z) ;;
              if (r <? 0)%Z then rret (-1)%Z else
              r <<- map_dict_set (VStr mangled_name) (OEntity obtype) ;;
              if (r <? 0)%Z then rret (-1)%Z else
              func_to_type_loop obtype meths'
            else fun _ => Undefined
          else
            (* Then we insert the mapping for static methods. *)
            r <<- (match attr_func descr with
                   | Some look =>
                       if is_static meth
                       then map_dict_set (VObj (ident_of look)) (OEntity obtype)
                       else rret 0%Z
                   | None => rret 0%Z
                   end) ;;
            if (r <? 0)%Z then rret (-1)%Z else
            func_to_type_loop obtype meths'
      end
  end.

Definition _build_func_to_type (obtype : entity) : R Z :=
  dict <<- PepType_GetDict obtype ;;
  (* PYSIDE-2404: Get the original dict for late initialization. *)
  _ <<- (match dict with
         | Switched None => PyErr_SetNone AttributeError
         | _ => rret ()
         end) ;;
  match tp_methods obtype with
  | None => rret 0%Z
  | Some meths => func_to_type_loop obtype meths
  end.

(** *** The external interface.  [init_shibokensupport_module()], whose
    definition is in [signature_globals.cpp], has made the globals. *)

Definition InitSignatureStrings (type : entity) (signatures : list (list byte))
  : R Z :=
  ret <<- PySide_BuildSignatureArgs type signatures ;;
  failed <<- (if (ret <? 0)%Z then rret true
              else r <<- _build_func_to_type type ;; rret (r <? 0)%Z) ;;
  _ <<- (if failed : bool
         then _ <<- PyErr_Print ;; PyErr_SetNone ImportError
         else rret ()) ;;
  rret ret.

Definition InitSignatureBytes (type : entity) (signatures : list byte)
  : R Z :=
  ret <<- PySide_BuildSignatureArgsByte type signatures ;;
  failed <<- (if (ret <? 0)%Z then rret true
              else r <<- _build_func_to_type type ;; rret (r <? 0)%Z) ;;
  _ <<- (if failed : bool
         then _ <<- PyErr_Print ;; PyErr_SetNone ImportError
         else rret ()) ;;
  rret ret.



(** *** Functions by their name key *)

Definition get_funcname (ob : object) : R string :=
  let func :=
    match entity_of ob with
    | EStaticMethod _ _ => attr_func ob
    | _ => Some ob
    end in
  match func with
  | None => fun _ => Undefined
  | Some func =>
      match attr_name func with
      | Some func_name => rret func_name
      | None =>
          fun _ => FatalError "unexpected name problem in compute_name_key"
      end
  end.

Definition compute_name_key (ob : object) : R (option pyval) :=
  if PyType_Check (entity_of ob) then
    type_key <<- GetTypeKey (Some (entity_of ob)) ;;
    rret (key_of <$> type_key)
  else
    func_name <<- get_funcname ob ;;
    owner <<- GetClassOrModOf ob ;;
    type_key <<- GetTypeKey owner ;;
    rret ((fun k => VTuple (key_of k) (VStr func_name)) <$> type_key).

Definition _func_with_new_name (type : entity) (meth : PyMethodDef)
    (new_name : string) : object :=
  let new_meth :=
    MethodDef new_name (ml_meth meth) (ml_flags meth) (ml_doc meth) in
  PyCFunction_NewEx new_meth type.

(** One of the two loops of [build_name_key_to_func], [make] giving the
    function for an entry of the table. *)
Fixpoint name_key_loop (type_key : option TypeKey)
    (make : PyMethodDef -> object) (meths : list PyMethodDef) : R Z :=
  match meths with
  | [] => rret 0%Z
  | meth :: meths' =>
      let func := make meth in
      func_name <<- get_funcname func ;;
      match type_key with
      | None => rret (-1)%Z
      | Some type_key =>
          let name_key := VTuple (key_of type_key) (VStr func_name) in
          r <<- map_dict_set name_key func ;;
          if (r <? 0)%Z then rret (-1)%Z else
          name_key_loop (Some type_key) make meths'
      end
  end.

Definition build_name_key_to_func (obtype : entity) : R Z :=
  match tp_methods obtype with
  | None => rret 0%Z
  | Some meths =>
      type_key <<- GetTypeKey (Some obtype) ;;
      r <<- name_key_loop type_key
              (fun meth => PyCFunction_NewEx meth obtype) meths ;;
      if (r <? 0)%Z then rret (-1)%Z else
      (* PYSIDE-1019: Now we repeat the same for snake case names. *)
      name_key_loop type_key
        (fun meth =>
           _func_with_new_name obtype meth (getSnakeCaseName (ml_name meth)))
        meths
  end.

(** The result is a new reference to [None], to a function, or null. *)
Definition name_key_to_func (ob : object) : R (option object) :=
  name_key <<- compute_name_key ob ;;
  match name_key with
  | None => rret (Some Py_None)
  | Some name_key =>
      ret <<- map_dict_get name_key ;;
      match ret with
      | Some _ => rret ret
      | None =>
          (* do a lazy initialization *)
          owner <<- GetClassOrModOf ob ;;
          type_key <<- GetTypeKey owner ;;
          match type_key with
          | None => fun _ => Undefined
          | Some type_key =>
              type <<- map_dict_get (key_of type_key) ;;
              match type with
              | None => rret (Some Py_None)
              | Some type =>
                  _ <<- assert_ (PyType_Check (entity_of type)) ;;
                  if PyType_Check (entity_of type) then
                    r <<- build_name_key_to_func (entity_of type) ;;
                    if (r <? 0)%Z then rret None else
                    map_dict_get name_key
                  else fun _ => Undefined
              end
          end
      end
  end.

End WithEnvironment.

(** *** Sample objects *)

Definition QObject : entity :=
  EType (Attrs (Some "PySide6.QtCore") (Some "QObject") (Some "QObject")).

Definition QtCore : entity :=
  EModule (Attrs None (Some "PySide6.QtCore") None).

Definition Signal : attrs :=
  Attrs (Some "PySide6.QtCore") (Some "Signal") (Some "Signal").

(** A method table: a method, a static method, and a method whose name a
    signal takes in the dict. *)
Definition objectName : PyMethodDef := MethodDef "objectName" 1 4 None.
Definition tr : PyMethodDef := MethodDef "tr" 2 (1 + 32) None.
Definition destroyed : PyMethodDef := MethodDef "destroyed" 3 1 None.

Definition sample_methods : list PyMethodDef := [objectName; tr; destroyed].

Definition sample_tp_methods (type : entity) : option (list PyMethodDef) :=
  if decide (type = QObject) then Some sample_methods else None.

Definition sample_dict : gmap string object :=
  {[ "objectName" := OMethodDescr objectName QObject;
     "tr" := OStaticMethod tr (Some QObject);
     "destroyed" := OOther Signal None ]}.

(** The functions of a module: one with the module as its self, one whose
    self is null. *)
Definition qVersion : PyMethodDef := MethodDef "qVersion" 7 4 None.
Definition qAddPostRoutine : PyMethodDef := MethodDef "qAddPostRoutine" 8 8 None.

Definition sample_module_dict (module : entity) : list (string * object) :=
  [("__name__", OOther (Attrs (Some "builtins") (Some "str") (Some "str")) None);
   ("qVersion", OFunction qVersion (Some module));
   ("qAddPostRoutine", OFunction qAddPostRoutine None)].

(** A type whose static method is hidden in the dict by a signal of the same
    name. *)
Definition TestObject : entity :=
  EType (Attrs (Some "testbinding") (Some "TestObject") (Some "TestObject")).

Definition staticMethodDouble : PyMethodDef :=
  MethodDef "staticMethodDouble" 5 (1 + 32) None.

Definition hidden_tp_methods (type : entity) : option (list PyMethodDef) :=
  if decide (type = TestObject) then Some [staticMethodDouble] else None.

Definition hidden_dict : gmap string object :=
  {[ "staticMethodDouble" := OOther Signal None ]}.

Definition hidden_globals : globals :=
  Globals (initial_state []) ∅ {[ TestObject := Plain hidden_dict ]}.

(** Two types whose static method [tr] is made of the same C function. *)
Definition QTimer : entity :=
  EType (Attrs (Some "PySide6.QtCore") (Some "QTimer") (Some "QTimer")).

Definition shared_tp_methods (type : entity) : option (list PyMethodDef) :=
  if decide (type = QObject) then Some [tr]
  else if decide (type = QTimer) then Some [tr] else None.

Definition shared_globals : globals :=
  Globals (initial_state []) ∅
    {[ QObject := Plain {[ "tr" := OStaticMethod tr (Some QObject) ]};
       QTimer := Plain {[ "tr" := OStaticMethod tr (Some QTimer) ]} ]}.

Definition initial_globals : globals :=
  Globals (initial_state []) ∅ ∅.

Definition sample_globals : globals :=
  Globals (initial_state []) ∅ {[ QObject := Plain sample_dict ]}.

(** [PySide_PatchTypes] for the examples: it succeeds, or it raises. *)
Definition patch_ok : R Z := rret 0%Z.


(** *** What a call leaves alone *)

(** The store of [g'] differs from that of [g] in the error indicator at
    most. *)
Definition keeps_store (g g' : globals) : Prop :=
  objects (store g') = objects (store g)
  ∧ arg_dict (store g') = arg_dict (store g)
  ∧ empty_dict (store g') = empty_dict (store g)
  ∧ n_expand (store g') = n_expand (store g)
  ∧ n_parse (store g') = n_parse (store g).

(** The plain dict of a type, if it has one. *)
Definition dict_of (g : globals) (obtype : entity)
  : option (gmap string object) :=
  match tp_dict g !! obtype with
  | Some (Plain entries) => Some entries
  | Some (Switched orig_dict) => orig_dict
  | None => None
  end.

Section Turn.

Variable staticmethod_name : bool.

(** Whether the entry [descr] of the dict hides the method [meth]: it is no
    static method where one is expected, or does not have the name of the
    method. *)
Definition hides (descr : object) (meth : PyMethodDef) : bool :=
  if is_static meth
  then negb (bool_decide (is_Some (attr_func descr)))
  else negb (bool_decide (attr_name staticmethod_name descr
                          = Some (ml_name meth))).

(** [map_dict] and the dict of the type after the turn of the loop of
    [_build_func_to_type] for [meth], the dict having [descr] under its
    name. *)
Definition map_after (obtype : entity) (meth : PyMethodDef) (descr : object)
    (m : gmap pyval object) : gmap pyval object :=
  if hides descr meth then
    <[VStr (mangled (ml_name meth)) := OEntity obtype]>
      (if is_static meth
       then <[VTuple (VObj (ident_of (PyCFunction_NewEx meth obtype)))
                     (VStr "overload") := OEntity obtype]> m
       else m)
  else
    match attr_func descr with
    | Some look =>
        if is_static meth then <[VObj (ident_of look) := OEntity obtype]> m
        else m
    | None => m
    end.

Definition dict_after (obtype : entity) (meth : PyMethodDef) (descr : object)
    (d : gmap string object) : gmap string object :=
  if hides descr meth then
    <[mangled (ml_name meth) :=
        if is_static meth then PyStaticMethod_New meth obtype
        else PyDescr_NewMethod obtype meth]> d
  else d.

End Turn.





End Registry.

(** * Properties *)

(** ** The resolver *)

Section ResolverFacts.
Import Resolver.

Variable map_dict : map_key -> option entity.




(** C6: with a module name and a qualified name [GetTypeKey] returns the pair
    of both; when the lookup of the module name fails it returns the plain
    name as the key; with a module name and no qualified name it is fatal. *)
Theorem GetTypeKey_cases (ob : entity) :
  (∀ m q, a_module (get_attrs ob) = Some m →
          a_qualname (get_attrs ob) = Some q →
          GetTypeKey ob = Ret (Some (KeyPair m q)))
  ∧ (∀ n, a_module (get_attrs ob) = None →
          a_name (get_attrs ob) = Some n →
          GetTypeKey ob = Ret (Some (KeyName n)))
  ∧ (∀ m, a_module (get_attrs ob) = Some m →
          a_qualname (get_attrs ob) = None →
          GetTypeKey ob = Fatal "Signature: missing class name in GetTypeKey").
Proof.
  unfold GetTypeKey. repeat split.
  - intros m q -> ->. reflexivity.
  - intros n -> ->. reflexivity.
  - intros m -> ->. reflexivity.
Qed.

End ResolverFacts.


Lemma GetTypeKey_cases_witness :
  let cls := Resolver.EType
               (Resolver.Attrs (Some "PySide6.QtCore") (Some "QObject") (Some "QObject")) in
  let mod_ := Resolver.EModule (Resolver.Attrs None (Some "PySide6.QtCore") None) in
  let bad := Resolver.EType (Resolver.Attrs (Some "PySide6.QtCore") (Some "QObject") None) in
  Resolver.GetTypeKey cls = Ret (Some (Resolver.KeyPair "PySide6.QtCore" "QObject"))
  ∧ Resolver.GetTypeKey mod_ = Ret (Some (Resolver.KeyName "PySide6.QtCore"))
  ∧ Resolver.GetTypeKey bad = Fatal "Signature: missing class name in GetTypeKey".
Proof.
  cbn zeta. split; [|split].
  - apply (proj1 (GetTypeKey_cases _)); reflexivity.
  - apply (proj1 (proj2 (GetTypeKey_cases _))); reflexivity.
  - apply (proj2 (proj2 (GetTypeKey_cases _)) "PySide6.QtCore"); reflexivity.
Defined.

(** ** The newline scanner *)

Section LinesFacts.
Import Lines.

Lemma scan_fold rest : ∀ pre st,
  cdata st = pre ++ rest →
  fold_left scan_step (seq (length pre) (length rest)) st
  = scan_from (length pre) rest st.
Proof.
  induction rest as [|c rest IH]; intros pre st Hc; [reflexivity|].
  cbn [length seq fold_left scan_from].
  assert (Hl : cdata st !! length pre = Some c).
  { rewrite Hc. by rewrite list_lookup_middle. }
  unfold scan_step at 2. rewrite Hl.
  replace (S (length pre)) with (length (pre ++ [c]))
    by (rewrite length_app; cbn; lia).
  destruct (decide (c = newline)) as [->|Hn].
  - replace (length (pre ++ [newline])) with (length (pre ++ [nul]))
      by (rewrite !length_app; reflexivity).
    rewrite IH.
    + reflexivity.
    + cbn [cdata]. rewrite Hc.
      rewrite insert_app_r_alt by lia. rewrite Nat.sub_diag. cbn.
      by rewrite <- app_assoc.
  - apply IH. rewrite Hc. by rewrite <- app_assoc.
Qed.

Lemma count_newlines_cons c l :
  count_newlines (c :: l)
  = (if decide (c = newline) then 1 else 0) + count_newlines l.
Proof.
  unfold count_newlines. rewrite filter_cons.
  destruct (decide (c = newline)); reflexivity.
Qed.

Lemma length_starts rest : ∀ p line,
  length (starts p line rest) = count_newlines rest.
Proof.
  induction rest as [|c rest IH]; intros p line; [reflexivity|].
  rewrite count_newlines_cons. cbn [starts].
  destruct (decide (c = newline)); cbn [length]; rewrite IH; lia.
Qed.

Lemma scan_from_spec rest : ∀ pre st,
  cdata st = pre ++ rest →
  pos st + count_newlines rest ≤ length (lines st) →
  let st' := scan_from (length pre) rest st in
  cdata st' = pre ++ zeroed rest
  ∧ pos st' = pos st + count_newlines rest
  ∧ lines st' = take (pos st) (lines st)
                ++ (Some <$> starts (length pre) (line st) rest)
                ++ drop (pos st + count_newlines rest) (lines st).
Proof.
  induction rest as [|c rest IH]; intros pre st Hc Hsz.
  - cbn. rewrite Nat.add_0_r. rewrite take_drop. done.
  - cbn [scan_from starts zeroed fmap list_fmap].
    rewrite count_newlines_cons in Hsz |- *.
    replace (S (length pre)) with (length (pre ++ [c]))
      by (rewrite length_app; cbn; lia).
    destruct (decide (c = newline)) as [->|Hn]; cbn beta iota in Hsz |- *.
    + set (st1 := {| cdata := _ |}).
      replace (length (pre ++ [newline])) with (length (pre ++ [nul]))
        by (rewrite !length_app; reflexivity).
      destruct (IH (pre ++ [nul]) st1) as (H1 & H2 & H3).
      { cbn. rewrite Hc. rewrite insert_app_r_alt by lia.
        rewrite Nat.sub_diag. cbn. by rewrite <- app_assoc. }
      { cbn [pos lines st1]. rewrite length_insert. lia. }
      rewrite H1, H2, H3. cbn [pos lines line st1].
      split; [by rewrite <- app_assoc|]. split; [lia|].
      rewrite drop_insert_lt by lia.
      rewrite (take_S_r _ _ (Some (line st))).
      2:{ apply list_lookup_insert_eq. lia. }
      rewrite take_insert_ge by lia.
      rewrite <- !app_assoc. cbn.
      do 3 f_equal; [by rewrite !length_app|f_equal; lia].
    + destruct (IH (pre ++ [c]) st) as (H1 & H2 & H3).
      { rewrite Hc. by rewrite <- app_assoc. }
      { lia. }
      rewrite H1, H2, H3.
      split; [by rewrite <- app_assoc|]. split; [lia|]. reflexivity.
Qed.

Lemma c_str_of_app_nul a b : c_str_of (a ++ nul :: b) = c_str_of a.
Proof.
  induction a as [|c a IH]; cbn.
  - by destruct (decide (nul = nul)).
  - destruct (decide (c = nul)); [done|]. by rewrite IH.
Qed.

Lemma c_str_of_id l : nul ∉ l → c_str_of l = l.
Proof.
  induction l as [|c l IH]; intros Hn; [done|]. cbn.
  destruct (decide (c = nul)) as [->|?].
  - exfalso. apply Hn. left.
  - f_equal. apply IH. intros ?. apply Hn. by right.
Qed.

Lemma zeroed_app a b : zeroed (a ++ b) = zeroed a ++ zeroed b.
Proof. apply fmap_app. Qed.

Lemma length_zeroed a : length (zeroed a) = length a.
Proof. apply length_fmap. Qed.

Lemma c_str_starts rest : ∀ pre cur line,
  line ≤ length pre →
  drop line (zeroed pre) = reverse cur →
  c_str (zeroed (pre ++ rest)) <$> starts (length pre) line rest
  = c_str_of <$> lines_of cur rest.
Proof.
  induction rest as [|c rest IH]; intros pre cur line Hle Hcur; [reflexivity|].
  cbn [starts lines_of].
  replace (S (length pre)) with (length (pre ++ [c]))
    by (rewrite length_app; cbn; lia).
  replace (pre ++ c :: rest) with ((pre ++ [c]) ++ rest)
    by (by rewrite <- app_assoc).
  destruct (decide (c = newline)) as [->|Hn].
  - cbn [fmap list_fmap]. f_equal.
    + unfold c_str. rewrite <- app_assoc, zeroed_app.
      rewrite drop_app_le by (rewrite length_zeroed; lia).
      rewrite Hcur. cbn.
      destruct (decide (newline = newline)); [|done].
      apply c_str_of_app_nul.
    + apply IH; [lia|]. rewrite drop_ge; [reflexivity|].
      rewrite length_zeroed. lia.
  - apply IH.
    + rewrite length_app. lia.
    + rewrite zeroed_app.
      rewrite drop_app_le by (rewrite length_zeroed; lia).
      rewrite Hcur, reverse_cons. cbn. by destruct (decide (c = newline)).
Qed.

Lemma until_null_app {A} (l : list A) r :
  until_null ((Some <$> l) ++ None :: r) = l.
Proof. induction l as [|x l IH]; cbn; [done|]. by rewrite IH. Qed.

Lemma split_lines_array data :
  (split_lines data).1 = zeroed data
  ∧ (split_lines data).2 = (Some <$> starts 0 0 data) ++ [None].
Proof.
  unfold split_lines. cbn [fst snd].
  set (st0 := {| cdata := data |}).
  pose proof (scan_fold data [] st0 eq_refl) as Hf. cbn [length] in Hf.
  rewrite Hf.
  destruct (scan_from_spec data [] st0 eq_refl) as (H1 & H2 & H3).
  { cbn. rewrite length_replicate. lia. }
  cbn [length] in H1, H2, H3. rewrite H1, H2, H3. cbn [pos lines line st0 app].
  split; [reflexivity|].
  rewrite take_0. cbn [app Nat.add].
  rewrite drop_replicate.
  replace (count_newlines data + 1 - count_newlines data) with 1 by lia.
  cbn [replicate].
  rewrite insert_app_r_alt by (rewrite length_fmap, length_starts; lia).
  rewrite length_fmap, length_starts, Nat.sub_diag. reflexivity.
Qed.

Lemma strings_of_split_lines data :
  strings_of (split_lines data) = c_str_of <$> lines_of [] data.
Proof.
  destruct (split_lines_array data) as [G1 G2].
  unfold strings_of. rewrite G1, G2, until_null_app.
  apply (c_str_starts data [] [] 0); [cbn; lia|reflexivity].
Qed.

Lemma lines_of_tail data : ∀ cur tail,
  newline ∉ tail → lines_of cur (data ++ tail) = lines_of cur data.
Proof.
  induction data as [|c data IH]; intros cur tail Hn.
  - cbn. revert cur. induction tail as [|c tail IHt]; intros cur; [done|].
    cbn. destruct (decide (c = newline)) as [->|?].
    + exfalso. apply Hn. left.
    + apply IHt. intros ?. apply Hn. by right.
  - cbn. destruct (decide (c = newline)); by rewrite IH.
Qed.

Lemma lines_of_no_nul data : ∀ cur,
  nul ∉ cur → nul ∉ data → Forall (fun l => nul ∉ l) (lines_of cur data).
Proof.
  induction data as [|c data IH]; intros cur Hc Hd; cbn; [constructor|].
  assert (nul ∉ data) by (intros ?; apply Hd; by right).
  destruct (decide (c = newline)).
  - constructor.
    + by rewrite elem_of_reverse.
    + apply IH; [apply not_elem_of_nil|done].
  - apply IH; [|done].
    intros [E|?]%elem_of_cons; [apply Hd; rewrite E; left|done].
Qed.

(** The array the scan builds has one entry for each newline of the payload
    and a null after them; the strings read from it are the lines of the
    payload in order (as C strings, so a line is read up to a zero byte if it
    has one); bytes after the last newline belong to no entry. *)
Lemma split_lines_spec (data : list byte) :
  (∃ offs, (split_lines data).2 = (Some <$> offs) ++ [None]
           ∧ length offs = count_newlines data)
  ∧ length (strings_of (split_lines data)) = count_newlines data
  ∧ strings_of (split_lines data) = c_str_of <$> lines_of [] data
  ∧ (nul ∉ data → strings_of (split_lines data) = lines_of [] data)
  ∧ (∀ tail, newline ∉ tail →
       strings_of (split_lines (data ++ tail)) = strings_of (split_lines data)).
Proof.
  destruct (split_lines_array data) as [H1 H2].
  split; [|split; [|split; [|split]]].
  - exists (starts 0 0 data). split; [done|]. apply length_starts.
  - unfold strings_of. rewrite H2, until_null_app, length_fmap.
    apply length_starts.
  - apply strings_of_split_lines.
  - intros Hn. rewrite strings_of_split_lines.
    pose proof (lines_of_no_nul data [] (not_elem_of_nil _) Hn) as Hall.
    induction Hall as [|l ls Hl _ IH]; [done|].
    cbn. by rewrite c_str_of_id, IH.
  - intros tail Hn. rewrite !strings_of_split_lines.
    by rewrite lines_of_tail.
Qed.

End LinesFacts.


(** ** Heap primitives *)

Section HeapFacts.
Import Heap.

Lemma alloc_eq o (h : heap) : alloc o h = (h ++ [o], length h).
Proof. reflexivity. Qed.

Lemma PyDict_Copy_dict (h : heap) a d :
  h !! a = Some (ObDict d) →
  PyDict_Copy (Some a) h = (h ++ [ObDict d], Some (length h)).
Proof. intros H. unfold PyDict_Copy. cbn. by rewrite H. Qed.

Lemma PyDict_GetItem_dict (h : heap) a d k :
  h !! a = Some (ObDict d) →
  PyDict_GetItem (Some a) k h = (h, dict_get k d).
Proof. intros H. unfold PyDict_GetItem. cbn. by rewrite H. Qed.

Lemma PyDict_SetItem_dict (h : heap) a d k v :
  h !! a = Some (ObDict d) →
  PyDict_SetItem (Some a) k (Some v) h
  = (<[a := ObDict (dict_set k v d)]> h, 0%Z).
Proof. intros H. unfold PyDict_SetItem. by rewrite H. Qed.

Lemma insert_last (h : heap) o o' : <[length h := o']> (h ++ [o]) = h ++ [o'].
Proof.
  rewrite insert_app_r_alt by lia. by rewrite Nat.sub_diag.
Qed.

Lemma lookup_last (h : heap) o : (h ++ [o]) !! length h = Some o.
Proof. by rewrite list_lookup_middle. Qed.

Lemma dict_get_set k v es : dict_get k (dict_set k v es) = Some v.
Proof.
  induction es as [|[k' v'] es IH]; cbn.
  - by rewrite decide_True.
  - destruct (decide (k = k')) as [->|Hn]; cbn.
    + by rewrite decide_True.
    + by rewrite decide_False.
Qed.

Lemma dict_get_set_ne k k' v es :
  k ≠ k' → dict_get k' (dict_set k v es) = dict_get k' es.
Proof.
  intros Hn. induction es as [|[k0 v0] es IH]; cbn.
  - by rewrite decide_False.
  - destruct (decide (k = k0)) as [->|Hn0]; cbn.
    + by rewrite !decide_False.
    + destruct (decide (k' = k0)); [done|exact IH].
Qed.

Lemma dict_get_Some_keys k v es : dict_get k es = Some v → k ∈ es.*1.
Proof.
  induction es as [|[k0 v0] es IH]; cbn; [done|].
  destruct (decide (k = k0)) as [->|?]; intros H.
  - left.
  - right. by apply IH.
Qed.

Lemma dict_get_None_keys k es : dict_get k es = None ↔ k ∉ es.*1.
Proof.
  induction es as [|[k0 v0] es IH]; cbn.
  - split; [intros _; apply not_elem_of_nil|done].
  - destruct (decide (k = k0)) as [->|?].
    + split; [done|]. intros H. exfalso. apply H. left.
    + rewrite IH. rewrite not_elem_of_cons. naive_solver.
Qed.

Lemma dict_set_keys_in k v es :
  k ∈ es.*1 → (dict_set k v es).*1 = es.*1.
Proof.
  induction es as [|[k0 v0] es IH]; cbn; [by intros ?%elem_of_nil|].
  destruct (decide (k = k0)) as [->|?]; cbn; [done|].
  intros [?|?]%elem_of_cons; [done|]. f_equal. by apply IH.
Qed.

Lemma dict_set_keys_notin k v es :
  k ∉ es.*1 → dict_set k v es = es ++ [(k, v)].
Proof.
  induction es as [|[k0 v0] es IH]; cbn; [done|].
  intros [? ?]%not_elem_of_cons.
  rewrite decide_False by done. f_equal. by apply IH.
Qed.

Lemma dict_set_keys k v es k' :
  k' ∈ (dict_set k v es).*1 ↔ k' = k ∨ k' ∈ es.*1.
Proof.
  destruct (decide (k ∈ es.*1)) as [Hin|Hnin].
  - rewrite dict_set_keys_in by done. naive_solver.
  - rewrite dict_set_keys_notin by done.
    rewrite fmap_app, elem_of_app. cbn. rewrite list_elem_of_singleton.
    naive_solver.
Qed.

End HeapFacts.

(** ** Name variants *)

Section VariantsFacts.
Import Heap Variants.

Variable getSnakeCaseName : string -> string.

Lemma item_dict_Some (h : heap) it d :
  item_dict h it = Some d ↔ ∃ a, it = Some a ∧ h !! a = Some (ObDict d).
Proof.
  unfold item_dict. destruct it as [a|]; cbn.
  - split.
    + destruct (h !! a) as [[]|] eqn:E; try discriminate.
      intros [= ->]. exists a. by rewrite ?E.
    + intros (a' & [= <-] & ->). reflexivity.
  - split; [discriminate|]. intros (a' & [=] & _).
Qed.

Lemma item_dict_prefix (h h' : heap) it d :
  h `prefix_of` h' → item_dict h it = Some d → item_dict h' it = Some d.
Proof.
  intros [k ->]. rewrite !item_dict_Some. intros (a & -> & Ha).
  exists a. split; [done|]. by apply lookup_app_l_Some.
Qed.

Lemma family_Some (h : heap) es items :
  family h es = Some items ↔
  ∃ m, dict_get "multi" es = Some m ∧ h !! m = Some (ObList items).
Proof.
  unfold family. destruct (dict_get "multi" es) as [m|]; cbn.
  - split.
    + destruct (h !! m) as [[]|] eqn:E; try discriminate.
      intros [= ->]. exists m. by rewrite ?E.
    + intros (m' & [= <-] & ->). reflexivity.
  - split; [discriminate|]. intros (m' & [=] & _).
Qed.

(** The state of the heap while the loop of [_build_new_entry] runs: after the
    objects of [h] come the new record [X], the new list with [i] slots set,
    and the [i] copies made so far. *)
Lemma copy_multi_spec (h : heap) new_name m items X ds :
  h !! m = Some (ObList items) →
  Forall2 (fun it d => item_dict h it = Some d) items ds →
  ∀ rest done_,
    ds = done_ ++ rest →
    copy_multi new_name (Some m) (Some (S (length h)))
      (seq (length done_) (length rest))
      (h ++ X :: ObList ((Some <$> seq (length h + 2) (length done_))
                         ++ replicate (length rest) None)
            :: (renamed new_name <$> done_))
    = (h ++ X :: ObList (Some <$> seq (length h + 2) (length ds))
          :: (renamed new_name <$> ds), true).
Proof.
  intros Hm Hall. induction rest as [|d rest IH]; intros done_ Hds.
  - cbn. rewrite app_nil_r in Hds. subst done_. by rewrite app_nil_r.
  - cbn [length seq copy_multi].
    set (hi := h ++ _).
    assert (Hd : ds !! length done_ = Some d).
    { rewrite Hds. by rewrite list_lookup_middle. }
    destruct (Forall2_lookup_r _ _ _ _ _ Hall Hd) as (it & Hit & Hid).
    apply item_dict_Some in Hid as (a & -> & Ha).
    assert (Hlen : length hi = length h + 2 + length done_).
    { unfold hi. rewrite length_app. cbn. rewrite length_fmap. lia. }
    unfold bind at 1. unfold PyList_GetItem at 1. cbn [mbind option_bind].
    assert (Hmi : hi !! m = Some (ObList items))
      by (by apply lookup_app_l_Some).
    rewrite Hmi, Hit. cbn [mjoin option_join].
    assert (Hai : hi !! a = Some (ObDict d))
      by (by apply lookup_app_l_Some).
    unfold bind at 1. rewrite (PyDict_Copy_dict _ _ _ Hai).
    unfold bind at 1.
    rewrite (PyDict_SetItem_dict _ _ d) by apply lookup_last.
    rewrite insert_last. cbn [Z.ltb Z.compare].
    unfold bind at 1. unfold PyList_SetItem at 1.
    assert (Hl : (hi ++ [ObDict (dict_set "name" new_name d)])
                   !! S (length h)
                 = Some (ObList ((Some <$> seq (length h + 2) (length done_))
                                 ++ replicate (S (length rest)) None))).
    { unfold hi. rewrite <- app_assoc.
      rewrite lookup_app_r by lia.
      replace (S (length h) - length h) with 1 by lia. reflexivity. }
    rewrite Hl.
    rewrite decide_True.
    2:{ rewrite length_app, length_fmap, length_seq, length_replicate. lia. }
    cbn [Z.ltb Z.compare].
    specialize (IH (done_ ++ [d])).
    rewrite length_app in IH. cbn [length] in IH.
    replace (length done_ + 1) with (S (length done_)) in IH by lia.
    rewrite <- IH; [|by rewrite <- app_assoc].
    f_equal. rewrite Hlen. unfold hi. rewrite <- app_assoc. cbn [app].
    rewrite insert_app_r_alt by lia.
    replace (S (length h) - length h) with 1 by lia. cbn [list_insert].
    rewrite insert_app_r_alt by (rewrite length_fmap, length_seq; lia).
    rewrite length_fmap, length_seq, Nat.sub_diag. cbn [replicate list_insert].
    rewrite seq_S, !fmap_app, <- !app_assoc. reflexivity.
Qed.

(** What [_build_new_entry] does on a record: it appends
    [new_entry_objects] and returns the first of them. *)
Lemma _build_new_entry_spec (h : heap) new_name value es k :
  h !! value = Some (ObDict es) →
  new_entry_objects h new_name es = Some k →
  _build_new_entry new_name value h = (h ++ k, Some (length h)).
Proof.
  intros Hv Hk. unfold _build_new_entry.
  unfold bind at 1. rewrite (PyDict_Copy_dict _ _ _ Hv).
  unfold bind at 1.
  assert (Hv' : (h ++ [ObDict es]) !! value = Some (ObDict es))
    by (by apply lookup_app_l_Some).
  rewrite (PyDict_GetItem_dict _ _ _ _ Hv').
  unfold new_entry_objects in Hk.
  destruct (family h es) as [items|] eqn:Hf.
  - apply family_Some in Hf as (m & Hm & Hl).
    destruct (mapM (item_dict h) items) as [ds|] eqn:Hds; [|discriminate].
    cbn in Hk. injection Hk as <-.
    apply mapM_Some in Hds.
    assert (Hl' : (h ++ [ObDict es]) !! m = Some (ObList items))
      by (by apply lookup_app_l_Some).
    unfold bind at 1. unfold PyList_CheckExact at 1. rewrite Hm. cbn [mbind option_bind].
    rewrite Hl'.
    unfold bind at 1. unfold PyList_Size at 1. cbn [mbind option_bind].
    rewrite Hl'.
    unfold bind at 1. unfold PyList_New, bind, alloc, ret.
    cbn beta iota zeta.
    rewrite bool_decide_eq_true_2 by eauto. cbn [negb].
    rewrite length_app. cbn [length].
    replace (length h + 1) with (S (length h)) by lia.
    pose proof (copy_multi_spec h new_name m items (ObDict es) ds Hl Hds ds []
                  eq_refl) as Hc.
    cbn [length seq fmap list_fmap app] in Hc.
    rewrite <- (Forall2_length _ _ _ Hds) in Hc.
    rewrite <- app_assoc. cbn [app].
    rewrite Hc. cbn [negb].
    assert (Hn : (h ++ ObDict es
                    :: ObList (Some <$> seq (length h + 2) (length items))
                    :: (renamed new_name <$> ds)) !! length h
                 = Some (ObDict es)) by (by rewrite list_lookup_middle).
    rewrite (PyDict_SetItem_dict _ _ _ _ _ Hn). cbn [Z.ltb Z.compare].
    f_equal. rewrite insert_app_r_alt by lia. by rewrite Nat.sub_diag.
  - assert (Hnl : (PyList_CheckExact (dict_get "multi" es) (h ++ [ObDict es])).2
                  = false).
    { unfold PyList_CheckExact. unfold family in Hf.
      destruct (dict_get "multi" es) as [m|] eqn:Hm; cbn in *; [|done].
      destruct (decide (m < length h)) as [Hlt|Hge].
      - rewrite lookup_app_l by done. by destruct (h !! m) as [[]|].
      - destruct (decide (m = length h)) as [->|?].
        + by rewrite lookup_last.
        + rewrite lookup_ge_None_2; [done|]. rewrite length_app. cbn. lia. }
    injection Hk as <-.
    unfold bind at 1.
    destruct (PyList_CheckExact (dict_get "multi" es) (h ++ [ObDict es]))
      as [h1 b] eqn:Hce.
    assert (h1 = h ++ [ObDict es]) as ->.
    { unfold PyList_CheckExact in Hce.
      destruct (dict_get "multi" es ≫= _) as [[]|]; by injection Hce. }
    cbn in Hnl. subst b.
    unfold bind at 1.
    rewrite (PyDict_SetItem_dict _ _ es) by apply lookup_last.
    rewrite insert_last. reflexivity.
Qed.

End VariantsFacts.

Section SnakeLoopFacts.
Import Heap Variants.

Variable getSnakeCaseName : string -> string.

(** [h] is the heap at the call of [insert_snake_case_variants]; the heaps
    [hc] of the loop keep its objects. *)
Variable h : heap.

Local Abbreviation keeps := (Variants.keeps h).

Lemma keeps_app hc k : keeps hc → keeps (hc ++ k).
Proof. intros H a o Ha. apply lookup_app_l_Some. by apply H. Qed.

Lemma keeps_insert hc a o : keeps hc → length h ≤ a → keeps (<[a := o]> hc).
Proof.
  intros H Hle b o' Hb. rewrite list_lookup_insert_ne.
  - by apply H.
  - apply lookup_lt_Some in Hb. lia.
Qed.

Lemma keeps_length hc : keeps hc → length h ≤ length hc.
Proof.
  intros H. destruct (decide (length h = 0)) as [|Hn]; [lia|].
  destruct (lookup_lt_is_Some_2 h (length h - 1)) as [o Ho]; [lia|].
  apply H, lookup_lt_Some in Ho. lia.
Qed.

Lemma keeps_item_dict hc it d :
  keeps hc → item_dict h it = Some d → item_dict hc it = Some d.
Proof.
  intros H. rewrite !item_dict_Some. intros (a & -> & Ha).
  exists a. split; [done|]. by apply H.
Qed.

Lemma wf_record_inv v :
  wf_record h v = true →
  ∃ es, h !! v = Some (ObDict es)
        ∧ (∀ m, dict_get "multi" es = Some m → is_Some (h !! m))
        ∧ (∀ items, family h es = Some items →
             ∃ ds, mapM (item_dict h) items = Some ds).
Proof.
  unfold wf_record. destruct (h !! v) as [[| |es|]|] eqn:Hv; try discriminate.
  intros Hwf. exists es. split; [done|].
  destruct (dict_get "multi" es) as [m|] eqn:Hm.
  - split.
    + intros m' [= <-]. destruct (h !! m); [eauto|discriminate].
    + intros items (m' & Hm' & Hl)%family_Some.
      rewrite Hm in Hm'. injection Hm' as <-. rewrite Hl in Hwf.
      induction items as [|it items IH]; [by exists []|].
      cbn in Hwf. apply andb_prop in Hwf as [Hit Hwf].
      apply bool_decide_eq_true in Hit as [d Hd].
      cbn. rewrite Hd. cbn.
      assert (Hl' : ∃ ds, mapM (item_dict h) items = Some ds).
      { clear IH Hl. induction items as [|it' items IH']; [by exists []|].
        cbn in Hwf. apply andb_prop in Hwf as [Hit' Hwf].
        apply bool_decide_eq_true in Hit' as [d' Hd'].
        destruct (IH' Hwf) as [ds Hds]. exists (d' :: ds).
        cbn. rewrite Hd'. cbn. by rewrite Hds. }
      destruct Hl' as [ds Hds]. exists (d :: ds). by rewrite Hds.
  - split; [discriminate|].
    intros items (m' & Hm' & _)%family_Some. by rewrite Hm in Hm'.
Qed.

Lemma keeps_family hc es :
  keeps hc →
  (∀ m, dict_get "multi" es = Some m → is_Some (h !! m)) →
  family hc es = family h es.
Proof.
  intros H Hval. unfold family.
  destruct (dict_get "multi" es) as [m|]; [|done]. cbn.
  destruct (Hval m eq_refl) as [o Ho]. by rewrite Ho, (H _ _ Ho).
Qed.

Lemma keeps_mapM hc items ds :
  keeps hc →
  mapM (item_dict h) items = Some ds → mapM (item_dict hc) items = Some ds.
Proof.
  intros H. rewrite !mapM_Some. intros HF.
  eapply Forall2_impl; [exact HF|].
  intros it d. by apply keeps_item_dict.
Qed.

(** One call of [_build_new_entry] in the loop. *)
Lemma _build_new_entry_copy hc nm value es :
  keeps hc → wf_record h value = true → h !! value = Some (ObDict es) →
  ∃ k, _build_new_entry nm value hc = (hc ++ k, Some (length hc))
       ∧ copy_at h (hc ++ k) (length hc) nm es.
Proof.
  intros Hk Hwf Hv.
  destruct (wf_record_inv _ Hwf) as (es' & Hv' & Hval & Hfam).
  rewrite Hv in Hv'. injection Hv' as <-.
  pose proof (keeps_length _ Hk) as Hlen.
  unfold copy_at.
  destruct (family h es) as [items|] eqn:Hf.
  - destruct (Hfam items eq_refl) as [ds Hds].
    eexists. split.
    + apply (_build_new_entry_spec _ _ _ es); [by apply Hk|].
      unfold new_entry_objects. rewrite (keeps_family _ _ Hk Hval), Hf.
      rewrite (keeps_mapM _ _ _ Hk Hds). reflexivity.
    + exists (S (length hc)), (seq (length hc + 2) (length items)).
      split; [lia|]. split; [by rewrite list_lookup_middle|]. split.
      * rewrite lookup_app_r by lia.
        replace (S (length hc) - length hc) with 1 by lia. reflexivity.
      * apply mapM_Some in Hds.
        apply Forall2_same_length_lookup. split.
        { by rewrite length_seq. }
        intros i it dup Hit Hdup.
        apply lookup_seq in Hdup as [-> Hi].
        split; [lia|].
        destruct (Forall2_lookup_l _ _ _ _ _ Hds Hit) as (d & Hd & Hid).
        exists d. split; [done|].
        rewrite lookup_app_r by lia.
        replace (length hc + 2 + i - length hc) with (S (S i)) by lia.
        change ((renamed nm <$> ds) !! i = Some (renamed nm d)).
        by rewrite list_lookup_fmap, Hd.
  - eexists. split.
    + apply (_build_new_entry_spec _ _ _ es); [by apply Hk|].
      unfold new_entry_objects. by rewrite (keeps_family _ _ Hk Hval), Hf.
    + by rewrite list_lookup_middle.
Qed.

Local Abbreviation keeps_above := (Variants.keeps_above h).

Lemma copy_at_mono hc hc' nv nm es :
  keeps_above hc hc' → length h < nv →
  copy_at h hc nv nm es → copy_at h hc' nv nm es.
Proof.
  intros Hk Hnv. unfold copy_at. destruct (family h es) as [items|].
  - intros (l & dups & Hl & H1 & H2 & H3). exists l, dups.
    split; [done|]. split; [by apply Hk|]. split; [by apply Hk|].
    eapply Forall2_impl; [exact H3|]. cbn.
    intros it dup (Hd & d & Hid & Hdup). split; [done|].
    exists d. split; [done|]. by apply Hk.
  - by apply Hk.
Qed.

Lemma variant_entry_mono hc hc' src k nv :
  keeps_above hc hc' →
  variant_entry getSnakeCaseName h hc src k nv →
  variant_entry getSnakeCaseName h hc' src k nv.
Proof.
  intros Hk (key & value & es & nm & H1 & H2 & H3 & H4 & H5 & H6 & H7).
  exists key, value, es, nm. repeat (split; [done|]).
  split; [by apply Hk|]. split; [done|]. by eapply copy_at_mono.
Qed.

Lemma Forall_dict_set (P : string * addr → Prop) k v es :
  Forall P es → P (k, v) → Forall P (dict_set k v es).
Proof.
  intros H Hkv. induction H as [|[k' v'] es Hx Hes IH]; cbn.
  - by constructor.
  - destruct (decide (k = k')); constructor; done.
Qed.

Lemma snake_loop_spec src items : ∀ sd G,
  Forall (fun '(k, v) => wf_record h v = true ∧ (k, v) ∈ src) items →
  Forall (fun '(k, nv) =>
            variant_entry getSnakeCaseName h (h ++ ObDict sd :: G) src k nv) sd →
  ∃ sd' G',
    snake_loop getSnakeCaseName (Some (length h)) items (h ++ ObDict sd :: G)
    = (h ++ ObDict sd' :: G', true)
    ∧ Forall (fun '(k, nv) =>
                variant_entry getSnakeCaseName h (h ++ ObDict sd' :: G') src k nv)
             sd'
    ∧ (∀ k, k ∈ sd'.*1 ↔ k ∈ sd.*1 ∨ k ∈ getSnakeCaseName <$> items.*1).
Proof.
  induction items as [|[key value] items IH]; intros sd G Hwf Hsd.
  - exists sd, G. split; [reflexivity|]. split; [done|].
    intros k. cbn. rewrite elem_of_nil. naive_solver.
  - apply Forall_cons in Hwf as [[Hwf Hin] Hrest].
    destruct (wf_record_inv _ Hwf) as (es & Hv & _).
    set (hc := h ++ ObDict sd :: G).
    assert (Hk : keeps hc) by (intros a o Ha; by apply lookup_app_l_Some).
    set (hc1 := hc ++ [ObStr (getSnakeCaseName key)]).
    destruct (_build_new_entry_copy hc1 (length hc) value es
                (keeps_app _ _ Hk) Hwf Hv) as (k & Hb & Hcopy).
    cbn [snake_loop]. unfold bind at 1. rewrite alloc_eq.
    unfold bind at 1. fold hc1. rewrite Hb.
    unfold bind at 1.
    assert (Hsdl : (hc1 ++ k) !! length h = Some (ObDict sd)).
    { unfold hc1, hc. rewrite <- !app_assoc. cbn [app].
      by rewrite list_lookup_middle. }
    rewrite (PyDict_SetItem_dict _ _ _ _ _ Hsdl). cbn [Z.ltb Z.compare].
    set (sd1 := dict_set (getSnakeCaseName key) (length hc1) sd).
    set (G1 := G ++ [ObStr (getSnakeCaseName key)] ++ k).
    assert (Hh : <[length h := ObDict sd1]> (hc1 ++ k) = h ++ ObDict sd1 :: G1).
    { unfold hc1, hc, G1. rewrite <- !app_assoc. cbn [app].
      rewrite insert_app_r_alt by lia. by rewrite Nat.sub_diag. }
    rewrite Hh.
    assert (Hab : ∀ hx, keeps_above hx (hc1 ++ k) →
                  keeps_above hx (h ++ ObDict sd1 :: G1)).
    { intros hx Hx a o Ha Hl. rewrite <- Hh.
      rewrite list_lookup_insert_ne by lia. by apply Hx. }
    assert (Hlen : length h < length hc).
    { unfold hc. rewrite length_app. cbn. lia. }
    destruct (IH sd1 G1 Hrest) as (sd' & G' & Hrun & Hall & Hkeys).
    { apply Forall_dict_set.
      - eapply Forall_impl; [exact Hsd|]. intros [k0 nv0] Hve.
        eapply variant_entry_mono; [|exact Hve].
        apply Hab. intros a o _ Ha. fold hc in Ha.
        unfold hc1. rewrite <- app_assoc. by apply lookup_app_l_Some.
      - exists key, value, es, (length hc).
        split; [done|]. split; [done|]. split; [done|]. split; [done|].
        split.
        { apply (Hab (hc1 ++ k)); [by intros ? ? _ ?|done|].
          unfold hc1. rewrite <- app_assoc. cbn [app].
          by rewrite list_lookup_middle. }
        assert (length h < length hc1)
          by (unfold hc1; rewrite length_app; lia).
        split; [done|].
        eapply copy_at_mono; [|done|exact Hcopy].
        apply Hab. by intros ? ? _ ?. }
    exists sd', G'. split; [exact Hrun|]. split; [exact Hall|].
    intros k0. rewrite Hkeys. unfold sd1. rewrite dict_set_keys.
    cbn. rewrite elem_of_cons. naive_solver.
Qed.

End SnakeLoopFacts.

Section MergeFacts.
Import Heap Variants.

Lemma dict_merge_cons override es k v sd :
  dict_merge override es ((k, v) :: sd)
  = dict_merge override
      (if override || negb (bool_decide (is_Some (dict_get k es)))
       then dict_set k v es else es) sd.
Proof. reflexivity. Qed.

Lemma dict_merge_get sd : ∀ es k,
  dict_get k (dict_merge false es sd)
  = match dict_get k es with Some v => Some v | None => dict_get k sd end.
Proof.
  induction sd as [|[k0 v0] sd IH]; intros es k.
  - cbn. by destruct (dict_get k es).
  - rewrite dict_merge_cons, IH. cbn [orb dict_get].
    destruct (dict_get k0 es) as [w|] eqn:H0.
    + rewrite bool_decide_eq_true_2 by eauto. cbn [negb].
      destruct (dict_get k es) eqn:Hk; [done|].
      destruct (decide (k = k0)) as [->|?]; [congruence|done].
    + rewrite bool_decide_eq_false_2 by (by intros [? ?]). cbn [negb].
      destruct (decide (k = k0)) as [->|Hne].
      * by rewrite dict_get_set, H0.
      * by rewrite dict_get_set_ne.
Qed.

Lemma dict_merge_keep es sd k v :
  dict_get k es = Some v → dict_get k (dict_merge false es sd) = Some v.
Proof. intros H. by rewrite dict_merge_get, H. Qed.

Lemma dict_merge_id sd : ∀ es,
  (∀ k, k ∈ sd.*1 → k ∈ es.*1) → dict_merge false es sd = es.
Proof.
  induction sd as [|[k0 v0] sd IH]; intros es Hsub; [done|].
  rewrite dict_merge_cons. cbn [orb].
  destruct (dict_get k0 es) as [w|] eqn:H0.
  - rewrite bool_decide_eq_true_2 by eauto. cbn [negb].
    apply IH. intros k Hk. apply Hsub. by right.
  - apply dict_get_None_keys in H0. exfalso. apply H0, Hsub. left.
Qed.

Lemma dict_set_elem k v es x :
  x ∈ dict_set k v es → x = (k, v) ∨ x ∈ es.
Proof.
  induction es as [|[k' v'] es IH]; cbn.
  - intros ?%list_elem_of_singleton. by left.
  - destruct (decide (k = k')).
    + intros [->|?]%elem_of_cons; [by left|]. right. by right.
    + intros [->|?]%elem_of_cons; [right; left|].
      destruct IH as [?|?]; [done|by left|]. right. by right.
Qed.

Lemma dict_merge_elem sd : ∀ es x,
  x ∈ dict_merge false es sd → x ∈ es ∨ x ∈ sd.
Proof.
  induction sd as [|[k0 v0] sd IH]; intros es x; [by left|].
  rewrite dict_merge_cons. cbn [orb]. intros Hx.
  apply IH in Hx as [Hx|Hx]; [|right; by right].
  destruct (negb _); [|by left].
  apply dict_set_elem in Hx as [->|?]; [right; left|by left].
Qed.

Lemma dict_merge_keys sd es k :
  k ∈ (dict_merge false es sd).*1 ↔ k ∈ es.*1 ∨ k ∈ sd.*1.
Proof.
  pose proof (dict_merge_get sd es k) as Hg.
  destruct (decide (k ∈ (dict_merge false es sd).*1)) as [Hin|Hnin].
  - split; [|done]. intros _.
    destruct (dict_get k es) eqn:He.
    + left. by eapply dict_get_Some_keys.
    + right. destruct (dict_get k sd) eqn:Hs.
      * by eapply dict_get_Some_keys.
      * by apply dict_get_None_keys in Hg.
  - split; [done|]. intros Hor. exfalso.
    apply dict_get_None_keys in Hnin. rewrite Hnin in Hg.
    destruct (dict_get k es) eqn:He; [done|].
    symmetry in Hg.
    apply dict_get_None_keys in He, Hg. tauto.
Qed.

End MergeFacts.

Section RunFacts.
Import Heap Variants.

Variable getSnakeCaseName : string -> string.

Lemma dict_get_Some_elem k v es : dict_get k es = Some v → (k, v) ∈ es.
Proof.
  induction es as [|[k0 v0] es IH]; cbn; [done|].
  destruct (decide (k = k0)) as [->|?].
  - intros [= ->]. left.
  - intros H. right. by apply IH.
Qed.

Lemma wf_props_inv (h : heap) d :
  wf_props h d = true →
  ∃ es, h !! d = Some (ObDict es)
        ∧ Forall (fun '(_, v) => v ≠ d ∧ wf_record h v = true) es.
Proof.
  unfold wf_props. destruct (h !! d) as [[| |es|]|]; try discriminate.
  intros H. exists es. split; [done|].
  apply Forall_forall. intros [k v] Hin.
  rewrite forallb_forall in H. apply list_elem_of_In, H in Hin.
  apply andb_prop in Hin as [Hne Hwf]. split; [|done].
  apply negb_true_iff, bool_decide_eq_false in Hne. done.
Qed.

(** One run: the dict of variants [sd] is built behind the objects of [h]
    and merged into [dict]. *)
Lemma insert_snake_case_variants_run (h : heap) dict es :
  h !! dict = Some (ObDict es) →
  Forall (fun '(_, v) => v ≠ dict ∧ wf_record h v = true) es →
  ∃ sd G,
    insert_snake_case_variants getSnakeCaseName dict h
    = (<[dict := ObDict (dict_merge false es sd)]> (h ++ ObDict sd :: G), 0%Z)
    ∧ Forall (fun '(k, nv) =>
                variant_entry getSnakeCaseName h (h ++ ObDict sd :: G) es k nv)
             sd
    ∧ (∀ k, k ∈ sd.*1 ↔ k ∈ getSnakeCaseName <$> es.*1).
Proof.
  intros Hd Hwf.
  destruct (snake_loop_spec getSnakeCaseName h es es [] []) as
    (sd & G & Hrun & Hall & Hkeys).
  { apply Forall_forall. intros [k v] Hin.
    rewrite Forall_forall in Hwf. by destruct (Hwf _ Hin). }
  { constructor. }
  exists sd, G. split; [|split; [exact Hall|]].
  - unfold insert_snake_case_variants.
    unfold bind at 1. unfold PyDict_New, bind, alloc, ret.
    unfold PyDict_Next.
    rewrite (lookup_app_l_Some _ _ _ _ Hd).
    rewrite Hrun. cbn [negb].
    unfold PyDict_Merge. cbn [mbind option_bind].
    rewrite (lookup_app_l_Some _ _ _ _ Hd).
    by rewrite list_lookup_middle.
  - intros k. rewrite Hkeys. cbn. rewrite elem_of_nil. naive_solver.
Qed.

(** The records of [h] stay records when [dict] gets other entries. *)
Lemma wf_record_update (h h1 : heap) dict es es1 v :
  h !! dict = Some (ObDict es) → h1 !! dict = Some (ObDict es1) →
  (∀ a o, a ≠ dict → h !! a = Some o → h1 !! a = Some o) →
  v ≠ dict → wf_record h v = true → wf_record h1 v = true.
Proof.
  intros Hd Hd1 Hk Hne. unfold wf_record.
  destruct (h !! v) as [[| |ev|]|] eqn:Hv; try discriminate.
  rewrite (Hk _ _ Hne Hv).
  destruct (dict_get "multi" ev) as [m|]; [|done].
  destruct (h !! m) as [o|] eqn:Hm; [|discriminate].
  destruct (decide (m = dict)) as [->|Hmd].
  - by rewrite Hd1.
  - rewrite (Hk _ _ Hmd Hm). destruct o as [| items | |]; try done.
    intros Hall. apply forallb_forall. intros it Hit.
    rewrite forallb_forall in Hall. apply Hall in Hit.
    apply bool_decide_eq_true in Hit as [d0 Hit].
    apply bool_decide_eq_true.
    apply item_dict_Some in Hit as (a & -> & Ha).
    destruct (decide (a = dict)) as [->|Had].
    + exists es1. apply item_dict_Some. eauto.
    + exists d0. apply item_dict_Some. eauto.
Qed.

(** A variant is a record. *)
Lemma wf_record_variant (h h1 : heap) dict es1 src k nv :
  h1 !! dict = Some (ObDict es1) → is_Some (h !! dict) →
  (∀ a o, a ≠ dict → h !! a = Some o → h1 !! a = Some o) →
  Forall (fun '(_, v) => v ≠ dict ∧ wf_record h v = true) src →
  variant_entry getSnakeCaseName h h1 src k nv →
  wf_record h1 nv = true.
Proof.
  intros Hd1 Hd Hk Hwf (key & value & ev & nm & Hin & -> & Hv & Hnm & Hs & Hnv & Hc).
  rewrite Forall_forall in Hwf. destruct (Hwf _ Hin) as [Hvd Hwv].
  unfold copy_at in Hc. unfold wf_record.
  destruct (family h ev) as [items|] eqn:Hf.
  - destruct Hc as (l & dups & Hl & H1 & H2 & H3).
    rewrite H1, dict_get_set, H2.
    apply forallb_forall. intros it Hit. apply bool_decide_eq_true.
    apply list_elem_of_In, list_elem_of_fmap in Hit as (dup & -> & Hdup).
    apply list_elem_of_lookup in Hdup as [i Hi].
    destruct (Forall2_lookup_r _ _ _ _ _ H3 Hi) as (it & _ & _ & d0 & _ & Hd0).
    exists (dict_set "name" nm d0). apply item_dict_Some. eauto.
  - rewrite Hc. unfold renamed.
    rewrite dict_get_set_ne by done.
    unfold wf_record in Hwv. rewrite Hv in Hwv.
    unfold family in Hf.
    destruct (dict_get "multi" ev) as [m|]; [|done]. cbn in Hf.
    destruct (h !! m) as [o|] eqn:Hm; [|discriminate].
    destruct (decide (m = dict)) as [->|Hmd]; [by rewrite Hd1|].
    rewrite (Hk _ _ Hmd Hm). by destruct o.
Qed.

End RunFacts.

Section VariantsTheorems.
Import Heap Variants.

Variable getSnakeCaseName : string -> string.

(** The heap after one run, for both theorems below. *)
Lemma insert_snake_case_variants_once (h : heap) dict :
  wf_props h dict = true →
  ∃ es sd hc,
    h !! dict = Some (ObDict es)
    ∧ insert_snake_case_variants getSnakeCaseName dict h
      = (<[dict := ObDict (dict_merge false es sd)]> hc, 0%Z)
    ∧ hc !! dict = Some (ObDict es)
    ∧ keeps h hc
    ∧ Forall (fun '(k, nv) =>
                variant_entry getSnakeCaseName h
                  (<[dict := ObDict (dict_merge false es sd)]> hc) es k nv) sd
    ∧ (∀ k, k ∈ sd.*1 ↔ k ∈ getSnakeCaseName <$> es.*1)
    ∧ Forall (fun '(_, v) =>
                v ≠ dict
                ∧ wf_record (<[dict := ObDict (dict_merge false es sd)]> hc) v
                  = true) (dict_merge false es sd).
Proof.
  intros Hwf. destruct (wf_props_inv _ _ Hwf) as (es & Hd & Hall).
  destruct (insert_snake_case_variants_run getSnakeCaseName h dict es Hd Hall)
    as (sd & G & Hrun & Hsd & Hkeys).
  set (hc := h ++ ObDict sd :: G) in *.
  set (es1 := dict_merge false es sd) in *.
  assert (Hdl : dict < length h) by (by apply lookup_lt_Some in Hd).
  assert (Hkeep : keeps h hc) by (intros a o Ha; by apply lookup_app_l_Some).
  assert (Hd1 : <[dict := ObDict es1]> hc !! dict = Some (ObDict es1)).
  { apply list_lookup_insert_eq. unfold hc. rewrite length_app. lia. }
  assert (Hk : ∀ a o, a ≠ dict → h !! a = Some o →
                      <[dict := ObDict es1]> hc !! a = Some o).
  { intros a o Hne Ha. rewrite list_lookup_insert_ne by done. by apply Hkeep. }
  assert (Hsd1 : Forall (fun '(k, nv) =>
                   variant_entry getSnakeCaseName h
                     (<[dict := ObDict es1]> hc) es k nv) sd).
  { eapply Forall_impl; [exact Hsd|]. intros [k nv] Hve.
    eapply variant_entry_mono; [|exact Hve].
    intros a o Ha Hl. rewrite list_lookup_insert_ne by lia. done. }
  exists es, sd, hc. repeat (split; [done|]).
  split; [by apply Hkeep|]. split; [done|]. split; [done|]. split; [done|].
  apply Forall_forall. intros [k v] Hin.
  apply dict_merge_elem in Hin as [Hin|Hin].
  - rewrite Forall_forall in Hall. destruct (Hall _ Hin) as [Hne Hwv].
    split; [done|]. by eapply (wf_record_update h _ dict es es1).
  - rewrite Forall_forall in Hsd1. pose proof (Hsd1 _ Hin) as Hve.
    split.
    + destruct Hve as (? & ? & ? & ? & _ & _ & _ & _ & _ & Hnv & _). lia.
    + eapply (wf_record_variant getSnakeCaseName h _ dict es1 es k);
        [done|eauto|done|done|exact Hve].
Qed.

(** C7: on a PropsDict whose keys the transform treats idempotently, a second
    run of [insert_snake_case_variants] returns 0 and leaves every object as
    the first run left it, the dict with its keys and entries included; and
    the merge of the first run keeps every entry the dict had. *)
Theorem insert_snake_case_variants_fixed_point (h : heap) dict es :
  h !! dict = Some (ObDict es) →
  wf_props h dict = true →
  (∀ key, key ∈ es.*1 →
     getSnakeCaseName (getSnakeCaseName key) = getSnakeCaseName key) →
  ∃ h1 es1 h2,
    insert_snake_case_variants getSnakeCaseName dict h = (h1, 0%Z)
    ∧ h1 !! dict = Some (ObDict es1)
    ∧ (∀ k v, dict_get k es = Some v → dict_get k es1 = Some v)
    ∧ (∀ k, k ∈ es1.*1 ↔ k ∈ es.*1 ∨ k ∈ getSnakeCaseName <$> es.*1)
    ∧ insert_snake_case_variants getSnakeCaseName dict h1 = (h2, 0%Z)
    ∧ h1 `prefix_of` h2
    ∧ h2 !! dict = Some (ObDict es1).
Proof.
  intros Hd Hwf Hidem.
  destruct (insert_snake_case_variants_once h dict Hwf)
    as (es' & sd & hc & Hd' & Hrun & Hdc & Hkeep & Hsd & Hkeys & Hall1).
  rewrite Hd in Hd'. injection Hd' as <-.
  set (es1 := dict_merge false es sd) in *.
  set (h1 := <[dict := ObDict es1]> hc) in *.
  assert (Hd1 : h1 !! dict = Some (ObDict es1)).
  { apply list_lookup_insert_eq. by apply lookup_lt_Some in Hdc. }
  assert (Hkeys1 : ∀ k, k ∈ es1.*1 ↔ k ∈ es.*1 ∨ k ∈ getSnakeCaseName <$> es.*1).
  { intros k. unfold es1. rewrite dict_merge_keys, Hkeys. done. }
  destruct (insert_snake_case_variants_run getSnakeCaseName h1 dict es1 Hd1 Hall1)
    as (sd2 & G2 & Hrun2 & _ & Hkeys2).
  assert (Hid : dict_merge false es1 sd2 = es1).
  { apply dict_merge_id. intros k Hk.
    apply Hkeys2, list_elem_of_fmap in Hk as (k' & -> & Hk').
    apply Hkeys1. right.
    apply Hkeys1 in Hk' as [Hk'|Hk'].
    - by apply list_elem_of_fmap_2.
    - apply list_elem_of_fmap in Hk' as (k0 & -> & Hk0).
      rewrite Hidem by done. by apply list_elem_of_fmap_2. }
  rewrite Hid in Hrun2.
  rewrite list_insert_id in Hrun2 by (by apply lookup_app_l_Some).
  exists h1, es1, (h1 ++ ObDict sd2 :: G2).
  split; [done|]. split; [done|].
  split; [intros k v; apply dict_merge_keep|].
  split; [done|]. split; [done|].
  split; [by eexists|]. by apply lookup_app_l_Some.
Qed.

(** C8 (amended): [_build_new_entry] leaves every object as it is and appends
    new ones: for a record with an overload family a new record whose
    ["multi"] is a new list of new dicts, one for each record of the family,
    with the entries of that record and ["name"] set to the new name (the
    other entries of the new record, a ["name"] included, are those of the
    original); for a record without a family a new record with the entries of
    the original and ["name"] set to the new name.  After
    [insert_snake_case_variants] every object other than the PropsDict is
    unchanged, the PropsDict has its old entries, and every entry it gained
    is such a variant of one of its records. *)
Theorem insert_snake_case_variants_copies (h : heap) dict :
  wf_props h dict = true →
  (∀ new_name value ev k,
     h !! value = Some (ObDict ev) →
     new_entry_objects h new_name ev = Some k →
     _build_new_entry new_name value h = (h ++ k, Some (length h)))
  ∧ ∃ es h1 es1,
      h !! dict = Some (ObDict es)
      ∧ insert_snake_case_variants getSnakeCaseName dict h = (h1, 0%Z)
      ∧ h1 !! dict = Some (ObDict es1)
      ∧ (∀ a, a ≠ dict → a < length h → h1 !! a = h !! a)
      ∧ (∀ k v, dict_get k es = Some v → dict_get k es1 = Some v)
      ∧ (∀ k nv, dict_get k es = None → dict_get k es1 = Some nv →
           variant_entry getSnakeCaseName h h1 es k nv).
Proof.
  intros Hwf. split.
  { intros new_name value ev k. apply _build_new_entry_spec. }
  destruct (insert_snake_case_variants_once h dict Hwf)
    as (es & sd & hc & Hd & Hrun & Hdc & Hkeep & Hsd & Hkeys & Hall1).
  exists es, (<[dict := ObDict (dict_merge false es sd)]> hc),
    (dict_merge false es sd).
  split; [done|]. split; [done|].
  split; [apply list_lookup_insert_eq; by apply lookup_lt_Some in Hdc|].
  split; [|split].
  - intros a Hne Hlt. rewrite list_lookup_insert_ne by done.
    destruct (lookup_lt_is_Some_2 h a Hlt) as [o Ho].
    by rewrite Ho, (Hkeep _ _ Ho).
  - intros k v. apply dict_merge_keep.
  - intros k nv Hnone Hsome. rewrite dict_merge_get, Hnone in Hsome.
    apply dict_get_Some_elem in Hsome.
    rewrite Forall_forall in Hsd. exact (Hsd _ Hsome).
Qed.

End VariantsTheorems.

Lemma insert_snake_case_variants_fixed_point_witness :
  ∃ h1 es1 h2,
    Variants.insert_snake_case_variants Variants.camel_to_snake 0
      Variants.sample_heap = (h1, 0%Z)
    ∧ h1 !! 0 = Some (Heap.ObDict es1)
    ∧ (∀ k v, Heap.dict_get k [("resizeEvent", 1); ("size", 6)] = Some v →
              Heap.dict_get k es1 = Some v)
    ∧ (∀ k, k ∈ es1.*1 ↔
            k ∈ ["resizeEvent"; "size"]
            ∨ k ∈ Variants.camel_to_snake <$> ["resizeEvent"; "size"])
    ∧ Variants.insert_snake_case_variants Variants.camel_to_snake 0 h1
      = (h2, 0%Z)
    ∧ h1 `prefix_of` h2
    ∧ h2 !! 0 = Some (Heap.ObDict es1).
Proof.
  apply (insert_snake_case_variants_fixed_point Variants.camel_to_snake
           Variants.sample_heap 0 [("resizeEvent", 1); ("size", 6)]).
  - reflexivity.
  - reflexivity.
  - intros key Hk.
    repeat (apply elem_of_cons in Hk as [->|Hk]; [reflexivity|]).
    by apply elem_of_nil in Hk.
Defined.

(** C8, as stated, fails for a record with an overload family: the records
    of the family are copied and renamed, the copy of the record itself is
    not renamed to the new name (the object 12, ["resize_event"]).  It keeps
    the name of the original (the object 2, ["resizeEvent"]) if that has one;
    the copy of a record as the parser lays it out has no name at all, while
    the copies of its records have the new name (the object 8). *)
Lemma build_new_entry_family_record_not_renamed :
  (∃ h' nv es',
     Variants._build_new_entry 12 1 Variants.sample_heap = (h', Some nv)
     ∧ h' !! nv = Some (Heap.ObDict es')
     ∧ Heap.dict_get "name" es' = Some 2
     ∧ h' !! 2 = Some (Heap.ObStr "resizeEvent")
     ∧ h' !! 12 = Some (Heap.ObStr "resize_event")
     ∧ Heap.dict_get "name" es' ≠ Some 12)
  ∧ (∃ h' nv es' l dup es_dup,
       Variants._build_new_entry 8 0 Variants.sample_family = (h', Some nv)
       ∧ h' !! nv = Some (Heap.ObDict es')
       ∧ Heap.dict_get "name" es' = None
       ∧ Heap.dict_get "multi" es' = Some l
       ∧ h' !! l = Some (Heap.ObList [Some dup; Some (S dup)])
       ∧ h' !! dup = Some (Heap.ObDict es_dup)
       ∧ Heap.dict_get "name" es_dup = Some 8
       ∧ h' !! 8 = Some (Heap.ObStr "resize_event")).
Proof.
  split.
  - eexists _, _, _. split; [vm_compute; reflexivity|].
    split; [reflexivity|]. split; [reflexivity|].
    split; [reflexivity|]. split; [reflexivity|]. discriminate.
  - eexists _, _, _, _, _, _. split; [vm_compute; reflexivity|].
    split; [reflexivity|]. split; [reflexivity|]. split; [reflexivity|].
    split; [reflexivity|]. split; [reflexivity|]. split; reflexivity.
Qed.

Lemma insert_snake_case_variants_copies_witness :
  ∃ es h1 es1,
    Variants.sample_heap !! 0 = Some (Heap.ObDict es)
    ∧ Variants.insert_snake_case_variants Variants.camel_to_snake 0
        Variants.sample_heap = (h1, 0%Z)
    ∧ h1 !! 0 = Some (Heap.ObDict es1)
    ∧ (∀ a, a ≠ 0 → a < length Variants.sample_heap →
            h1 !! a = Variants.sample_heap !! a)
    ∧ (∀ k v, Heap.dict_get k es = Some v → Heap.dict_get k es1 = Some v)
    ∧ (∀ k nv, Heap.dict_get k es = None → Heap.dict_get k es1 = Some nv →
         Variants.variant_entry Variants.camel_to_snake Variants.sample_heap
           h1 es k nv).
Proof.
  exact (proj2 (insert_snake_case_variants_copies Variants.camel_to_snake
                  Variants.sample_heap 0 eq_refl)).
Defined.

(** ** The signature store *)

Section StoreFacts.
Import Heap Store.

Variable getSnakeCaseName : string -> string.
Variable zlib : option (option (list byte -> option (list byte))).
Variable Py_BuildValue_s : list byte -> option string.
Variable pyside_type_init_func :
  TypeKey -> list string -> heap -> heap * call_result.

Local Abbreviation Build :=
  (PySide_BuildSignatureProps getSnakeCaseName zlib Py_BuildValue_s
     pyside_type_init_func).
Local Abbreviation propsFor :=
  (TypeKey_to_PropsDict getSnakeCaseName zlib Py_BuildValue_s
     pyside_type_init_func).

Lemma state_eta s :
  State (objects s) (arg_dict s) (empty_dict s) (py_err s)
        (n_expand s) (n_parse s) = s.
Proof. by destruct s. Qed.

Lemma expanded_0 s : expanded 0 s = s.
Proof. by destruct s. Qed.

(** [byteExpand] on bytes it cannot unpack. *)
Lemma byteExpand_fails packed e s :
  unpack_error zlib packed = Some e →
  ∃ c, c ≤ 1
       ∧ byteExpand zlib packed s = (raised e (expanded c s), None).
Proof.
  unfold unpack_error, byteExpand. destruct zlib as [[f|]|].
  - destruct (f packed) eqn:Hf; [discriminate|]. intros [= <-].
    exists 1. split; [lia|]. reflexivity.
  - intros [= <-]. exists 0. split; [lia|]. reflexivity.
  - intros [= <-]. exists 0. split; [lia|]. reflexivity.
Qed.

(** The first half of the build when the blob can be read. *)
Lemma stored_strings_ok numkey strs s :
  strings_for zlib Py_BuildValue_s numkey = Some strs →
  stored_strings zlib Py_BuildValue_s numkey s
  = (expanded (expand_calls zlib numkey) s, Some strs).
Proof.
  destruct numkey as [sigs|packed|a]; cbn [strings_for]; [| |discriminate].
  - intros H. cbn. unfold _address_ptr_to_stringlist. rewrite H.
    by rewrite expanded_0.
  - unfold unpacked, stored_strings, bytesToStrings, expand_calls.
    destruct packed as [|b packed]; cbn [length].
    + rewrite decide_False by lia. cbn. intros H.
      cbn in H. injection H as <-. cbn. by rewrite expanded_0.
    + rewrite !decide_True by (cbn [length]; lia).
      unfold byteExpand.
      destruct zlib as [[f|]|]; cbn [mbind option_bind]; try discriminate.
      destruct (f (b :: packed)) as [data|] eqn:Hf; cbn [mbind option_bind];
        [|discriminate].
      intros H. unfold sbind, count_expand, sret.
      unfold _address_ptr_to_stringlist. rewrite H. reflexivity.
Qed.

(** A run of [insert_snake_case_variants] that does not fail leaves a dict. *)
Lemma insert_snake_case_variants_dict dict (h h' : heap) r :
  Variants.insert_snake_case_variants getSnakeCaseName dict h = (h', r) →
  (r <? 0)%Z = false →
  ∃ es, h' !! dict = Some (ObDict es).
Proof.
  unfold Variants.insert_snake_case_variants, bind.
  unfold PyDict_New, bind, alloc, ret.
  destruct (PyDict_Next dict (h ++ [ObDict []])) as [h1 items].
  destruct (Variants.snake_loop _ _ _ _) as [h2 ok].
  destruct ok; cbn [negb].
  - unfold PyDict_Merge. cbn [mbind option_bind].
    destruct (h2 !! dict) as [[| |ea|]|] eqn:Hd;
      try (intros [= <- <-]; discriminate).
    destruct (h2 !! length h) as [[| |eb|]|];
      try (intros [= <- <-]; discriminate).
    intros [= <- <-] _. eexists. apply list_lookup_insert_eq.
    by apply lookup_lt_Some in Hd.
  - intros [= <- <-]. discriminate.
Qed.

(** Closes a goal [∃ s' r, c s = (s', r) ∧ ...] once [c s] is a pair whose
    state differs from [s] in single fields. *)
Ltac frame_done :=
  eexists _, _; (split; [reflexivity|]); cbn; repeat split; (lia || done).

Lemma stored_strings_frame numkey s :
  ∃ s' r, stored_strings zlib Py_BuildValue_s numkey s = (s', r)
          ∧ objects s' = objects s ∧ arg_dict s' = arg_dict s
          ∧ empty_dict s' = empty_dict s ∧ n_parse s' = n_parse s
          ∧ n_expand s ≤ n_expand s' ≤ S (n_expand s)
          ∧ (r ≠ None → py_err s' = py_err s).
Proof.
  destruct numkey as [sigs|packed|a]; cbn [stored_strings].
  - unfold _address_to_stringlist, _address_ptr_to_stringlist.
    destruct (string_list _ _); frame_done.
  - unfold bytesToStrings, sbind.
    destruct (decide (0 < length packed)).
    + unfold byteExpand. destruct zlib as [[f|]|].
      * unfold sbind, count_expand. destruct (f packed).
        -- unfold sret, _address_ptr_to_stringlist.
           destruct (string_list _ _); frame_done.
        -- frame_done.
      * frame_done.
      * frame_done.
    + unfold sret, _address_ptr_to_stringlist.
      destruct (string_list _ _); frame_done.
  - frame_done.
Qed.

(** How a build ends: null, or a dict stored under the key.  The branch for
    a null result without an exception is not taken: a null result of the
    call comes with its exception. *)
Lemma Build_cases k s numkey :
  arg_dict s !! k = Some numkey →
  ∃ s1 r,
    Build k s = (s1, r)
    ∧ n_expand s ≤ n_expand s1 ≤ S (n_expand s)
    ∧ n_parse s ≤ n_parse s1 ≤ S (n_parse s)
    ∧ match r with
      | None => arg_dict s1 = arg_dict s
      | Some d =>
          arg_dict s1 = <[k := EObject d]> (arg_dict s)
          ∧ (∃ es, objects s1 !! d = Some (ObDict es))
          ∧ n_parse s1 = S (n_parse s)
      end.
Proof.
  intros Hk. unfold PySide_BuildSignatureProps. rewrite Hk.
  destruct (stored_strings_frame numkey s)
    as (s' & ostr & Hs & Ho & Ha & He & Hp & Hx & _).
  unfold sbind at 1. rewrite Hs.
  destruct ostr as [strs|].
  2:{ frame_done. }
  unfold sbind at 1. unfold call_type_init.
  destruct (pyside_type_init_func k strs (objects s')) as [h' [d|e]].
  - unfold sbind at 1. unfold lift. cbn [objects].
    destruct (Variants.insert_snake_case_variants getSnakeCaseName d h')
      as [h'' r0] eqn:Hins.
    destruct (r0 <? 0)%Z eqn:Hr0.
    + frame_done.
    + destruct (insert_snake_case_variants_dict _ _ _ _ Hins Hr0) as [es Hes].
      eexists _, _. split; [reflexivity|]. cbn.
      split; [lia|]. split; [lia|].
      split; [by rewrite Ha|]. split; [by exists es|]. lia.
  - frame_done.
Qed.

(** On an object that is no dict [insert_snake_case_variants] finds no entry
    to walk, and [PyDict_Merge] fails. *)
Lemma insert_snake_case_variants_no_dict dict (h : heap) :
  is_Some (h !! dict) →
  (∀ es, h !! dict ≠ Some (ObDict es)) →
  Variants.insert_snake_case_variants getSnakeCaseName dict h
  = (h ++ [ObDict []], (-1)%Z).
Proof.
  intros [o Ho] Hno.
  assert (Hl : (h ++ [ObDict []]) !! dict = Some o)
    by (rewrite lookup_app_l; [done|by eapply lookup_lt_Some]).
  unfold Variants.insert_snake_case_variants, bind.
  unfold PyDict_New, bind, alloc, ret, PyDict_Next. rewrite Hl.
  destruct o as [| |es|]; [| |by destruct (Hno es)|];
    cbn [Variants.snake_loop negb]; unfold ret, PyDict_Merge;
    cbn [mbind option_bind negb]; cbv beta; by rewrite Hl.
Qed.

(** C1: when the call for a registered key returns a PropsDict, that
    PropsDict is the stored entry of the key, and a second call returns the
    same object and leaves the state, with its objects and both probes, as it
    is: it does not unpack and does not parse.  The first call, for a blob
    that was still raw, has called the parser once and [zlib.decompress] at
    most once. *)
Theorem TypeKey_to_PropsDict_built_once k s numkey s1 d :
  arg_dict s !! k = Some numkey →
  propsFor k s = (s1, Some d) →
  arg_dict s1 !! k = Some (EObject d)
  ∧ propsFor k s1 = (s1, Some d)
  ∧ (is_raw numkey = true →
     n_parse s1 = S (n_parse s) ∧ n_expand s1 ≤ S (n_expand s)).
Proof.
  intros Hk Hcall.
  assert (Hbuilt : Build k s = (s1, Some d) →
            arg_dict s1 !! k = Some (EObject d)
            ∧ propsFor k s1 = (s1, Some d)
            ∧ n_parse s1 = S (n_parse s) ∧ n_expand s1 ≤ S (n_expand s)).
  { intros Hb. destruct (Build_cases k s numkey Hk)
      as (s1' & r & Hb' & Hx & Hp & Hr).
    rewrite Hb in Hb'. injection Hb' as <- <-.
    destruct Hr as (Ha & [es Hes] & Hn).
    assert (Hl : arg_dict s1 !! k = Some (EObject d))
      by (rewrite Ha; apply lookup_insert_eq).
    split; [done|]. split; [|lia].
    unfold TypeKey_to_PropsDict. rewrite Hl.
    unfold sbind, PyDict_Check. cbn [mbind option_bind]. by rewrite Hes. }
  unfold TypeKey_to_PropsDict in Hcall. rewrite Hk in Hcall.
  destruct numkey as [sigs|packed|a].
  - destruct (Hbuilt Hcall) as (? & ? & ? & ?). done.
  - destruct (Hbuilt Hcall) as (? & ? & ? & ?). done.
  - unfold sbind, PyDict_Check in Hcall. cbn [mbind option_bind] in Hcall.
    destruct (objects s !! a) as [[| |es|]|] eqn:Ha; cbn [negb] in Hcall;
      try (destruct (Hbuilt Hcall) as (? & ? & ? & ?); done).
    injection Hcall as <- <-. split; [done|]. split; [|done].
    unfold TypeKey_to_PropsDict. rewrite Hk.
    unfold sbind, PyDict_Check. cbn [mbind option_bind]. by rewrite Ha.
Qed.

(** C4 (amended): when the parser yields no result, the call fails.  A
    callable that returns null and sets no exception gives null with
    [SystemError] through the call, and the object [None] that a Python
    function without a result returns is no dict, on which the merge of the
    name variants fails with [SystemError].  In both cases the call returns
    null with [SystemError] set; no empty dict is made, and the entry of the
    key in [arg_dict] is left as it was, so the key stays unresolved. *)
Theorem TypeKey_to_PropsDict_no_result k s numkey strs h' r :
  arg_dict s !! k = Some numkey →
  is_raw numkey = true →
  strings_for zlib Py_BuildValue_s numkey = Some strs →
  pyside_type_init_func k strs (objects s) = (h', r) →
  match r with
  | PRaise e => e = SystemError
  | PResult d => is_Some (h' !! d) ∧ ∀ es, h' !! d ≠ Some (ObDict es)
  end →
  ∃ s1,
    propsFor k s = (s1, None)
    ∧ py_err s1 = Some SystemError
    ∧ empty_dict s1 = empty_dict s
    ∧ arg_dict s1 = arg_dict s
    ∧ arg_dict s1 !! k = Some numkey
    ∧ n_parse s1 = S (n_parse s).
Proof.
  intros Hk Hraw Hstr Hparse Hr.
  assert (Hcall : propsFor k s = Build k s).
  { unfold TypeKey_to_PropsDict. rewrite Hk. by destruct numkey. }
  rewrite Hcall. unfold PySide_BuildSignatureProps. rewrite Hk.
  unfold sbind at 1. rewrite (stored_strings_ok _ _ _ Hstr).
  unfold sbind at 1. unfold call_type_init. cbn [objects expanded].
  rewrite Hparse. destruct r as [d|e].
  - destruct Hr as [Hd Hno].
    unfold sbind at 1. unfold lift. cbn [objects].
    rewrite (insert_snake_case_variants_no_dict d h' Hd Hno).
    eexists. split; [reflexivity|]. cbn. by rewrite Hk.
  - subst e. eexists. split; [reflexivity|]. cbn. by rewrite Hk.
Qed.

(** C3: when the bytes of a registered packed blob cannot be unpacked, the
    call returns null with the exception of [byteExpand] set; the parser is
    not called, [zlib.decompress] is called at most once, and the objects,
    the shared empty dict and [arg_dict], with the entry of the key, are left
    as they were. *)
Theorem TypeKey_to_PropsDict_unpack_error k s packed e :
  arg_dict s !! k = Some (EPacked packed) →
  packed ≠ [] →
  unpack_error zlib packed = Some e →
  ∃ s1,
    propsFor k s = (s1, None)
    ∧ py_err s1 = Some e
    ∧ arg_dict s1 = arg_dict s
    ∧ arg_dict s1 !! k = Some (EPacked packed)
    ∧ objects s1 = objects s
    ∧ empty_dict s1 = empty_dict s
    ∧ n_parse s1 = n_parse s
    ∧ n_expand s1 ≤ S (n_expand s).
Proof.
  intros Hk Hne He.
  destruct (byteExpand_fails packed e s He) as (c & Hc & Hb).
  unfold TypeKey_to_PropsDict. rewrite Hk.
  unfold PySide_BuildSignatureProps. rewrite Hk.
  unfold sbind at 1. cbn [stored_strings].
  unfold sbind at 1. unfold bytesToStrings.
  unfold sbind at 1.
  rewrite decide_True by (destruct packed; [done|cbn; lia]).
  rewrite Hb. eexists. split; [reflexivity|]. cbn.
  rewrite Hk. repeat split; (lia || done).
Qed.

(** C2: for a registered packed blob of size 0 [bytesToStrings] does not call
    the expand function and gives the array of no strings; no call for the
    key calls [zlib.decompress]; and when the parser makes an empty dict of
    the empty list, the call returns it, still empty, and stores it. *)
Theorem TypeKey_to_PropsDict_empty_payload k s :
  arg_dict s !! k = Some (EPacked []) →
  bytesToStrings zlib [] s = (s, Some ([], [None]))
  ∧ strings_for zlib Py_BuildValue_s (EPacked []) = Some []
  ∧ n_expand (propsFor k s).1 = n_expand s
  ∧ (∀ h' d,
       pyside_type_init_func k [] (objects s) = (h', PResult d) →
       h' !! d = Some (ObDict []) →
       ∃ s1, propsFor k s = (s1, Some d)
             ∧ objects s1 !! d = Some (ObDict [])
             ∧ arg_dict s1 !! k = Some (EObject d)
             ∧ n_parse s1 = S (n_parse s)).
Proof.
  intros Hk.
  assert (Hstr : strings_for zlib Py_BuildValue_s (EPacked []) = Some [])
    by reflexivity.
  assert (Hcall : propsFor k s = Build k s).
  { unfold TypeKey_to_PropsDict. by rewrite Hk. }
  assert (Hpre : Build k s
    = (strings <~ sret (Some []) ;;
       match strings with
       | None => sret None
       | Some strings =>
           dict <~ call_type_init pyside_type_init_func k strings ;;
           match dict with
           | None =>
               failed <~ PyErr_Occurred ;;
               if failed then sret None else get_empty_dict
           | Some dict =>
               r <~ lift (Variants.insert_snake_case_variants
                            getSnakeCaseName dict) ;;
               if (r <? 0)%Z then PyErr_Format SystemError else
               r <~ set_arg_dict k (EObject dict) ;;
               if (r <? 0)%Z then sret None else sret (Some dict)
           end
       end) s).
  { unfold PySide_BuildSignatureProps. rewrite Hk.
    unfold sbind at 1. rewrite (stored_strings_ok _ _ _ Hstr).
    cbn [expand_calls]. rewrite expanded_0. reflexivity. }
  split; [reflexivity|]. split; [done|]. split.
  - rewrite Hcall, Hpre. unfold sbind at 1. unfold sret at 1.
    unfold sbind at 1. unfold call_type_init.
    destruct (pyside_type_init_func k [] (objects s)) as [h' [d|e]].
    + unfold sbind at 1. unfold lift. cbn [objects].
      destruct (Variants.insert_snake_case_variants _ _ _) as [h'' r0].
      by destruct (r0 <? 0)%Z.
    + reflexivity.
  - intros h' d Hparse Hd.
    rewrite Hcall, Hpre. unfold sbind at 1. unfold sret at 1.
    unfold sbind at 1. unfold call_type_init. rewrite Hparse.
    unfold sbind at 1. unfold lift. cbn [objects].
    destruct (insert_snake_case_variants_run getSnakeCaseName h' d [] Hd)
      as (sd & G & Hrun & _ & Hkeys); [constructor|].
    assert (sd = []) as ->.
    { destruct sd as [|[k0 v0] sd]; [done|].
      exfalso. eapply (not_elem_of_nil k0), Hkeys. left. }
    rewrite Hrun. cbn [Z.ltb Z.compare].
    eexists. split; [reflexivity|]. cbn.
    split; [|split; [apply lookup_insert_eq|done]].
    apply list_lookup_insert_eq. apply lookup_lt_Some in Hd.
    rewrite length_app. lia.
Qed.

End StoreFacts.

Section StoreExamples.
Import Heap Store.

Local Abbreviation b := String.list_byte_of_string.
Local Abbreviation key := (KeyPair "mod" "Obj").
Local Abbreviation propsFor parser :=
  (TypeKey_to_PropsDict Variants.camel_to_snake sample_zlib sample_str parser).

Lemma TypeKey_to_PropsDict_built_once_witness :
  let s0 := initial_state [(key, EAddress [b "Obj.doThing(self)->int"])] in
  let s1 := (propsFor sample_parser key s0).1 in
  arg_dict s1 !! key = Some (EObject 2)
  ∧ propsFor sample_parser key s1 = (s1, Some 2)
  ∧ (is_raw (EAddress [b "Obj.doThing(self)->int"]) = true →
     n_parse s1 = S (n_parse s0) ∧ n_expand s1 ≤ S (n_expand s0)).
Proof.
  cbn zeta.
  apply (TypeKey_to_PropsDict_built_once Variants.camel_to_snake sample_zlib
           sample_str sample_parser key
           (initial_state [(key, EAddress [b "Obj.doThing(self)->int"])])
           (EAddress [b "Obj.doThing(self)->int"])).
  - vm_compute. reflexivity.
  - vm_compute. reflexivity.
Defined.

(** C4, as stated, fails: for a parser that returns [None], and for a
    callable that returns null without an exception, the call returns null
    with [SystemError] set and no empty dict; nothing has been made for the
    key, and the next call for it calls the parser again and fails again. *)
Lemma TypeKey_to_PropsDict_none_fails :
  let s0 := initial_state [(key, EAddress [b "Obj.doThing(self)->int"])] in
  (∃ s1 s2,
     propsFor none_parser key s0 = (s1, None)
     ∧ py_err s1 = Some SystemError
     ∧ empty_dict s1 = None
     ∧ arg_dict s1 !! key = Some (EAddress [b "Obj.doThing(self)->int"])
     ∧ propsFor none_parser key s1 = (s2, None)
     ∧ n_parse s1 = 1 ∧ n_parse s2 = 2)
  ∧ (∃ s1 s2,
       propsFor null_parser key s0 = (s1, None)
       ∧ py_err s1 = Some SystemError
       ∧ empty_dict s1 = None
       ∧ arg_dict s1 !! key = Some (EAddress [b "Obj.doThing(self)->int"])
       ∧ propsFor null_parser key s1 = (s2, None)
       ∧ n_parse s1 = 1 ∧ n_parse s2 = 2).
Proof.
  cbn zeta. split; eexists _, _.
  all: split; [vm_compute; reflexivity|].
  all: split; [reflexivity|]; split; [reflexivity|].
  all: split; [vm_compute; reflexivity|].
  all: split; [vm_compute; reflexivity|].
  all: split; reflexivity.
Qed.

Lemma TypeKey_to_PropsDict_no_result_witness :
  let s0 := initial_state [(key, EAddress [b "Obj.doThing(self)->int"])] in
  (∃ s1,
     propsFor none_parser key s0 = (s1, None)
     ∧ py_err s1 = Some SystemError
     ∧ empty_dict s1 = empty_dict s0
     ∧ arg_dict s1 = arg_dict s0
     ∧ arg_dict s1 !! key = Some (EAddress [b "Obj.doThing(self)->int"])
     ∧ n_parse s1 = S (n_parse s0))
  ∧ (∃ s1,
       propsFor null_parser key s0 = (s1, None)
       ∧ py_err s1 = Some SystemError
       ∧ empty_dict s1 = empty_dict s0
       ∧ arg_dict s1 = arg_dict s0
       ∧ arg_dict s1 !! key = Some (EAddress [b "Obj.doThing(self)->int"])
       ∧ n_parse s1 = S (n_parse s0)).
Proof.
  cbn zeta. split.
  - apply (TypeKey_to_PropsDict_no_result Variants.camel_to_snake sample_zlib
             sample_str none_parser key _ _ ["Obj.doThing(self)->int"]
             [ObOther 0] (PResult 0)).
    + vm_compute. reflexivity.
    + reflexivity.
    + reflexivity.
    + reflexivity.
    + split; [by eexists|]. intros es. discriminate.
  - apply (TypeKey_to_PropsDict_no_result Variants.camel_to_snake sample_zlib
             sample_str null_parser key _ _ ["Obj.doThing(self)->int"]
             [] (PRaise SystemError)).
    + vm_compute. reflexivity.
    + reflexivity.
    + reflexivity.
    + reflexivity.
    + reflexivity.
Defined.

Lemma TypeKey_to_PropsDict_unpack_error_witness :
  let s0 := initial_state [(key, EPacked [x00; x01; x02])] in
  ∃ s1,
    propsFor sample_parser key s0 = (s1, None)
    ∧ py_err s1 = Some ValueError
    ∧ arg_dict s1 = arg_dict s0
    ∧ arg_dict s1 !! key = Some (EPacked [x00; x01; x02])
    ∧ objects s1 = objects s0
    ∧ empty_dict s1 = empty_dict s0
    ∧ n_parse s1 = n_parse s0
    ∧ n_expand s1 ≤ S (n_expand s0).
Proof.
  cbn zeta.
  apply (TypeKey_to_PropsDict_unpack_error Variants.camel_to_snake sample_zlib
           sample_str sample_parser key).
  - vm_compute. reflexivity.
  - discriminate.
  - reflexivity.
Defined.

Lemma TypeKey_to_PropsDict_empty_payload_witness :
  let s0 := initial_state [(key, EPacked [])] in
  n_expand (propsFor sample_parser key s0).1 = 0
  ∧ ∃ s1, propsFor sample_parser key s0 = (s1, Some 0)
          ∧ objects s1 !! 0 = Some (ObDict [])
          ∧ arg_dict s1 !! key = Some (EObject 0)
          ∧ n_parse s1 = 1.
Proof.
  cbn zeta.
  destruct (TypeKey_to_PropsDict_empty_payload Variants.camel_to_snake
              sample_zlib sample_str sample_parser key
              (initial_state [(key, EPacked [])])) as (_ & _ & Hn & Hd).
  - vm_compute. reflexivity.
  - split; [exact Hn|]. apply (Hd [ObDict []] 0); reflexivity.
Defined.

End StoreExamples.

(** ** The attribute patcher *)

Section PatcherFacts.
Import Patcher.

Variable NDEBUG : bool.
Variable type : PyTypeObject.

Lemma find_name_Some (l : list PyGetSetDef) n :
  n ∈ name <$> l →
  ∃ g, List.find (fun g => bool_decide (name g = n)) l = Some g.
Proof.
  induction l as [|g l IH]; cbn; [by intros ?%elem_of_nil|].
  intros [->|Hin]%elem_of_cons.
  - exists g. by rewrite bool_decide_eq_true_2.
  - destruct (bool_decide (name g = n)); [by exists g|by apply IH].
Qed.

Lemma find_name_None (l : list PyGetSetDef) n :
  n ∉ name <$> l →
  List.find (fun g => bool_decide (name g = n)) l = None.
Proof.
  induction l as [|g l IH]; cbn; [done|].
  intros [Hne Hnin]%not_elem_of_cons.
  rewrite bool_decide_eq_false_2 by done. by apply IH.
Qed.

Lemma _fixup_getset_result n g :
  name (_fixup_getset type n g).1 = name g
  ∧ (_fixup_getset type n g).2 = if declared type n then 1%Z else 0%Z.
Proof.
  unfold _fixup_getset, declared.
  destruct (decide (n ∈ name <$> default [] (tp_getset type))) as [Hin|Hnin].
  - destruct (find_name_Some _ _ Hin) as [g' ->].
    by rewrite bool_decide_eq_true_2.
  - rewrite (find_name_None _ _ Hnin).
    rewrite (bool_decide_eq_false_2 _ Hnin). cbn [orb].
    by destruct (bool_decide _).
Qed.

Lemma omap_ext_in {A B} (f g : A → option B) (l : list A) :
  (∀ x, x ∈ l → f x = g x) → omap f l = omap g l.
Proof.
  induction l as [|x l IH]; intros H; [done|]. cbn.
  rewrite (H x) by left. rewrite IH; [done|]. intros y Hy. apply H. by right.
Qed.

Lemma names_at_all m : names_at m (seq 0 (length (gsp m))) = name <$> gsp m.
Proof.
  unfold names_at. generalize (gsp m). intros l.
  induction l as [|g l IH] using rev_ind; [done|].
  rewrite length_app. cbn [length]. rewrite Nat.add_1_r, seq_S, omap_app.
  cbn. rewrite list_lookup_middle by done. cbn. rewrite fmap_app. cbn.
  f_equal. rewrite <- IH. apply omap_ext_in.
  intros i Hi%list_elem_of_In%in_seq. by rewrite lookup_app_l by lia.
Qed.

Lemma names_at_same m m' idxs :
  name <$> gsp m' = name <$> gsp m → names_at m' idxs = names_at m idxs.
Proof.
  intros H. unfold names_at. apply omap_ext_in.
  intros i _. by rewrite <- !list_lookup_fmap, H.
Qed.

(** A run over the indices [idxs] when every name met is in the dict: it
    returns 0; a name of these entries that the type declares is bound to a
    descriptor made in this run, every other name is bound as before. *)
Lemma install_loop_again : ∀ idxs m,
  NDEBUG = true ∨ Forall (fun n => n = "__doc__") (name <$> gsp m) →
  (∀ i, i ∈ idxs → i < length (gsp m)) →
  (∀ n, n ∈ names_at m idxs → is_Some (tp_dict m !! n)) →
  ∃ m',
    install_loop NDEBUG type idxs m = (m', Returned 0)
    ∧ name <$> gsp m' = name <$> gsp m
    ∧ next_id m ≤ next_id m'
    ∧ (∀ n, n ∈ names_at m idxs → declared type n = true →
         ∃ id i, tp_dict m' !! n = Some (GetSetDescr id (InNew i))
                 ∧ next_id m ≤ id < next_id m'
                 ∧ name <$> gsp m !! i = Some n)
    ∧ (∀ n, n ∉ names_at m idxs ∨ declared type n = false →
         tp_dict m' !! n = tp_dict m !! n).
Proof.
  induction idxs as [|i idxs IH]; intros m Hcond Hlen Hinst.
  - exists m. split; [done|]. split; [done|]. split; [done|].
    split; [by intros n ?%elem_of_nil|done].
  - destruct (lookup_lt_is_Some_2 (gsp m) i) as [g Hg];
      [apply Hlen; left|].
    assert (Hnames : names_at m (i :: idxs) = name g :: names_at m idxs).
    { unfold names_at. cbn. by rewrite Hg. }
    destruct (Hinst (name g)) as [have Hhave]; [rewrite Hnames; left|].
    assert (Hpass : bool_decide (name g = "__doc__") || NDEBUG = true).
    { destruct Hcond as [->|Hall]; [by rewrite orb_true_r|].
      rewrite Forall_forall in Hall.
      rewrite bool_decide_eq_true_2; [done|].
      apply Hall, list_elem_of_lookup. exists i.
      by rewrite list_lookup_fmap, Hg. }
    cbn [install_loop]. rewrite Hg, Hhave, Hpass.
    destruct (_fixup_getset_result (name g) g) as [Hn Hr].
    destruct (_fixup_getset type (name g) g) as [g' r]. cbn in Hn, Hr.
    set (m1 := if bool_decide (name g = "__doc__") then _ else m).
    assert (Hm1 : tp_dict m1 = tp_dict m ∧ gsp m1 = gsp m
                  ∧ next_id m1 = next_id m).
    { unfold m1. by destruct (bool_decide _). }
    destruct Hm1 as (Hd1 & Hg1 & Hi1).
    set (m2 := Memory (tp_dict m1) (<[i := g']> (gsp m1)) (doc_descr m1)
                      (next_id m1)).
    assert (Hnm2 : name <$> gsp m2 = name <$> gsp m).
    { cbn. rewrite Hg1, list_fmap_insert, Hn.
      apply list_insert_id. by rewrite list_lookup_fmap, Hg. }
    set (m3 := if (r =? 0)%Z then m2 else install_descr i (name g) m2).
    assert (Hloop : (if (r =? 0)%Z
                     then install_loop NDEBUG type idxs m2
                     else install_loop NDEBUG type idxs
                            (install_descr i (name g) m2))
                    = install_loop NDEBUG type idxs m3).
    { unfold m3. by destruct (r =? 0)%Z. }
    rewrite Hloop.
    assert (Hnm3 : name <$> gsp m3 = name <$> gsp m).
    { unfold m3. by destruct (r =? 0)%Z. }
    assert (Hid3 : next_id m ≤ next_id m3
                   ∧ (declared type (name g) = true →
                      next_id m3 = S (next_id m))).
    { unfold m3. rewrite Hr. destruct (declared type (name g)); cbn; lia. }
    assert (Hd3 : ∀ n, tp_dict m3 !! n
              = if bool_decide (n = name g) && declared type (name g)
                then Some (GetSetDescr (next_id m) (InNew i))
                else tp_dict m !! n).
    { intros n. unfold m3. rewrite Hr.
      destruct (declared type (name g)); cbn.
      - rewrite Hd1, Hi1. destruct (decide (n = name g)) as [->|Hn0].
        + rewrite bool_decide_eq_true_2 by done. apply lookup_insert_eq.
        + rewrite bool_decide_eq_false_2 by done. by apply lookup_insert_ne.
      - by rewrite andb_false_r, Hd1. }
    destruct (IH m3) as (m' & Hrun & Hnm' & Hid' & Hdecl & Hsame).
    { by rewrite Hnm3. }
    { intros j Hj. rewrite <- (length_fmap name), Hnm3, length_fmap.
      apply Hlen. by right. }
    { intros n Hn3. rewrite (names_at_same _ _ _ Hnm3) in Hn3.
      rewrite Hd3. destruct (_ && _); [eauto|].
      apply Hinst. rewrite Hnames. by right. }
    exists m'. split; [done|]. split; [by rewrite Hnm', Hnm3|].
    split; [lia|].
    rewrite (names_at_same _ _ _ Hnm3) in Hdecl, Hsame.
    split.
    + intros n Hin Hdn. rewrite Hnames in Hin.
      destruct (decide (n ∈ names_at m idxs)) as [Hrest|Hrest].
      * destruct (Hdecl n Hrest Hdn) as (id & j & H1 & H2 & H3).
        exists id, j. split; [done|]. split; [lia|].
        by rewrite <- list_lookup_fmap, <- Hnm3, list_lookup_fmap.
      * apply elem_of_cons in Hin as [->|?]; [|done].
        exists (next_id m), i.
        rewrite Hsame by (by left). rewrite Hd3, Hdn.
        rewrite bool_decide_eq_true_2 by done. cbn.
        split; [done|]. split; [|by rewrite Hg].
        destruct Hid3 as [_ Hs]. specialize (Hs Hdn). lia.
    + intros n Hor. rewrite Hnames in Hor.
      rewrite Hsame.
      * rewrite Hd3. destruct (decide (n = name g)) as [->|Hn0].
        -- destruct Hor as [Hnin|Hf]; [|by rewrite Hf, andb_false_r].
           exfalso. apply Hnin. left.
        -- by rewrite bool_decide_eq_false_2 by done.
      * destruct Hor as [Hnin|?]; [left|by right].
        intros ?. apply Hnin. by right.
Qed.

(** After any run that returns, every name of [gsp] is in the dict. *)
Lemma install_loop_installs : ∀ idxs m m' r,
  install_loop NDEBUG type idxs m = (m', Returned r) →
  (∀ i, i ∈ idxs → i < length (gsp m)) →
  name <$> gsp m' = name <$> gsp m
  ∧ (∀ n, is_Some (tp_dict m !! n) → is_Some (tp_dict m' !! n))
  ∧ (∀ n, n ∈ names_at m idxs → is_Some (tp_dict m' !! n)).
Proof.
  induction idxs as [|i idxs IH]; intros m m' r Hrun Hlen.
  - cbn in Hrun. injection Hrun as <- _.
    split; [done|]. split; [done|]. by intros n ?%elem_of_nil.
  - destruct (lookup_lt_is_Some_2 (gsp m) i) as [g Hg];
      [apply Hlen; left|].
    assert (Hnames : names_at m (i :: idxs) = name g :: names_at m idxs).
    { unfold names_at. cbn. by rewrite Hg. }
    cbn [install_loop] in Hrun. rewrite Hg in Hrun.
    assert (Hstep : ∃ m3,
              install_loop NDEBUG type idxs m3 = (m', Returned r)
              ∧ name <$> gsp m3 = name <$> gsp m
              ∧ (∀ n, is_Some (tp_dict m !! n) → is_Some (tp_dict m3 !! n))
              ∧ is_Some (tp_dict m3 !! name g)).
    { destruct (tp_dict m !! name g) as [have|] eqn:Hhave.
      - destruct (bool_decide (name g = "__doc__") || NDEBUG);
          [|discriminate].
        destruct (_fixup_getset_result (name g) g) as [Hn _].
        destruct (_fixup_getset type (name g) g) as [g' r'].
        cbn in Hn.
        set (m1 := if bool_decide (name g = "__doc__") then _ else m) in *.
        assert (Hm1 : tp_dict m1 = tp_dict m ∧ gsp m1 = gsp m).
        { unfold m1. by destruct (bool_decide _). }
        destruct Hm1 as (Hd1 & Hg1).
        assert (Hnm : name <$> <[i := g']> (gsp m1) = name <$> gsp m).
        { rewrite Hg1, list_fmap_insert, Hn.
          apply list_insert_id. by rewrite list_lookup_fmap, Hg. }
        destruct (r' =? 0)%Z.
        + eexists. split; [exact Hrun|]. cbn. rewrite Hd1.
          split; [done|]. split; [done|]. by rewrite Hhave.
        + eexists. split; [exact Hrun|]. cbn. rewrite Hd1.
          split; [done|]. split.
          * intros n Hn0. apply lookup_insert_is_Some'. by right.
          * rewrite lookup_insert_eq. eauto.
      - eexists. split; [exact Hrun|]. cbn. split; [done|]. split.
        + intros n Hn0. apply lookup_insert_is_Some'. by right.
        + rewrite lookup_insert_eq. eauto. }
    destruct Hstep as (m3 & Hrun3 & Hnm3 & Hmono & Hg3).
    destruct (IH m3 m' r Hrun3) as (Hnm' & Hmono' & Hinst').
    { intros j Hj. rewrite <- (length_fmap name), Hnm3, length_fmap.
      apply Hlen. by right. }
    split; [by rewrite Hnm', Hnm3|]. split; [by eauto|].
    intros n Hin. rewrite Hnames in Hin.
    apply elem_of_cons in Hin as [->|Hin]; [by apply Hmono'|].
    apply Hinst'. by rewrite (names_at_same _ _ _ Hnm3).
Qed.

(** C9 (amended): after a run of [add_more_getsets] that returned, a second
    run on the same type returns 0, when assertions are compiled out or
    ["__doc__"] is the only name installed; the dict has the same names after
    it.  For a name that the tables of the type do not declare the second run
    skips the installation and the name is bound as before; for a name they
    declare it installs again: the name is bound to a descriptor made in the
    second run, for an entry of [gsp] of that name. *)
Theorem add_more_getsets_second_run m0 m1 r :
  add_more_getsets NDEBUG type m0 = (m1, Returned r) →
  NDEBUG = true ∨ Forall (fun n => n = "__doc__") (name <$> gsp m0) →
  ∃ m2,
    add_more_getsets NDEBUG type m1 = (m2, Returned 0)
    ∧ (∀ n, is_Some (tp_dict m2 !! n) ↔ is_Some (tp_dict m1 !! n))
    ∧ (∀ n, n ∈ name <$> gsp m0 → declared type n = false →
         tp_dict m2 !! n = tp_dict m1 !! n)
    ∧ (∀ n, n ∉ name <$> gsp m0 → tp_dict m2 !! n = tp_dict m1 !! n)
    ∧ (∀ n, n ∈ name <$> gsp m0 → declared type n = true →
         ∃ id i, tp_dict m2 !! n = Some (GetSetDescr id (InNew i))
                 ∧ next_id m1 ≤ id < next_id m2
                 ∧ name <$> gsp m1 !! i = Some n).
Proof.
  intros Hrun1 Hcond. unfold add_more_getsets in *.
  destruct (install_loop_installs _ _ _ _ Hrun1) as (Hnm & _ & Hinst).
  { intros i Hi%list_elem_of_In%in_seq. lia. }
  rewrite names_at_all in Hinst.
  assert (Hlen : length (gsp m1) = length (gsp m0)).
  { by rewrite <- (length_fmap name), Hnm, length_fmap. }
  destruct (install_loop_again (seq 0 (length (gsp m1))) m1)
    as (m2 & Hrun2 & _ & _ & Hdecl & Hsame).
  { by rewrite Hnm. }
  { intros i Hi%list_elem_of_In%in_seq. lia. }
  { intros n Hn. rewrite names_at_all, Hnm in Hn. by apply Hinst. }
  rewrite names_at_all, Hnm in Hdecl, Hsame.
  exists m2. split; [done|]. split; [|split; [|split]].
  - intros n.
    destruct (decide (n ∈ name <$> gsp m0)) as [Hin|Hnin].
    + destruct (declared type n) eqn:Hd.
      * destruct (Hdecl n Hin Hd) as (id & i & -> & _). split; eauto.
      * by rewrite Hsame by (by right).
    + by rewrite Hsame by (by left).
  - intros n _ Hd. apply Hsame. by right.
  - intros n Hnin. apply Hsame. by left.
  - exact Hdecl.
Qed.

End PatcherFacts.

(** C9, as stated, fails for the name the patcher installs: the type has a
    getset of its own for ["__doc__"], so the second run does not skip it but
    makes a new descriptor and installs it in the place of the one of the
    first run; it also puts the descriptor of the first run where the first
    run had kept the original one. *)
Lemma add_more_getsets_installs_again :
  ∃ m1 m2,
    Patcher.add_more_getsets false Patcher.sample_type Patcher.sample_memory
    = (m1, Patcher.Returned 0)
    ∧ Patcher.add_more_getsets false Patcher.sample_type m1
      = (m2, Patcher.Returned 0)
    ∧ Patcher.tp_dict m1 !! "__doc__"
      = Some (Patcher.GetSetDescr 1 (Patcher.InNew 0))
    ∧ Patcher.tp_dict m2 !! "__doc__"
      = Some (Patcher.GetSetDescr 2 (Patcher.InNew 0))
    ∧ Patcher.tp_dict m2 !! "__doc__" ≠ Patcher.tp_dict m1 !! "__doc__"
    ∧ Patcher.doc_descr m1 = Some (Patcher.GetSetDescr 0 (Patcher.InType 0))
    ∧ Patcher.doc_descr m2 = Some (Patcher.GetSetDescr 1 (Patcher.InNew 0)).
Proof.
  eexists _, _. split; [vm_compute; reflexivity|].
  split; [vm_compute; reflexivity|].
  split; [vm_compute; reflexivity|].
  split; [vm_compute; reflexivity|].
  split; [vm_compute; discriminate|].
  split; reflexivity.
Qed.

Lemma add_more_getsets_second_run_witness :
  let m1 := (Patcher.add_more_getsets false Patcher.sample_type
               Patcher.sample_memory).1 in
  ∃ m2,
    Patcher.add_more_getsets false Patcher.sample_type m1
    = (m2, Patcher.Returned 0)
    ∧ (∀ n, is_Some (Patcher.tp_dict m2 !! n)
            ↔ is_Some (Patcher.tp_dict m1 !! n))
    ∧ (∀ n, n ∈ Patcher.name <$> Patcher.gsp Patcher.sample_memory →
            Patcher.declared Patcher.sample_type n = false →
            Patcher.tp_dict m2 !! n = Patcher.tp_dict m1 !! n)
    ∧ (∀ n, n ∉ Patcher.name <$> Patcher.gsp Patcher.sample_memory →
            Patcher.tp_dict m2 !! n = Patcher.tp_dict m1 !! n)
    ∧ (∀ n, n ∈ Patcher.name <$> Patcher.gsp Patcher.sample_memory →
            Patcher.declared Patcher.sample_type n = true →
            ∃ id i,
              Patcher.tp_dict m2 !! n
              = Some (Patcher.GetSetDescr id (Patcher.InNew i))
              ∧ Patcher.next_id m1 ≤ id < Patcher.next_id m2
              ∧ Patcher.name <$> Patcher.gsp m1 !! i = Some n).
Proof.
  cbn zeta.
  apply (add_more_getsets_second_run false Patcher.sample_type
           Patcher.sample_memory _ 0).
  - vm_compute. reflexivity.
  - right. repeat constructor.
Defined.

(** ** The lines of a packed blob *)

Section PackedLines.
Import Heap Store Lines.

Variable zlib : option (option (list byte -> option (list byte))).
Variable Py_BuildValue_s : list byte -> option string.

(** C10: from an unpacked payload [bytesToStrings] returns an array with one
    entry for each newline and a null after them; the strings read from it
    are the lines of the payload in order, each ended by its newline (read as
    a C string, so up to a zero byte if the line has one); the bytes after
    the last newline are in no entry, and the strings handed to the parser
    are made of the entries only. *)
Theorem bytesToStrings_lines (packed data : list byte) (s : state) :
  unpacked zlib packed = Some data →
  ∃ r,
    bytesToStrings zlib packed s
    = (expanded (expand_calls zlib (EPacked packed)) s, Some r)
    ∧ (∃ offs, r.2 = (Some <$> offs) ++ [None]
               ∧ length offs = count_newlines data)
    ∧ length (strings_of r) = count_newlines data
    ∧ strings_of r = c_str_of <$> lines_of [] data
    ∧ (nul ∉ data → strings_of r = lines_of [] data)
    ∧ (∀ body tail, data = body ++ tail → newline ∉ tail →
         strings_of r = strings_of (split_lines body))
    ∧ strings_for zlib Py_BuildValue_s (EPacked packed)
      = string_list Py_BuildValue_s (strings_of r).
Proof.
  intros Hun. exists (split_lines data).
  destruct (split_lines_spec data) as (H1 & H2 & H3 & H4 & _).
  split; [|split; [done|split; [done|split; [done|split; [done|split]]]]].
  - unfold bytesToStrings, unpacked, expand_calls in *.
    destruct packed as [|c packed].
    + rewrite decide_False in Hun by (cbn; lia).
      rewrite decide_False by (cbn; lia).
      injection Hun as <-. unfold sbind, sret. by rewrite expanded_0.
    + rewrite decide_True in Hun by (cbn; lia).
      rewrite decide_True by (cbn; lia).
      unfold byteExpand, sbind. destruct zlib as [[f|]|]; try discriminate.
      unfold count_expand. by rewrite Hun.
  - intros body tail -> Hn.
    by destruct (split_lines_spec body) as (_ & _ & _ & _ & ->).
  - cbn [strings_for]. by rewrite Hun.
Qed.

End PackedLines.

Lemma bytesToStrings_lines_witness :
  let b := String.list_byte_of_string in
  let data := b "A.f(self)" ++ [x0a] ++ b "A.g(self)" ++ [x0a] ++ b "A.h(self)" in
  ∃ r,
    Store.bytesToStrings Store.sample_zlib (x01 :: data)
      (Store.initial_state [])
    = (Store.expanded 1 (Store.initial_state []), Some r)
    ∧ Lines.strings_of r = [b "A.f(self)"; b "A.g(self)"]
    ∧ Store.strings_for Store.sample_zlib Store.sample_str
        (Store.EPacked (x01 :: data))
      = Some ["A.f(self)"; "A.g(self)"].
Proof.
  cbn zeta.
  set (data := _ ++ _ ++ _ ++ _ ++ _).
  destruct (bytesToStrings_lines Store.sample_zlib Store.sample_str
              (x01 :: data) data (Store.initial_state []))
    as (r & Hr & _ & _ & _ & Hn & _ & Hs).
  - reflexivity.
  - exists r. split; [exact Hr|].
    assert (Hdata : Lines.strings_of r
                    = [String.list_byte_of_string "A.f(self)";
                       String.list_byte_of_string "A.g(self)"]).
    { rewrite Hn; [reflexivity|]. vm_compute. intros H.
      repeat (apply elem_of_cons in H as [H|H]; [discriminate H|]).
      by apply elem_of_nil in H. }
    split; [exact Hdata|]. rewrite Hs, Hdata. reflexivity.
Defined.

(** * Further properties *)

(** ** What the variant builder writes *)

Section FrameFacts.
Import Heap Variants Frame.

Variable getSnakeCaseName : string -> string.



Lemma framed_weaken {A} n (c : M A) (Q R : A → Prop) :
  framed n c Q → (∀ a, Q a → R a) → framed n c R.
Proof.
  intros Hc HQR h Hn. destruct (Hc h Hn) as (H1 & H2 & H3). eauto.
Qed.

















End FrameFacts.


(** ** The store: keys without a blob, and builds that fail *)

Section StoreMoreFacts.
Import Heap Store Blobs.

Variable getSnakeCaseName : string -> string.
Variable zlib : option (option (list byte -> option (list byte))).
Variable Py_BuildValue_s : list byte -> option string.
Variable pyside_type_init_func :
  TypeKey -> list string -> heap -> heap * call_result.

Local Abbreviation Build :=
  (PySide_BuildSignatureProps getSnakeCaseName zlib Py_BuildValue_s
     pyside_type_init_func).
Local Abbreviation propsFor :=
  (TypeKey_to_PropsDict getSnakeCaseName zlib Py_BuildValue_s
     pyside_type_init_func).

(** What follows the call of the parser in [PySide_BuildSignatureProps]. *)
Local Abbreviation after_parse :=
  (fun (k : TypeKey) (dict : option addr) =>
   match dict with
   | None =>
       failed <~ PyErr_Occurred ;;
       if failed then sret None else get_empty_dict
   | Some dict =>
       r <~ lift (Variants.insert_snake_case_variants getSnakeCaseName dict) ;;
       if (r <? 0)%Z then PyErr_Format SystemError else
       r <~ set_arg_dict k (EObject dict) ;;
       if (r <? 0)%Z then sret None else sret (Some dict)
   end).

Lemma strings_for_raw numkey strs :
  strings_for zlib Py_BuildValue_s numkey = Some strs → is_raw numkey = true.
Proof. by destruct numkey. Qed.

Lemma propsFor_raw k s numkey :
  arg_dict s !! k = Some numkey → is_raw numkey = true →
  propsFor k s = Build k s.
Proof.
  intros Hk Hr. unfold TypeKey_to_PropsDict. rewrite Hk. by destruct numkey.
Qed.

Lemma Build_strings k s numkey strs :
  arg_dict s !! k = Some numkey →
  strings_for zlib Py_BuildValue_s numkey = Some strs →
  Build k s
  = (dict <~ call_type_init pyside_type_init_func k strs ;; after_parse k dict)
      (expanded (expand_calls zlib numkey) s).
Proof.
  intros Hk Hs. unfold PySide_BuildSignatureProps. rewrite Hk.
  unfold sbind at 1. by rewrite (stored_strings_ok _ _ _ _ _ Hs).
Qed.

Lemma after_parse_n_parse k dict s :
  n_parse (after_parse k dict s).1 = n_parse s.
Proof.
  destruct dict as [d|].
  - unfold sbind at 1. unfold lift.
    destruct (Variants.insert_snake_case_variants _ _ _) as [h r].
    destruct (r <? 0)%Z; reflexivity.
  - unfold sbind, PyErr_Occurred.
    destruct (bool_decide _); [reflexivity|].
    unfold get_empty_dict. by destruct (empty_dict s).
Qed.

(** X2: for a key that [arg_dict] does not have, [TypeKey_to_PropsDict]
    returns the shared empty dict, which it makes on first use; it calls
    neither the parser nor [zlib.decompress], sets no exception and leaves
    [arg_dict] as it is, and every later call for such a key returns the same
    object and changes nothing. *)
Theorem TypeKey_to_PropsDict_unregistered k s :
  arg_dict s !! k = None →
  (∀ e, empty_dict s = Some e → is_dict (objects s) e = true) →
  ∃ s1 e,
    propsFor k s = (s1, Some e)
    ∧ empty_dict s1 = Some e
    ∧ (∀ e0, empty_dict s = Some e0 → e = e0 ∧ s1 = s)
    ∧ (empty_dict s = None →
       e = length (objects s) ∧ objects s1 = objects s ++ [ObDict []])
    ∧ arg_dict s1 = arg_dict s
    ∧ py_err s1 = py_err s
    ∧ n_parse s1 = n_parse s ∧ n_expand s1 = n_expand s
    ∧ (∀ k', arg_dict s !! k' = None → propsFor k' s1 = (s1, Some e)).
Proof.
  intros Hk He.
  assert (Hhit : ∀ k' s' e, arg_dict s' !! k' = None → empty_dict s' = Some e →
                   is_dict (objects s') e = true → propsFor k' s' = (s', Some e)).
  { intros k' s' e Hk' Hs' Hd. unfold TypeKey_to_PropsDict. rewrite Hk'.
    unfold sbind, get_empty_dict, PyDict_Check. rewrite Hs'.
    cbn [mbind option_bind]. unfold is_dict in Hd.
    by destruct (objects s' !! e) as [[]|]. }
  destruct (empty_dict s) as [e0|] eqn:Hee.
  - exists s, e0. rewrite (Hhit k s e0 Hk Hee (He _ eq_refl)).
    split; [done|]. split; [done|]. split; [by intros ? [= <-]|].
    split; [done|]. split; [done|]. split; [done|]. split; [done|].
    split; [done|]. intros k' Hk'. by apply Hhit, He.
  - set (s1 := State (objects s ++ [ObDict []]) (arg_dict s)
                 (Some (length (objects s))) (py_err s)
                 (n_expand s) (n_parse s)).
    assert (Hd1 : is_dict (objects s1) (length (objects s)) = true).
    { unfold is_dict. cbn. by rewrite list_lookup_middle. }
    exists s1, (length (objects s)).
    split.
    { unfold TypeKey_to_PropsDict. rewrite Hk.
      unfold sbind, get_empty_dict, PyDict_Check. rewrite Hee.
      cbn. by rewrite list_lookup_middle. }
    split; [done|]. split; [done|]. split; [done|].
    split; [done|]. split; [done|]. split; [done|]. split; [done|].
    intros k' Hk'. by apply Hhit.
Qed.

(** X3: when the parser raises for the strings of a registered blob, the
    call returns null with that exception set; the entry of the key stays
    the blob, so the failure is not remembered: every call for the key, in
    any state with this [arg_dict], calls the parser again, once. *)
Theorem TypeKey_to_PropsDict_parser_raises k s numkey strs h' e :
  arg_dict s !! k = Some numkey →
  strings_for zlib Py_BuildValue_s numkey = Some strs →
  pyside_type_init_func k strs (objects s) = (h', PRaise e) →
  ∃ s1,
    propsFor k s = (s1, None)
    ∧ py_err s1 = Some e
    ∧ objects s1 = h'
    ∧ arg_dict s1 = arg_dict s
    ∧ empty_dict s1 = empty_dict s
    ∧ n_parse s1 = S (n_parse s)
    ∧ (∀ s2, arg_dict s2 = arg_dict s →
         n_parse (propsFor k s2).1 = S (n_parse s2)).
Proof.
  intros Hk Hs Hp.
  pose proof (strings_for_raw _ _ Hs) as Hraw.
  assert (Hagain : ∀ s2, arg_dict s2 = arg_dict s →
                     n_parse (propsFor k s2).1 = S (n_parse s2)).
  { intros s2 Ha. rewrite <- Ha in Hk.
    rewrite (propsFor_raw _ _ _ Hk Hraw), (Build_strings _ _ _ _ Hk Hs).
    unfold sbind at 1. unfold call_type_init. cbn [objects expanded].
    destruct (pyside_type_init_func k strs (objects s2)) as [h2 r].
    etrans; [apply after_parse_n_parse|]. reflexivity. }
  rewrite (propsFor_raw _ _ _ Hk Hraw), (Build_strings _ _ _ _ Hk Hs).
  unfold sbind at 1. unfold call_type_init. cbn [objects expanded].
  rewrite Hp. unfold sbind, PyErr_Occurred. cbn [py_err].
  rewrite bool_decide_eq_true_2 by eauto.
  eexists. split; [reflexivity|]. cbn. repeat split; done.
Qed.

(** X4: when one of the C strings of a registered blob does not decode, the
    call returns null with [UnicodeDecodeError] set, before the parser is
    called; the objects, the shared empty dict and [arg_dict] are left as
    they were. *)
Theorem TypeKey_to_PropsDict_undecodable k s numkey cstrings :
  arg_dict s !! k = Some numkey →
  cstrings_for zlib numkey = Some cstrings →
  string_list Py_BuildValue_s cstrings = None →
  ∃ s1,
    propsFor k s = (s1, None)
    ∧ py_err s1 = Some UnicodeDecodeError
    ∧ objects s1 = objects s
    ∧ arg_dict s1 = arg_dict s
    ∧ empty_dict s1 = empty_dict s
    ∧ n_parse s1 = n_parse s.
Proof.
  intros Hk Hc Hdec.
  assert (Hraw : is_raw numkey = true) by (by destruct numkey).
  rewrite (propsFor_raw _ _ _ Hk Hraw).
  unfold PySide_BuildSignatureProps. rewrite Hk.
  destruct numkey as [sigs|packed|a]; [| |done].
  - injection Hc as ->. unfold sbind, stored_strings, _address_to_stringlist,
      _address_ptr_to_stringlist. rewrite Hdec.
    eexists. split; [reflexivity|]. cbn. repeat split; done.
  - cbn [cstrings_for] in Hc. unfold unpacked in Hc.
    unfold sbind at 1. unfold stored_strings, bytesToStrings.
    destruct (decide (0 < length packed)).
    + unfold byteExpand. destruct zlib as [[f|]|]; try discriminate.
      destruct (f packed) as [data|] eqn:Hf; [|discriminate].
      injection Hc as <-.
      unfold sbind, count_expand, sret, _address_ptr_to_stringlist.
      rewrite Hdec.
      eexists. split; [reflexivity|]. cbn. repeat split; done.
    + injection Hc as <-.
      unfold sbind, sret, _address_ptr_to_stringlist. rewrite Hdec.
      eexists. split; [reflexivity|]. cbn. repeat split; done.
Qed.

End StoreMoreFacts.

Section StoreMoreExamples.
Import Heap Store Blobs.

Local Abbreviation b := String.list_byte_of_string.
Local Abbreviation key := (KeyPair "mod" "Obj").

Lemma TypeKey_to_PropsDict_unregistered_witness :
  let propsFor :=
    TypeKey_to_PropsDict Variants.camel_to_snake sample_zlib sample_str
      sample_parser in
  ∃ s1 e,
    propsFor key (initial_state []) = (s1, Some e)
    ∧ objects s1 = [ObDict []] ∧ e = 0
    ∧ propsFor (KeyName "other") s1 = (s1, Some e).
Proof.
  cbn zeta.
  destruct (TypeKey_to_PropsDict_unregistered Variants.camel_to_snake
              sample_zlib sample_str sample_parser key (initial_state []))
    as (s1 & e & H1 & _ & _ & H4 & _ & _ & _ & _ & H9).
  - reflexivity.
  - intros e [=].
  - exists s1, e. split; [exact H1|].
    destruct (H4 eq_refl) as [-> ->]. split; [reflexivity|].
    split; [reflexivity|]. apply H9. reflexivity.
Defined.

Lemma TypeKey_to_PropsDict_parser_raises_witness :
  let propsFor :=
    TypeKey_to_PropsDict Variants.camel_to_snake sample_zlib sample_str
      raising_parser in
  let s := initial_state [(key, EAddress [b "f(self)"])] in
  ∃ s1,
    propsFor key s = (s1, None)
    ∧ py_err s1 = Some (Raised 0)
    ∧ arg_dict s1 = arg_dict s
    ∧ n_parse (propsFor key s1).1 = 2.
Proof.
  cbn zeta.
  destruct (TypeKey_to_PropsDict_parser_raises Variants.camel_to_snake
              sample_zlib sample_str raising_parser key
              (initial_state [(key, EAddress [b "f(self)"])])
              (EAddress [b "f(self)"]) ["f(self)"] [] (Raised 0))
    as (s1 & H1 & H2 & _ & H4 & _ & H6 & H7).
  - reflexivity.
  - reflexivity.
  - reflexivity.
  - exists s1. split; [exact H1|]. split; [exact H2|]. split; [exact H4|].
    rewrite (H7 s1 H4), H6. reflexivity.
Defined.

Lemma TypeKey_to_PropsDict_undecodable_witness :
  let propsFor :=
    TypeKey_to_PropsDict Variants.camel_to_snake sample_zlib no_str
      sample_parser in
  let s := initial_state [(key, EPacked (x01 :: b "f(self)" ++ [x0a]))] in
  ∃ s1,
    propsFor key s = (s1, None)
    ∧ py_err s1 = Some UnicodeDecodeError
    ∧ n_parse s1 = 0.
Proof.
  cbn zeta.
  destruct (TypeKey_to_PropsDict_undecodable Variants.camel_to_snake
              sample_zlib no_str sample_parser key
              (initial_state [(key, EPacked (x01 :: b "f(self)" ++ [x0a]))])
              (EPacked (x01 :: b "f(self)" ++ [x0a])) [b "f(self)"])
    as (s1 & H1 & H2 & _ & _ & _ & H6).
  - reflexivity.
  - reflexivity.
  - reflexivity.
  - exists s1. split; [exact H1|]. split; [exact H2|]. exact H6.
Defined.

End StoreMoreExamples.

(** ** The lines of a payload and back *)

Section JoinedLines.
Import Heap Store Lines Blobs.

Variable zlib : option (option (list byte -> option (list byte))).
Variable Py_BuildValue_s : list byte -> option string.

Lemma lines_of_line l : ∀ cur rest,
  newline ∉ l →
  lines_of cur (l ++ newline :: rest) = (reverse cur ++ l) :: lines_of [] rest.
Proof.
  induction l as [|c l IH]; intros cur rest Hn; cbn.
  - rewrite decide_True by done. by rewrite app_nil_r.
  - apply not_elem_of_cons in Hn as [Hc Hl].
    rewrite decide_False by done. rewrite IH by done.
    by rewrite reverse_cons, <- app_assoc.
Qed.

Lemma joined_cons l ls : joined (l :: ls) = l ++ newline :: joined ls.
Proof. unfold joined. cbn. by rewrite <- app_assoc. Qed.

Lemma lines_of_joined strings tail :
  Forall (fun l => newline ∉ l) strings → newline ∉ tail →
  lines_of [] (joined strings ++ tail) = strings.
Proof.
  intros Hs Ht. induction Hs as [|l ls Hl _ IH].
  - exact (lines_of_tail [] [] tail Ht).
  - rewrite joined_cons, <- app_assoc. cbn [app].
    rewrite lines_of_line by done. by rewrite IH.
Qed.

Lemma bytesToStrings_unpacked packed data s :
  unpacked zlib packed = Some data →
  bytesToStrings zlib packed s
  = (expanded (expand_calls zlib (EPacked packed)) s, Some (split_lines data)).
Proof.
  intros Hun. unfold bytesToStrings, unpacked, expand_calls in *.
  destruct packed as [|c packed].
  - rewrite decide_False in Hun by (cbn; lia).
    rewrite decide_False by (cbn; lia).
    injection Hun as <-. unfold sbind, sret. by rewrite expanded_0.
  - rewrite decide_True in Hun by (cbn; lia).
    rewrite decide_True by (cbn; lia).
    unfold byteExpand, sbind. destruct zlib as [[f|]|]; try discriminate.
    unfold count_expand. by rewrite Hun.
Qed.

(** X5: when the unpacked payload is a list of strings, each followed by a
    newline, and the strings hold neither a newline nor a zero byte, the
    strings read from the array of [bytesToStrings] are exactly these
    strings, in order; bytes after the last newline change nothing.  The
    parser is given their decoded forms. *)
Theorem bytesToStrings_joined (packed : list byte) strings tail (s : state) :
  unpacked zlib packed = Some (joined strings ++ tail) →
  Forall (fun l => (newline ∉ l) ∧ (nul ∉ l)) strings →
  newline ∉ tail →
  ∃ r,
    bytesToStrings zlib packed s
    = (expanded (expand_calls zlib (EPacked packed)) s, Some r)
    ∧ strings_of r = strings
    ∧ cstrings_for zlib (EPacked packed) = Some strings
    ∧ strings_for zlib Py_BuildValue_s (EPacked packed)
      = string_list Py_BuildValue_s strings.
Proof.
  intros Hun Hs Ht.
  assert (Hstr : strings_of (split_lines (joined strings ++ tail)) = strings).
  { rewrite strings_of_split_lines, lines_of_joined; [|  |done].
    - clear Hun. induction Hs as [|l ls [_ Hl] _ IH]; [done|].
      cbn. by rewrite c_str_of_id, IH.
    - eapply Forall_impl; [exact Hs|]. by intros l [? _]. }
  exists (split_lines (joined strings ++ tail)).
  split; [by apply bytesToStrings_unpacked|]. split; [done|].
  cbn [cstrings_for strings_for]. rewrite Hun. cbn [mbind option_bind].
  by rewrite Hstr.
Qed.

End JoinedLines.

Lemma bytesToStrings_joined_witness :
  let b := String.list_byte_of_string in
  let strings := [b "A.f(self)"; b ""; b "A.g(self, x: int)"] in
  ∃ r,
    Store.bytesToStrings Store.sample_zlib
      (x01 :: Blobs.joined strings ++ b "rest") (Store.initial_state [])
    = (Store.expanded 1 (Store.initial_state []), Some r)
    ∧ Lines.strings_of r = strings.
Proof.
  cbn zeta.
  destruct (bytesToStrings_joined Store.sample_zlib Store.sample_str
              (x01 :: Blobs.joined [String.list_byte_of_string "A.f(self)";
                                    String.list_byte_of_string "";
                                    String.list_byte_of_string "A.g(self, x: int)"]
                      ++ String.list_byte_of_string "rest")
              [String.list_byte_of_string "A.f(self)";
               String.list_byte_of_string "";
               String.list_byte_of_string "A.g(self, x: int)"]
              (String.list_byte_of_string "rest") (Store.initial_state []))
    as (r & H1 & H2 & _).
  - reflexivity.
  - repeat constructor; vm_compute; intros H;
      repeat (apply elem_of_cons in H as [H|H]; [discriminate H|]);
      by apply elem_of_nil in H.
  - vm_compute. intros H.
    repeat (apply elem_of_cons in H as [H|H]; [discriminate H|]).
    by apply elem_of_nil in H.
  - exists r. split; [exact H1|exact H2].
Defined.

(** ** The attribute patcher, entry by entry *)

Section PatcherMoreFacts.
Import Patcher.

Variable NDEBUG : bool.
Variable type : PyTypeObject.

Lemma names_drop_S (l : list PyGetSetDef) a g :
  l !! a = Some g → name <$> drop a l = name g :: (name <$> drop (S a) l).
Proof. intros H. by rewrite (drop_S _ _ _ H). Qed.

Lemma NoDup_names_eq (l : list PyGetSetDef) i j gi gj :
  NoDup (name <$> l) → l !! i = Some gi → l !! j = Some gj →
  name gi = name gj → i = j.
Proof.
  intros Hnd Hi Hj Heq.
  apply (NoDup_lookup _ i j (name gi) Hnd).
  - by rewrite list_lookup_fmap, Hi.
  - by rewrite list_lookup_fmap, Hj, Heq.
Qed.

Lemma NoDup_names_later (l : list PyGetSetDef) a g :
  NoDup (name <$> l) → l !! a = Some g → name g ∉ name <$> drop (S a) l.
Proof.
  intros Hnd Ha Hin.
  apply list_elem_of_fmap in Hin as (g' & Heq & Hin).
  apply list_elem_of_lookup in Hin as [j Hj].
  rewrite lookup_drop in Hj.
  pose proof (NoDup_names_eq _ _ _ _ _ Hnd Ha Hj Heq). lia.
Qed.

(** One turn of the loop that does not abort. *)
Lemma install_loop_step a idxs m g :
  gsp m !! a = Some g →
  tp_dict m !! name g = None ∨ name g = "__doc__" ∨ NDEBUG = true →
  ∃ m3,
    install_loop NDEBUG type (a :: idxs) m = install_loop NDEBUG type idxs m3
    ∧ name <$> gsp m3 = name <$> gsp m
    ∧ (∀ i, i ≠ a → gsp m3 !! i = gsp m !! i)
    ∧ next_id m ≤ next_id m3
    ∧ (∀ n, n ≠ name g → tp_dict m3 !! n = tp_dict m !! n)
    ∧ match tp_dict m !! name g with
      | None =>
          gsp m3 !! a = Some g
          ∧ tp_dict m3 !! name g = Some (GetSetDescr (next_id m) (InNew a))
          ∧ next_id m < next_id m3
          ∧ doc_descr m3 = doc_descr m
      | Some have =>
          gsp m3 !! a = Some (_fixup_getset type (name g) g).1
          ∧ (if declared type (name g)
             then tp_dict m3 !! name g
                  = Some (GetSetDescr (next_id m) (InNew a))
                  ∧ next_id m < next_id m3
             else tp_dict m3 !! name g = Some have)
          ∧ doc_descr m3
            = if bool_decide (name g = "__doc__") then Some have
              else doc_descr m
      end.
Proof.
  intros Hg Hallowed. cbn [install_loop]. rewrite Hg.
  destruct (tp_dict m !! name g) as [have|] eqn:Hd.
  - assert (Hok : bool_decide (name g = "__doc__") || NDEBUG = true).
    { destruct Hallowed as [?|[Hn|Hn]]; [done| |].
      - by rewrite bool_decide_eq_true_2.
      - rewrite Hn. apply orb_true_r. }
    rewrite Hok.
    destruct (_fixup_getset_result type (name g) g) as [Hname Hr].
    destruct (_fixup_getset type (name g) g) as [g' r]. cbn [fst snd] in *.
    assert (Hnames : name <$> <[a := g']> (gsp m) = name <$> gsp m).
    { rewrite list_fmap_insert, Hname. apply list_insert_id.
      by rewrite list_lookup_fmap, Hg. }
    assert (Hlt : a < length (gsp m)) by (by apply lookup_lt_Some in Hg).
    destruct (declared type (name g)); subst r.
    + eexists. split; [reflexivity|].
      destruct (bool_decide (name g = "__doc__")); cbn.
      all: split; [done|].
      all: split; [by intros i Hi; apply list_lookup_insert_ne|].
      all: split; [lia|].
      all: split; [by intros n Hn; apply lookup_insert_ne|].
      all: split; [by apply list_lookup_insert_eq|].
      all: split; [|done].
      all: split; [apply lookup_insert_eq|lia].
    + eexists. split; [reflexivity|].
      destruct (bool_decide (name g = "__doc__")); cbn.
      all: split; [done|].
      all: split; [by intros i Hi; apply list_lookup_insert_ne|].
      all: split; [lia|].
      all: split; [done|].
      all: split; [by apply list_lookup_insert_eq|].
      all: by split.
  - eexists. split; [reflexivity|]. cbn.
    split; [done|]. split; [done|]. split; [lia|].
    split; [by intros n Hn; apply lookup_insert_ne|].
    split; [done|]. split; [apply lookup_insert_eq|]. split; [lia|done].
Qed.

(** A run over the entries from [a] on, when their names are distinct and
    none of them stops at an assertion. *)
Lemma install_loop_run : ∀ k a m,
  a + k = length (gsp m) →
  NoDup (name <$> gsp m) →
  (∀ i g, a ≤ i → gsp m !! i = Some g →
     tp_dict m !! name g = None ∨ name g = "__doc__" ∨ NDEBUG = true) →
  ∃ m',
    install_loop NDEBUG type (seq a k) m = (m', Returned 0)
    ∧ name <$> gsp m' = name <$> gsp m
    ∧ next_id m ≤ next_id m'
    ∧ (∀ i, i < a → gsp m' !! i = gsp m !! i)
    ∧ (∀ i g, a ≤ i → gsp m !! i = Some g →
         match tp_dict m !! name g with
         | None =>
             gsp m' !! i = Some g
             ∧ ∃ id, next_id m ≤ id < next_id m'
                     ∧ tp_dict m' !! name g = Some (GetSetDescr id (InNew i))
         | Some have =>
             gsp m' !! i = Some (_fixup_getset type (name g) g).1
             ∧ if declared type (name g)
               then ∃ id, next_id m ≤ id < next_id m'
                          ∧ tp_dict m' !! name g
                            = Some (GetSetDescr id (InNew i))
               else tp_dict m' !! name g = Some have
         end)
    ∧ (∀ n, n ∉ name <$> drop a (gsp m) → tp_dict m' !! n = tp_dict m !! n)
    ∧ doc_descr m'
      = match tp_dict m !! "__doc__" with
        | Some have =>
            if bool_decide ("__doc__" ∈ name <$> drop a (gsp m))
            then Some have else doc_descr m
        | None => doc_descr m
        end.
Proof.
  induction k as [|k IH]; intros a m Hlen Hnd Hallowed.
  - exists m. split; [done|]. split; [done|]. split; [done|].
    split; [done|]. split; [|split; [done|]].
    + intros i g Hi Hg. apply lookup_lt_Some in Hg. lia.
    + rewrite drop_ge by lia. cbn.
      rewrite bool_decide_eq_false_2 by apply not_elem_of_nil.
      by destruct (tp_dict m !! "__doc__").
  - destruct (lookup_lt_is_Some_2 (gsp m) a) as [g Hg]; [lia|].
    cbn [seq].
    destruct (install_loop_step a (seq (S a) k) m g Hg (Hallowed a g (le_n _) Hg))
      as (m3 & Hrun & Hnm3 & Hgsp3 & Hid3 & Hdict3 & Hat).
    assert (Hlen3 : length (gsp m3) = length (gsp m)).
    { by rewrite <- (length_fmap name), Hnm3, length_fmap. }
    assert (Hlater : name g ∉ name <$> drop (S a) (gsp m))
      by (by apply NoDup_names_later).
    assert (Hdrop3 : name <$> drop (S a) (gsp m3) = name <$> drop (S a) (gsp m)).
    { by rewrite !fmap_drop, Hnm3. }
    assert (Hother : ∀ i gi, S a ≤ i → gsp m !! i = Some gi → name gi ≠ name g).
    { intros i gi Hi Hgi Heq.
      pose proof (NoDup_names_eq _ _ _ _ _ Hnd Hgi Hg Heq). lia. }
    destruct (IH (S a) m3) as (m' & Hrun' & Hnm' & Hid' & Hlow' & Hat' & Hfr' & Hdoc').
    { lia. }
    { by rewrite Hnm3. }
    { intros i gi Hi Hgi. rewrite Hgsp3 in Hgi by lia.
      rewrite Hdict3 by (by eapply Hother).
      apply (Hallowed i gi); [lia|done]. }
    exists m'. rewrite Hrun, Hrun'. split; [done|].
    split; [by rewrite Hnm', Hnm3|]. split; [lia|].
    split; [|split; [|split]].
    + intros i Hi. rewrite Hlow' by lia. apply Hgsp3. lia.
    + intros i gi Hi Hgi.
      destruct (decide (i = a)) as [->|Hne].
      * assert (gi = g) as -> by congruence.
        rewrite (Hlow' a) by lia.
        rewrite (Hfr' (name g)) by (by rewrite Hdrop3).
        destruct (tp_dict m !! name g) as [have|].
        -- destruct Hat as (Hga & Hdecl & _). split; [done|].
           destruct (declared type (name g)); [|done].
           destruct Hdecl as [Hd Hlt]. exists (next_id m). split; [lia|done].
        -- destruct Hat as (Hga & Hd & Hlt & _). split; [done|].
           exists (next_id m). split; [lia|done].
      * assert (Hgi3 : gsp m3 !! i = Some gi) by (by rewrite Hgsp3).
        pose proof (Hat' i gi ltac:(lia) Hgi3) as Hi'.
        rewrite Hdict3 in Hi' by (eapply Hother; [|done]; lia).
        destruct (tp_dict m !! name gi) as [have|].
        -- destruct Hi' as [Hgi' Hdecl]. split; [done|].
           destruct (declared type (name gi)); [|done].
           destruct Hdecl as (id & Hb & Hd). exists id. split; [lia|done].
        -- destruct Hi' as [Hgi' (id & Hb & Hd)]. split; [done|].
           exists id. split; [lia|done].
    + intros n Hn. rewrite (names_drop_S _ _ _ Hg) in Hn.
      apply not_elem_of_cons in Hn as [Hne Hn].
      rewrite Hfr' by (by rewrite Hdrop3). by apply Hdict3.
    + rewrite Hdoc', Hdrop3, (names_drop_S _ _ _ Hg).
      destruct (decide (name g = "__doc__")) as [Heq|Hne].
      * rewrite Heq in Hlater, Hat.
        rewrite (bool_decide_eq_false_2 _ Hlater).
        rewrite (bool_decide_eq_true_2 ("__doc__" ∈ _ :: _))
          by (rewrite Heq; left).
        assert (Hsame : match tp_dict m3 !! "__doc__" with
                        | Some _ | None => doc_descr m3 end = doc_descr m3)
          by (by destruct (tp_dict m3 !! "__doc__")).
        rewrite Hsame.
        destruct (tp_dict m !! "__doc__") as [have|].
        -- destruct Hat as (_ & _ & ->). by rewrite bool_decide_eq_true_2.
        -- by destruct Hat as (_ & _ & _ & ->).
      * rewrite Hdict3 by done.
        assert (Hd3 : doc_descr m3 = doc_descr m).
        { destruct (tp_dict m !! name g).
          - destruct Hat as (_ & _ & ->). by rewrite bool_decide_eq_false_2.
          - by destruct Hat as (_ & _ & _ & ->). }
        rewrite Hd3.
        destruct (tp_dict m !! "__doc__") as [have|]; [|done].
        destruct (decide ("__doc__" ∈ name <$> drop (S a) (gsp m))) as [Hin|Hnin].
        -- rewrite !bool_decide_eq_true_2; [done|by right|done].
        -- rewrite !bool_decide_eq_false_2; [done| |done].
           intros [?|?]%elem_of_cons; [by apply Hne|done].
Qed.

(** X6: on a type that is ready (its dict has ["__doc__"], as
    [PyType_Ready] leaves it) and whose dict has none of the names of [gsp],
    which ["__doc__"] is then not among, and with the names of [gsp]
    distinct, [add_more_getsets] returns 0, leaves [gsp] and [*doc_descr] as
    they are, binds every name of [gsp] to a descriptor made in this run for
    the entry of that name, and leaves every other name of the dict, with
    ["__doc__"], as it was. *)
Theorem add_more_getsets_fresh m :
  ready m →
  NoDup (name <$> gsp m) →
  (∀ n, n ∈ name <$> gsp m → tp_dict m !! n = None) →
  ∃ m',
    add_more_getsets NDEBUG type m = (m', Returned 0)
    ∧ gsp m' = gsp m
    ∧ doc_descr m' = doc_descr m
    ∧ ("__doc__" ∉ name <$> gsp m)
    ∧ tp_dict m' !! "__doc__" = tp_dict m !! "__doc__"
    ∧ (∀ i g, gsp m !! i = Some g →
         ∃ id, next_id m ≤ id < next_id m'
               ∧ tp_dict m' !! name g = Some (GetSetDescr id (InNew i))
               ∧ deref type m' (InNew i) = Some g)
    ∧ (∀ n, n ∉ name <$> gsp m → tp_dict m' !! n = tp_dict m !! n).
Proof.
  intros Hready Hnd Hfresh.
  assert (Hnodoc : "__doc__" ∉ name <$> gsp m).
  { intros Hin. destruct Hready as [o Ho]. by rewrite (Hfresh _ Hin) in Ho. }
  assert (Hnone : ∀ i g, gsp m !! i = Some g → tp_dict m !! name g = None).
  { intros i g Hg. apply Hfresh, list_elem_of_fmap. exists g. split; [done|].
    by eapply list_elem_of_lookup_2. }
  destruct (install_loop_run (length (gsp m)) 0 m)
    as (m' & Hrun & Hnm & Hid & _ & Hat & Hfr & Hdoc); [done|done| |].
  { intros i g _ Hg. left. by eapply Hnone. }
  assert (Hgsp : gsp m' = gsp m).
  { apply list_eq. intros i.
    destruct (gsp m !! i) as [g|] eqn:Hg.
    - pose proof (Hat i g ltac:(lia) Hg) as Hi.
      rewrite (Hnone _ _ Hg) in Hi. by destruct Hi.
    - apply lookup_ge_None. apply lookup_ge_None in Hg.
      by rewrite <- (length_fmap name), Hnm, length_fmap. }
  exists m'. split; [done|]. split; [done|].
  split; [|split; [done|split; [by apply Hfr|split]]].
  - rewrite Hdoc. destruct (tp_dict m !! "__doc__") as [have|] eqn:Hd; [|done].
    rewrite bool_decide_eq_false_2; [done|]. cbn [drop].
    intros Hin. by rewrite (Hfresh _ Hin) in Hd.
  - intros i g Hg. pose proof (Hat i g ltac:(lia) Hg) as Hi.
    rewrite (Hnone _ _ Hg) in Hi. destruct Hi as [_ (id & Hb & Hd)].
    exists id. split; [done|]. split; [done|]. cbn [deref]. by rewrite Hgsp.
  - intros n Hn. by apply Hfr.
Qed.

(** X7: when the names of [gsp] are distinct and the dict has ["__doc__"]
    already and no other name of [gsp],
    [add_more_getsets] returns 0 and stores the object found in
    [*doc_descr].  If the getset table of the type has an entry for
    ["__doc__"], the entry of [gsp] keeps its getter and takes the setter,
    the doc string and the closure of the first such entry, and the name is
    bound to a new descriptor for it; if the tables of the type do not
    declare the name, the binding of ["__doc__"] is left as it was. *)
Theorem add_more_getsets_doc_override m i g have :
  NoDup (name <$> gsp m) →
  gsp m !! i = Some g →
  name g = "__doc__" →
  tp_dict m !! "__doc__" = Some have →
  (∀ n, n ∈ name <$> gsp m → n ≠ "__doc__" → tp_dict m !! n = None) →
  ∃ m',
    add_more_getsets NDEBUG type m = (m', Returned 0)
    ∧ doc_descr m' = Some have
    ∧ (∀ g0,
         List.find (fun g' => bool_decide (name g' = "__doc__"))
                   (default [] (tp_getset type)) = Some g0 →
         gsp m' !! i
         = Some (GetSetDef "__doc__" (get g) (set g0) (doc g0) (closure g0))
         ∧ ∃ id, next_id m ≤ id < next_id m'
                 ∧ tp_dict m' !! "__doc__" = Some (GetSetDescr id (InNew i)))
    ∧ (declared type "__doc__" = false →
       gsp m' !! i = Some g ∧ tp_dict m' !! "__doc__" = Some have).
Proof.
  intros Hnd Hg Hname Hd Hothers.
  destruct (install_loop_run (length (gsp m)) 0 m)
    as (m' & Hrun & Hnm & Hid & _ & Hat & Hfr & Hdoc); [done|done| |].
  { intros j gj _ Hgj.
    destruct (decide (name gj = "__doc__")) as [?|Hne]; [by right; left|].
    left. apply Hothers; [|done]. apply list_elem_of_fmap. exists gj.
    split; [done|]. by eapply list_elem_of_lookup_2. }
  pose proof (Hat i g ltac:(lia) Hg) as Hi. rewrite Hname, Hd in Hi.
  destruct Hi as [Hgi Hdecl].
  exists m'. split; [done|]. split; [|split].
  - rewrite Hdoc, Hd. cbn [drop]. rewrite bool_decide_eq_true_2; [done|].
    rewrite <- Hname. apply list_elem_of_fmap. exists g. split; [done|].
    by eapply list_elem_of_lookup_2.
  - intros g0 Hfind.
    assert (Hdeclared : declared type "__doc__" = true).
    { unfold declared. rewrite bool_decide_eq_true_2; [done|].
      apply list_elem_of_fmap. exists g0.
      apply find_some in Hfind as [Hin Hb].
      apply bool_decide_eq_true_1 in Hb.
      split; [done|]. by apply list_elem_of_In. }
    rewrite Hdeclared in Hdecl. split; [|done].
    rewrite Hgi. unfold _fixup_getset. rewrite Hfind. cbn [fst].
    by rewrite Hname.
  - intros Hnot. rewrite Hnot in Hdecl. split; [|done].
    rewrite Hgi. unfold _fixup_getset, declared in *.
    apply orb_false_iff in Hnot as [Hn1 Hn2].
    apply bool_decide_eq_false_1 in Hn1.
    rewrite (find_name_None _ _ Hn1), Hn2. done.
Qed.

(** A name of [gsp] other than ["__doc__"] that is in the dict stops the run
    at an assertion. *)
Lemma install_loop_aborts : ∀ k a m i g,
  NDEBUG = false →
  a + k = length (gsp m) →
  a ≤ i → gsp m !! i = Some g → name g ≠ "__doc__" →
  is_Some (tp_dict m !! name g) →
  ∃ m', install_loop NDEBUG type (seq a k) m = (m', Aborted).
Proof.
  induction k as [|k IH]; intros a m i g Hnd Hlen Hi Hg Hne Hin.
  - apply lookup_lt_Some in Hg. lia.
  - destruct (lookup_lt_is_Some_2 (gsp m) a) as [ga Hga]; [lia|].
    destruct (decide (tp_dict m !! name ga = None ∨ name ga = "__doc__"))
      as [Hok|Hbad].
    + assert (Hia : i ≠ a).
      { intros ->. assert (ga = g) as -> by congruence.
        destruct Hok as [Hn|?]; [|done]. rewrite Hn in Hin. by destruct Hin. }
      cbn [seq].
      destruct (install_loop_step a (seq (S a) k) m ga Hga)
        as (m3 & Hrun & Hnm3 & Hgsp3 & _ & Hdict3 & Hat); [tauto|].
      rewrite Hrun. apply (IH (S a) m3 i g); [done| |lia| |done|].
      * assert (length (gsp m3) = length (gsp m))
          by (by rewrite <- (length_fmap name), Hnm3, length_fmap).
        lia.
      * by rewrite Hgsp3.
      * destruct (decide (name g = name ga)) as [Heq|Hneq];
          [|by rewrite Hdict3].
        rewrite Heq. destruct Hok as [Hn|Hdoc]; [|congruence].
        rewrite Hn in Hat. destruct Hat as (_ & -> & _). eauto.
    + exists m. cbn [seq install_loop]. rewrite Hga.
      destruct (tp_dict m !! name ga) as [have|] eqn:Hd; [|tauto].
      rewrite bool_decide_eq_false_2 by tauto. by rewrite Hnd.
Qed.

(** X8: with assertions compiled in and the names of [gsp] distinct,
    [add_more_getsets] stops at an assertion exactly when the dict of the
    type already has a name of [gsp] other than ["__doc__"]; otherwise it
    returns 0. *)
Theorem add_more_getsets_aborts m :
  NDEBUG = false →
  NoDup (name <$> gsp m) →
  let clash := ∃ n, n ∈ name <$> gsp m ∧ n ≠ "__doc__"
                    ∧ is_Some (tp_dict m !! n) in
  (clash → ∃ m', add_more_getsets NDEBUG type m = (m', Aborted))
  ∧ (¬ clash → ∃ m', add_more_getsets NDEBUG type m = (m', Returned 0)).
Proof.
  intros Hnd Hdup. cbn zeta. split.
  - intros (n & Hn & Hne & Hin).
    apply list_elem_of_fmap in Hn as (g & -> & Hg).
    apply list_elem_of_lookup in Hg as [i Hg].
    apply (install_loop_aborts (length (gsp m)) 0 m i g); (done || lia).
  - intros Hno.
    destruct (install_loop_run (length (gsp m)) 0 m)
      as (m' & Hrun & _); [done|done| |by exists m'].
    intros i g _ Hg.
    destruct (decide (name g = "__doc__")) as [?|Hne]; [by right; left|].
    left. destruct (tp_dict m !! name g) as [have|] eqn:Hd; [|done].
    exfalso. apply Hno. exists (name g). split; [|split; [done|by rewrite Hd]].
    apply list_elem_of_fmap. exists g. split; [done|].
    by eapply list_elem_of_lookup_2.
Qed.

End PatcherMoreFacts.

Lemma add_more_getsets_fresh_witness :
  let m := Patcher.Memory {[ "__doc__" := Patcher.GetSetDescr 0 (Patcher.InType 0) ]}
             [Patcher.GetSetDef "__signature__" (Some 5) None None None]
             None 3 in
  ∃ m',
    Patcher.add_more_getsets false Patcher.sample_type m
    = (m', Patcher.Returned 0)
    ∧ Patcher.gsp m' = Patcher.gsp m
    ∧ Patcher.doc_descr m' = None
    ∧ Patcher.tp_dict m' !! "__doc__"
      = Some (Patcher.GetSetDescr 0 (Patcher.InType 0))
    ∧ is_Some (Patcher.tp_dict m' !! "__signature__").
Proof.
  cbn zeta.
  destruct (add_more_getsets_fresh false Patcher.sample_type
              (Patcher.Memory
                 {[ "__doc__" := Patcher.GetSetDescr 0 (Patcher.InType 0) ]}
                 [Patcher.GetSetDef "__signature__" (Some 5) None None None]
                 None 3))
    as (m' & H1 & H2 & H3 & _ & H4 & H5 & _).
  - by eexists.
  - apply (bool_decide_unpack _). vm_compute. reflexivity.
  - intros n ->%list_elem_of_singleton. reflexivity.
  - exists m'. split; [exact H1|]. split; [exact H2|]. split; [exact H3|].
    split; [exact H4|].
    destruct (H5 0 _ eq_refl) as (id & _ & Hd & _). cbn in Hd. eauto.
Defined.

Lemma add_more_getsets_doc_override_witness :
  ∃ m',
    Patcher.add_more_getsets false Patcher.sample_type Patcher.sample_memory
    = (m', Patcher.Returned 0)
    ∧ Patcher.doc_descr m'
      = Some (Patcher.GetSetDescr 0 (Patcher.InType 0))
    ∧ Patcher.gsp m' !! 0
      = Some (Patcher.GetSetDef "__doc__" (Some 7) (Some 2) None None).
Proof.
  destruct (add_more_getsets_doc_override false Patcher.sample_type
              Patcher.sample_memory 0
              (Patcher.GetSetDef "__doc__" (Some 7) None None None)
              (Patcher.GetSetDescr 0 (Patcher.InType 0)))
    as (m' & H1 & H2 & H3 & _).
  - apply (bool_decide_unpack _). vm_compute. reflexivity.
  - reflexivity.
  - reflexivity.
  - reflexivity.
  - intros n Hn Hne. apply list_elem_of_singleton in Hn. contradiction.
  - exists m'. split; [exact H1|]. split; [exact H2|].
    exact (proj1 (H3 _ eq_refl)).
Defined.

Lemma add_more_getsets_aborts_witness :
  let m := Patcher.Memory {[ "__name__" := Patcher.Object 0 ]}
             [Patcher.GetSetDef "__doc__" (Some 7) None None None;
              Patcher.GetSetDef "__name__" (Some 8) None None None] None 1 in
  ∃ m', Patcher.add_more_getsets false Patcher.sample_type m
        = (m', Patcher.Aborted).
Proof.
  cbn zeta.
  apply (add_more_getsets_aborts false Patcher.sample_type
           (Patcher.Memory {[ "__name__" := Patcher.Object 0 ]}
              [Patcher.GetSetDef "__doc__" (Some 7) None None None;
               Patcher.GetSetDef "__name__" (Some 8) None None None] None 1)).
  - reflexivity.
  - apply (bool_decide_unpack _). vm_compute. reflexivity.
  - exists "__name__". split; [|split].
    + apply (bool_decide_unpack _). vm_compute. reflexivity.
    + discriminate.
    + vm_compute. eauto.
Defined.

(** ** The registry *)

Section RegistryFacts.
Import Resolver Store Registry.

Variable AttributeError : exc.
Variable NDEBUG : bool.
Variable staticmethod_name : bool.
Variable tp_methods : entity -> option (list PyMethodDef).
Variable PyModule_GetDict : entity -> list (string * object).
Variable finish_import_func :
  option (entity -> Heap.heap -> Heap.heap * option exc).
Variable PySide_PatchTypes : R Z.
Variable getSnakeCaseName : string -> string.

Local Abbreviation typeKey := (Registry.GetTypeKey AttributeError).
Local Abbreviation buildArgs := (PySide_BuildSignatureArgs AttributeError).
Local Abbreviation buildArgsByte :=
  (PySide_BuildSignatureArgsByte AttributeError).
Local Abbreviation loop := (func_to_type_loop staticmethod_name).
Local Abbreviation buildFuncToType :=
  (_build_func_to_type AttributeError staticmethod_name tp_methods).

Lemma rbind_inv {A B} (c : R A) (k : A → R B) g g' b :
  rbind c k g = Done g' b → ∃ g1 a, c g = Done g1 a ∧ k a g1 = Done g' b.
Proof. unfold rbind. destruct (c g); try discriminate. eauto. Qed.

Lemma rbind_Done {A B} (c : R A) (k : A → R B) g g1 a :
  c g = Done g1 a → rbind c k g = k a g1.
Proof. unfold rbind. by intros ->. Qed.

Lemma keeps_store_refl g : keeps_store g g.
Proof. by repeat split. Qed.

Lemma keeps_store_trans g1 g2 g3 :
  keeps_store g1 g2 → keeps_store g2 g3 → keeps_store g1 g3.
Proof.
  intros (?&?&?&?&?) (?&?&?&?&?). repeat split; congruence.
Qed.

Lemma keeps_store_with_err g e : keeps_store g (with_err g e).
Proof. by repeat split. Qed.

(** [GetTypeKey] returns what the resolver computes and touches the error
    indicator only. *)
Lemma GetTypeKey_Done ob r g :
  Resolver.GetTypeKey ob = Ret r →
  ∃ e, typeKey (Some ob) g = Done (with_err g e) r
       ∧ (a_module (get_attrs ob) ≠ None → e = py_err (store g)).
Proof.
  intros Hr. unfold Registry.GetTypeKey. rewrite Hr.
  destruct (a_module (get_attrs ob)) as [m|].
  - exists (py_err (store g)). split; [|done]. unfold rret, with_err, with_store.
    destruct g as [[] ? ?]. reflexivity.
  - destruct r as [k|].
    + exists None. split; [reflexivity|done].
    + exists (Some AttributeError). split; [reflexivity|done].
Qed.

Lemma GetTypeKey_inv ob g g' r :
  typeKey (Some ob) g = Done g' r →
  Resolver.GetTypeKey ob = Ret r ∧ ∃ e, g' = with_err g e.
Proof.
  destruct (Resolver.GetTypeKey ob) as [r0|msg] eqn:Hr.
  - destruct (GetTypeKey_Done ob r0 g Hr) as (e & -> & _).
    intros [= <- <-]. eauto.
  - unfold Registry.GetTypeKey. by rewrite Hr.
Qed.

(** One turn of the loop of [_build_func_to_type]. *)
Lemma func_to_type_turn obtype meth meths g :
  match dict_of g obtype with
  | None => loop obtype (meth :: meths) g = Undefined
  | Some d =>
      match d !! ml_name meth with
      | None => loop obtype (meth :: meths) g = Done g (-1)%Z
      | Some descr =>
          if hides staticmethod_name descr meth
             && negb (bool_decide (String.length (ml_name meth) + 9 < 200))
          then loop obtype (meth :: meths) g = Undefined
          else
            ∃ g2,
              loop obtype (meth :: meths) g = loop obtype meths g2
              ∧ keeps_store g g2
              ∧ map_dict g2
                = map_after staticmethod_name obtype meth descr (map_dict g)
              ∧ dict_of g2 obtype
                = Some (dict_after staticmethod_name obtype meth descr d)
              ∧ (∀ t, t ≠ obtype → tp_dict g2 !! t = tp_dict g !! t)
      end
  end.
Proof.
  cbn [func_to_type_loop].
  unfold map_after, dict_after, hides, dict_of.
  unfold rbind, the_dict. cbv beta.
  destruct (tp_dict g !! obtype) as [[d|[d|]]|] eqn:Htp; try reflexivity.
  all: destruct (d !! ml_name meth) as [descr|] eqn:Hdescr; [|reflexivity].
  all: destruct (is_static meth);
    [destruct (bool_decide (is_Some (attr_func descr))) eqn:Hb
    |destruct (bool_decide (attr_name staticmethod_name descr
                            = Some (ml_name meth))) eqn:Hb];
    cbn [negb andb].
  all: try (destruct (decide (String.length (ml_name meth) + 9 < 200)) as [Hs|Hs];
            [rewrite (bool_decide_eq_true_2 _ Hs)
            |rewrite (bool_decide_eq_false_2 _ Hs); cbn [negb];
             unfold rbind, PyErr_Clear; reflexivity];
            cbn [negb];
            unfold rbind, PyErr_Clear, the_dict_set; cbn; rewrite Htp; cbn;
            eexists; split; [reflexivity|]; cbn;
            split; [by repeat split|]; split; [done|];
            rewrite lookup_insert_eq;
            split; [done|]; by intros t Ht; apply lookup_insert_ne).
  all: destruct (attr_func descr) as [look|] eqn:Hlook;
    try (by apply bool_decide_eq_true_1 in Hb; destruct Hb).
  all: unfold rbind, map_dict_set, rret; cbn;
    eexists; split; [reflexivity|]; cbn;
    split; [by repeat split|]; split; [done|];
    rewrite Htp; by split.
Qed.

Lemma dict_after_mono obtype meth descr (d : gmap string object) n :
  is_Some (d !! n) →
  is_Some (dict_after staticmethod_name obtype meth descr d !! n).
Proof.
  unfold dict_after. destruct (hides _ _ _); [|done].
  intros H. by apply lookup_insert_is_Some'; right.
Qed.

Lemma dict_after_ne obtype meth descr (d : gmap string object) n :
  n ≠ mangled (ml_name meth) →
  dict_after staticmethod_name obtype meth descr d !! n = d !! n.
Proof.
  unfold dict_after. destruct (hides _ _ _); [|done].
  intros H. by apply lookup_insert_ne.
Qed.

Lemma map_after_cases obtype meth descr (m : gmap pyval object) key :
  map_after staticmethod_name obtype meth descr m !! key = m !! key
  ∨ map_after staticmethod_name obtype meth descr m !! key
    = Some (OEntity obtype).
Proof.
  unfold map_after.
  destruct (hides _ _ _).
  - destruct (decide (key = VStr (mangled (ml_name meth)))) as [->|Hne];
      [right; apply lookup_insert_eq|].
    rewrite lookup_insert_ne by done.
    destruct (is_static meth); [|by left].
    match goal with |- context [<[?k := _]> m] =>
      destruct (decide (key = k)) as [->|Hne2] end;
      [right; apply lookup_insert_eq|left; by apply lookup_insert_ne].
  - destruct (attr_func descr) as [look|]; [|by left].
    destruct (is_static meth); [|by left].
    destruct (decide (key = VObj (ident_of look))) as [->|Hne];
      [right; apply lookup_insert_eq|left; by apply lookup_insert_ne].
Qed.

(** What a run of the loop that returns has done. *)
Lemma func_to_type_loop_inv obtype meths : ∀ g g' r,
  loop obtype meths g = Done g' r →
  keeps_store g g'
  ∧ (∀ key, map_dict g' !! key = map_dict g !! key
            ∨ map_dict g' !! key = Some (OEntity obtype))
  ∧ (∀ t, t ≠ obtype → tp_dict g' !! t = tp_dict g !! t)
  ∧ (r = 0 ∨ r = -1)%Z.
Proof.
  induction meths as [|meth meths IH]; intros g g' r Hrun.
  - injection Hrun as <- <-. split; [apply keeps_store_refl|].
    split; [by left|]. split; [done|by left].
  - pose proof (func_to_type_turn obtype meth meths g) as Hturn.
    destruct (dict_of g obtype) as [d|]; [|congruence].
    destruct (d !! ml_name meth) as [descr|].
    + destruct (hides _ _ _ && _); [congruence|].
      destruct Hturn as (g2 & Heq & Hst & Hmap & _ & Htp).
      rewrite Heq in Hrun.
      destruct (IH _ _ _ Hrun) as (Hst' & Hmap' & Htp' & Hr).
      split; [by eapply keeps_store_trans|]. split; [|split; [|done]].
      * intros key. destruct (Hmap' key) as [Hk|Hk]; rewrite Hk; [|by right].
        rewrite Hmap. apply map_after_cases.
      * intros t Ht. by rewrite Htp', Htp.
    + rewrite Hturn in Hrun. injection Hrun as <- <-.
      split; [apply keeps_store_refl|].
      split; [by left|]. split; [done|by right].
Qed.

(** The loop returns when the type has a dict and the name of every method
    fits the buffer with its suffix; it fails only for a method whose name is
    not in the dict. *)
Lemma func_to_type_loop_spec obtype meths : ∀ g d,
  dict_of g obtype = Some d →
  (∀ meth, meth ∈ meths → String.length (ml_name meth) + 9 < 200) →
  ∃ g' r d',
    loop obtype meths g = Done g' r
    ∧ dict_of g' obtype = Some d'
    ∧ (∀ n, is_Some (d !! n) → is_Some (d' !! n))
    ∧ (∀ n, (∀ meth, meth ∈ meths → n ≠ mangled (ml_name meth)) →
         d' !! n = d !! n)
    ∧ (r = 0%Z
       ∨ (r = (-1)%Z ∧ ∃ meth, meth ∈ meths ∧ d !! ml_name meth = None))
    ∧ (r = 0%Z → ∀ meth, meth ∈ meths → is_Some (d' !! ml_name meth)).
Proof.
  induction meths as [|meth meths IH]; intros g d Hd Hshort.
  - exists g, 0%Z, d. split; [done|]. split; [done|]. split; [done|].
    split; [done|]. split; [by left|]. by intros _ m ?%elem_of_nil.
  - pose proof (func_to_type_turn obtype meth meths g) as Hturn.
    rewrite Hd in Hturn.
    destruct (d !! ml_name meth) as [descr|] eqn:Hdescr.
    + rewrite (bool_decide_eq_true_2 (_ < 200)), andb_false_r in Hturn
        by (apply Hshort; left).
      destruct Hturn as (g2 & Heq & _ & _ & Hd2 & _).
      destruct (IH g2 _ Hd2)
        as (g' & r & d' & Hrun & Hd' & Hmono & Hsame & Hr & Hall).
      { intros m Hm. apply Hshort. by right. }
      exists g', r, d'. rewrite Heq. split; [done|]. split; [done|].
      split; [|split; [|split]].
      * intros n Hn. by apply Hmono, dict_after_mono.
      * intros n Hn. rewrite Hsame by (intros m Hm; apply Hn; by right).
        apply dict_after_ne, Hn. left.
      * destruct Hr as [?|(-> & m & Hm & Hnone)]; [by left|right].
        split; [done|]. exists m. split; [by right|].
        destruct (d !! ml_name m) eqn:E; [|done].
        assert (is_Some (dict_after staticmethod_name obtype meth descr d
                         !! ml_name m)) as [? Hs]
          by (apply dict_after_mono; eauto).
        congruence.
      * intros Hr0 m [->|Hm]%elem_of_cons; [|by apply Hall].
        apply Hmono, dict_after_mono. eauto.
    + exists g, (-1)%Z, d. split; [done|]. split; [done|]. split; [done|].
      split; [done|]. split; [|done].
      right. split; [done|]. exists meth. split; [left|done].
Qed.

Lemma _build_func_to_type_inv obtype g g' r :
  buildFuncToType obtype g = Done g' r →
  keeps_store g g'
  ∧ (∀ key, map_dict g' !! key = map_dict g !! key
            ∨ map_dict g' !! key = Some (OEntity obtype))
  ∧ (∀ t, t ≠ obtype → tp_dict g' !! t = tp_dict g !! t)
  ∧ (r = 0 ∨ r = -1)%Z.
Proof.
  unfold _build_func_to_type. intros Hrun.
  apply rbind_inv in Hrun as (g1 & ns & Hns & Hrun).
  unfold PepType_GetDict in Hns.
  destruct (tp_dict g !! obtype) as [ns'|]; [|discriminate].
  injection Hns as <- <-.
  apply rbind_inv in Hrun as (g2 & [] & Herr & Hrun).
  assert (Hg2 : ∃ e, g2 = with_err g e).
  { destruct ns' as [|[|]]; injection Herr as <-; eauto.
    all: exists (py_err (store g)); by destruct g as [[] ? ?]. }
  destruct Hg2 as [e ->].
  destruct (tp_methods obtype) as [meths|].
  - apply func_to_type_loop_inv in Hrun as (Hst & Hmap & Htp & Hr).
    split; [|done].
    eapply keeps_store_trans; [apply keeps_store_with_err|done].
  - injection Hrun as <- <-.
    split; [apply keeps_store_with_err|]. split; [by left|].
    split; [done|by left].
Qed.

(** X9: when the type has a dict and every method name, with the suffix
    [".overload"], fits the buffer of 200 bytes, [_build_func_to_type]
    returns 0 or -1; it changes the store in the error indicator only and
    leaves the dicts of the other types alone.  It returns -1 only when the
    dict lacks the name of a method of the table, and it does return -1 for
    such a name that is not itself a name with the suffix of a method of the
    table. *)
Theorem _build_func_to_type_result obtype meths g d :
  tp_methods obtype = Some meths →
  dict_of g obtype = Some d →
  (∀ meth, meth ∈ meths → String.length (ml_name meth) + 9 < 200) →
  ∃ g' r,
    buildFuncToType obtype g = Done g' r
    ∧ keeps_store g g'
    ∧ (∀ t, t ≠ obtype → tp_dict g' !! t = tp_dict g !! t)
    ∧ (r = 0 ∨ r = -1)%Z
    ∧ (r = (-1)%Z → ∃ meth, meth ∈ meths ∧ d !! ml_name meth = None)
    ∧ (∀ meth, meth ∈ meths → d !! ml_name meth = None →
         (∀ m, m ∈ meths → ml_name meth ≠ mangled (ml_name m)) →
         r = (-1)%Z).
Proof.
  intros Hm Hd Hshort.
  assert (Hstart : ∃ e, buildFuncToType obtype g
                        = loop obtype meths (with_err g e)).
  { unfold _build_func_to_type, dict_of in *. unfold rbind, PepType_GetDict.
    rewrite Hm.
    destruct (tp_dict g !! obtype) as [[e|[e|]]|]; try discriminate.
    all: exists (py_err (store g)); by destruct g as [[] ? ?]. }
  destruct Hstart as [e Hstart].
  destruct (func_to_type_loop_spec obtype meths (with_err g e) d Hd Hshort)
    as (g' & r & d' & Hrun & Hd' & Hmono & Hsame & Hr & Hall).
  exists g', r. rewrite Hstart. split; [done|].
  destruct (func_to_type_loop_inv _ _ _ _ _ Hrun) as (Hst & _ & Htp & Hr').
  split; [eapply keeps_store_trans; [apply keeps_store_with_err|done]|].
  split; [done|]. split; [done|]. split.
  - intros ->. by destruct Hr as [?|[_ ?]].
  - intros meth Hin Hnone Hnm.
    destruct Hr as [Hr0|[? _]]; [|done]. exfalso.
    destruct (Hall Hr0 meth Hin) as [x Hx].
    rewrite Hsame in Hx by done. congruence.
Qed.

(** What the two registration functions do, for a key that exists. *)
Lemma PySide_BuildSignatureArgs_Done obtype_mod sigs g k :
  Resolver.GetTypeKey obtype_mod = Ret (Some k) →
  ∃ g1,
    buildArgs obtype_mod sigs g = Done g1 0%Z
    ∧ arg_dict (store g1) = <[k := EAddress sigs]> (arg_dict (store g))
    ∧ objects (store g1) = objects (store g)
    ∧ empty_dict (store g1) = empty_dict (store g)
    ∧ n_expand (store g1) = n_expand (store g)
    ∧ n_parse (store g1) = n_parse (store g)
    ∧ map_dict g1 = <[key_of k := OEntity obtype_mod]> (map_dict g)
    ∧ tp_dict g1 = tp_dict g.
Proof.
  intros Hk. destruct (GetTypeKey_Done obtype_mod _ g Hk) as (e & Hrun & _).
  unfold PySide_BuildSignatureArgs. rewrite (rbind_Done _ _ _ _ _ Hrun).
  eexists. split; [reflexivity|]. by repeat split.
Qed.

Lemma PySide_BuildSignatureArgsByte_Done obtype_mod sigs g k :
  Resolver.GetTypeKey obtype_mod = Ret (Some k) →
  ∃ g1,
    buildArgsByte obtype_mod sigs g = Done g1 0%Z
    ∧ arg_dict (store g1) = <[k := EPacked sigs]> (arg_dict (store g))
    ∧ objects (store g1) = objects (store g)
    ∧ empty_dict (store g1) = empty_dict (store g)
    ∧ n_expand (store g1) = n_expand (store g)
    ∧ n_parse (store g1) = n_parse (store g)
    ∧ map_dict g1 = <[key_of k := OEntity obtype_mod]> (map_dict g)
    ∧ tp_dict g1 = tp_dict g.
Proof.
  intros Hk. destruct (GetTypeKey_Done obtype_mod _ g Hk) as (e & Hrun & _).
  unfold PySide_BuildSignatureArgsByte. rewrite (rbind_Done _ _ _ _ _ Hrun).
  eexists. split; [reflexivity|]. by repeat split.
Qed.

Lemma PySide_BuildSignatureArgs_null obtype_mod sigs g :
  Resolver.GetTypeKey obtype_mod = Ret None →
  buildArgs obtype_mod sigs g
  = Done (with_err g (Some AttributeError)) (-1)%Z.
Proof.
  intros Hk. unfold PySide_BuildSignatureArgs, Registry.GetTypeKey.
  rewrite Hk. unfold Resolver.GetTypeKey in Hk.
  destruct (a_module (get_attrs obtype_mod)); [by destruct (a_qualname _)|].
  reflexivity.
Qed.

Variable zlib : option (option (list byte -> option (list byte))).
Variable Py_BuildValue_s : list byte -> option string.
Variable pyside_type_init_func :
  TypeKey -> list string -> Heap.heap -> Heap.heap * call_result.

Local Abbreviation propsFor :=
  (TypeKey_to_PropsDict getSnakeCaseName zlib Py_BuildValue_s
     pyside_type_init_func).

(** The lookup of a key whose blob gives the strings [strs]: the call of the
    parser with them, and what [PySide_BuildSignatureProps] does with its
    result. *)
Local Abbreviation parse_and_store :=
  (fun (k : TypeKey) (strs : list string) =>
     dict <~ call_type_init pyside_type_init_func k strs ;;
     match dict with
     | None =>
         failed <~ PyErr_Occurred ;;
         if failed then sret None else get_empty_dict
     | Some dict =>
         r <~ lift (Variants.insert_snake_case_variants getSnakeCaseName dict) ;;
         if (r <? 0)%Z then PyErr_Format SystemError else
         r <~ set_arg_dict k (EObject dict) ;;
         if (r <? 0)%Z then sret None else sret (Some dict)
     end).

Lemma propsFor_registered k s numkey strs :
  arg_dict s !! k = Some numkey →
  strings_for zlib Py_BuildValue_s numkey = Some strs →
  propsFor k s = parse_and_store k strs (expanded (expand_calls zlib numkey) s).
Proof.
  intros Hk Hs.
  rewrite (propsFor_raw _ _ _ _ _ _ _ Hk (strings_for_raw _ _ _ _ Hs)).
  apply (Build_strings _ _ _ _ _ _ _ _ Hk Hs).
Qed.

(** The part of [InitSignatureStrings] and [InitSignatureBytes] after a
    registration that returned 0. *)
Lemma init_tail type g2 g1 r :
  (failed <<- (if (0 <? 0)%Z then rret true
               else r <<- buildFuncToType type ;; rret (r <? 0)%Z) ;;
   _ <<- (if failed : bool
          then _ <<- PyErr_Print ;; PyErr_SetNone ImportError
          else rret ()) ;;
   rret 0%Z) g2 = Done g1 r →
  r = 0%Z
  ∧ keeps_store g2 g1
  ∧ (∀ key, map_dict g1 !! key = map_dict g2 !! key
            ∨ map_dict g1 !! key = Some (OEntity type))
  ∧ (∀ t, t ≠ type → tp_dict g1 !! t = tp_dict g2 !! t).
Proof.
  cbn [Z.ltb Z.compare]. intros Hrun.
  apply rbind_inv in Hrun as (g3 & failed & Hb & Hrun).
  apply rbind_inv in Hb as (g3' & r3 & Hb & Hf). injection Hf as <- <-.
  apply _build_func_to_type_inv in Hb as (Hst & Hmap & Htp & _).
  apply rbind_inv in Hrun as (g4 & [] & Herr & Hrun). injection Hrun as <- <-.
  split; [done|].
  destruct (r3 <? 0)%Z.
  - injection Herr as <-. split; [|by split].
    eapply keeps_store_trans; [exact Hst|]. by repeat split.
  - injection Herr as <-. by split.
Qed.

(** X10: when [InitSignatureStrings] returns for a type that has a key, it
    returns 0; the strings are the entry of the key in [arg_dict], the type
    is the entry of the key in [map_dict], and no object is touched.  The
    next lookup of the key hands the decoded strings to the parser. *)
Theorem InitSignatureStrings_registers type sigs k g g1 r :
  Resolver.GetTypeKey type = Ret (Some k) →
  InitSignatureStrings AttributeError staticmethod_name tp_methods type sigs g
  = Done g1 r →
  r = 0%Z
  ∧ arg_dict (store g1) = <[k := EAddress sigs]> (arg_dict (store g))
  ∧ objects (store g1) = objects (store g)
  ∧ map_dict g1 !! key_of k = Some (OEntity type)
  ∧ (∀ strs, string_list Py_BuildValue_s sigs = Some strs →
       propsFor k (store g1) = parse_and_store k strs (store g1)).
Proof.
  intros Hk Hrun. unfold InitSignatureStrings in Hrun.
  destruct (PySide_BuildSignatureArgs_Done type sigs g k Hk)
    as (g2 & Hreg & Harg & Hobj & _ & _ & _ & Hmap & _).
  rewrite (rbind_Done _ _ _ _ _ Hreg) in Hrun.
  apply init_tail in Hrun as (-> & (Hobj' & Harg' & _) & Hmap' & _).
  split; [done|]. split; [by rewrite Harg'|]. split; [by rewrite Hobj'|].
  split.
  - destruct (Hmap' (key_of k)) as [Hs|Hs]; rewrite Hs; [|done].
    rewrite Hmap. apply lookup_insert_eq.
  - intros strs Hs.
    rewrite (propsFor_registered k (store g1) (EAddress sigs) strs).
    + by rewrite expanded_0.
    + rewrite Harg', Harg. apply lookup_insert_eq.
    + exact Hs.
Qed.

(** X11: when [InitSignatureBytes] returns for a type that has a key, it
    returns 0 and the packed bytes are the entry of the key; nothing is
    unpacked yet.  The next lookup of the key unpacks them and hands the
    decoded lines to the parser. *)
Theorem InitSignatureBytes_registers type sigs k g g1 r :
  Resolver.GetTypeKey type = Ret (Some k) →
  InitSignatureBytes AttributeError staticmethod_name tp_methods type sigs g
  = Done g1 r →
  r = 0%Z
  ∧ arg_dict (store g1) = <[k := EPacked sigs]> (arg_dict (store g))
  ∧ objects (store g1) = objects (store g)
  ∧ n_expand (store g1) = n_expand (store g)
  ∧ map_dict g1 !! key_of k = Some (OEntity type)
  ∧ (∀ strs, strings_for zlib Py_BuildValue_s (EPacked sigs) = Some strs →
       propsFor k (store g1)
       = parse_and_store k strs
           (expanded (expand_calls zlib (EPacked sigs)) (store g1))).
Proof.
  intros Hk Hrun. unfold InitSignatureBytes in Hrun.
  destruct (PySide_BuildSignatureArgsByte_Done type sigs g k Hk)
    as (g2 & Hreg & Harg & Hobj & _ & Hexp & _ & Hmap & _).
  rewrite (rbind_Done _ _ _ _ _ Hreg) in Hrun.
  apply init_tail in Hrun as (-> & (Hobj' & Harg' & _ & Hexp' & _) & Hmap' & _).
  split; [done|]. split; [by rewrite Harg'|]. split; [by rewrite Hobj'|].
  split; [by rewrite Hexp'|]. split.
  - destruct (Hmap' (key_of k)) as [Hs|Hs]; rewrite Hs; [|done].
    rewrite Hmap. apply lookup_insert_eq.
  - intros strs Hs.
    apply (propsFor_registered k (store g1) (EPacked sigs) strs); [|exact Hs].
    rewrite Harg', Harg. apply lookup_insert_eq.
Qed.

(** X12: the return value of [InitSignatureStrings] is that of the
    registration alone.  For a type without a key it is -1, with
    [ImportError] set and nothing registered; when the registration succeeds
    and [_build_func_to_type] fails, for a method name that the dict of the
    type lacks, it is 0, with [ImportError] set and the strings registered. *)
Theorem InitSignatureStrings_failure type sigs g :
  (Resolver.GetTypeKey type = Ret None →
   InitSignatureStrings AttributeError staticmethod_name tp_methods type sigs g
   = Done (with_err g (Some ImportError)) (-1)%Z)
  ∧ (∀ k meths d meth,
       Resolver.GetTypeKey type = Ret (Some k) →
       tp_methods type = Some meths →
       dict_of g type = Some d →
       (∀ m, m ∈ meths → String.length (ml_name m) + 9 < 200) →
       meth ∈ meths → d !! ml_name meth = None →
       (∀ m, m ∈ meths → ml_name meth ≠ mangled (ml_name m)) →
       ∃ g1,
         InitSignatureStrings AttributeError staticmethod_name tp_methods
           type sigs g = Done g1 0%Z
         ∧ py_err (store g1) = Some ImportError
         ∧ arg_dict (store g1) !! k = Some (EAddress sigs)
         ∧ map_dict g1 !! key_of k = Some (OEntity type)).
Proof.
  split.
  - intros Hk. unfold InitSignatureStrings.
    rewrite (rbind_Done _ _ _ _ _ (PySide_BuildSignatureArgs_null _ sigs g Hk)).
    reflexivity.
  - intros k meths d meth Hk Hm Hd Hshort Hin Hnone Hnm.
    unfold InitSignatureStrings.
    destruct (PySide_BuildSignatureArgs_Done type sigs g k Hk)
      as (g2 & Hreg & Harg & _ & _ & _ & _ & Hmap & Htp).
    rewrite (rbind_Done _ _ _ _ _ Hreg).
    assert (Hd2 : dict_of g2 type = Some d)
      by (unfold dict_of in *; by rewrite Htp).
    destruct (_build_func_to_type_result type meths g2 d Hm Hd2 Hshort)
      as (g3 & r3 & Hrun & (_ & Harg3 & _) & _ & _ & _ & Hfail).
    rewrite (Hfail meth Hin Hnone Hnm) in Hrun.
    cbn [Z.ltb Z.compare].
    rewrite (rbind_Done _ _ g2 g3 true)
      by (by rewrite (rbind_Done _ _ _ _ _ Hrun)).
    eexists. split; [reflexivity|]. cbn [with_err with_store store py_err].
    split; [done|]. cbn [arg_dict map_dict].
    split; [rewrite Harg3, Harg; apply lookup_insert_eq|].
    destruct (_build_func_to_type_inv _ _ _ _ Hrun) as (_ & Hmap3 & _).
    change (map_dict g3 !! key_of k = Some (OEntity type)).
    destruct (Hmap3 (key_of k)) as [Hs|Hs]; rewrite Hs; [|done].
    rewrite Hmap. apply lookup_insert_eq.
Qed.


Lemma key_of_not_object k ob : key_of k ≠ VObj ob.
Proof. by destruct k. Qed.

Lemma collect_functions_spec module items : ∀ g,
  ∃ g',
    collect_functions module items g = Done g' 0%Z
    ∧ store g' = store g
    ∧ tp_dict g' = tp_dict g
    ∧ (∀ key func, (key, func) ∈ items → PyCFunction_Check func = true →
         map_dict g' !! VObj (ident_of func) = Some (OEntity module))
    ∧ (∀ k, map_dict g' !! k = map_dict g !! k
            ∨ (map_dict g' !! k = Some (OEntity module) ∧ ∃ ob, k = VObj ob)).
Proof.
  induction items as [|[key func] items IH]; intros g.
  - exists g. split; [done|]. split; [done|]. split; [done|].
    split; [by intros ? ? ?%elem_of_nil|by left].
  - cbn [collect_functions].
    destruct (PyCFunction_Check func) eqn:Hc.
    + unfold rbind at 1. unfold map_dict_set. cbn [Z.ltb Z.compare].
      destruct (IH (Globals (store g)
                      (<[VObj (ident_of func) := OEntity module]> (map_dict g))
                      (tp_dict g)))
        as (g' & Hrun & Hst & Htp & Hin & Hfr).
      exists g'. split; [done|]. split; [done|]. split; [done|]. split.
      * intros key' func' [[= -> ->]|Hin']%elem_of_cons Hc'; [|by eapply Hin].
        destruct (Hfr (VObj (ident_of func))) as [Hs|[Hs _]]; rewrite Hs; [|done].
        apply lookup_insert_eq.
      * intros k. destruct (Hfr k) as [Hs|Hs]; [|by right].
        rewrite Hs. cbn [map_dict].
        destruct (decide (k = VObj (ident_of func))) as [->|Hne].
        -- right. rewrite lookup_insert_eq. eauto.
        -- left. by apply lookup_insert_ne.
    + destruct (IH g) as (g' & Hrun & Hst & Htp & Hin & Hfr).
      exists g'. split; [done|]. split; [done|]. split; [done|].
      split; [|done].
      intros key' func' [[= -> ->]|Hin']%elem_of_cons Hc'; [congruence|].
      by eapply Hin.
Qed.

Lemma PyModule_GetName_inv module g g' name :
  PyModule_GetName module g = Done g' (Some name) →
  g' = g ∧ PyModule_Check module = true.
Proof.
  unfold PyModule_GetName.
  destruct module as [| [? [n|] ?] | | | | | | | |]; try discriminate.
  by intros [= <- _].
Qed.

Lemma PyModule_GetName_maps module g g' r :
  PyModule_GetName module g = Done g' r →
  map_dict g' = map_dict g ∧ tp_dict g' = tp_dict g ∧ keeps_store g g'.
Proof.
  unfold PyModule_GetName.
  destruct module as [| [? [n|] ?] | | | | | | | |]; intros [= <- _];
    by repeat split.
Qed.

Lemma func_of_function func :
  PyCFunction_Check func = true → func_of func = func.
Proof.
  unfold PyCFunction_Check, func_of.
  by destruct func as [[]| | | |].
Qed.

(** X14: when [PySide_FinishSignatures] has returned 0, the module is
    registered with its strings, every builtin function of the dict of the
    module is mapped to the module, and [GetClassOrModOf] resolves such a
    function that has no self to the module. *)
Theorem PySide_FinishSignatures_maps module sigs g g1 :
  PySide_FinishSignatures AttributeError NDEBUG PyModule_GetDict
    finish_import_func module sigs g = Done g1 0%Z →
  PyModule_Check module = true
  ∧ (∃ k, Resolver.GetTypeKey module = Ret (Some k)
          ∧ arg_dict (store g1) !! k = Some (EAddress sigs)
          ∧ map_dict g1 !! key_of k = Some (OEntity module))
  ∧ (∀ key func, (key, func) ∈ PyModule_GetDict module →
       PyCFunction_Check func = true →
       map_dict g1 !! VObj (ident_of func) = Some (OEntity module)
       ∧ (∀ id, entity_of func = ECFunction id None →
            Resolver.GetClassOrModOf (map_view (map_dict g1) func)
              (entity_of func)
            = Ret (Some module))).
Proof.
  unfold PySide_FinishSignatures. intros Hrun.
  apply rbind_inv in Hrun as (g2 & name & Hname & Hrun).
  destruct name as [name|]; [|discriminate].
  apply PyModule_GetName_inv in Hname as [-> Hmod].
  apply rbind_inv in Hrun as (g3 & r & Hreg & Hrun).
  destruct (Resolver.GetTypeKey module) as [[k|]|msg] eqn:Hk.
  2:{ rewrite (PySide_BuildSignatureArgs_null _ sigs g Hk) in Hreg.
      injection Hreg as <- <-. discriminate. }
  2:{ unfold PySide_BuildSignatureArgs, Registry.GetTypeKey in Hreg.
      by rewrite Hk in Hreg. }
  destruct (PySide_BuildSignatureArgs_Done module sigs g k Hk)
    as (g3' & Hreg' & Harg & _ & _ & _ & _ & Hmap & _).
  rewrite Hreg' in Hreg. injection Hreg as <- <-. cbn [Z.ltb Z.compare] in Hrun.
  unfold _finishSignaturesCommon in Hrun.
  destruct (collect_functions_spec module (PyModule_GetDict module) g3')
    as (g4 & Hcol & Hst4 & _ & Hin & Hfr).
  rewrite (rbind_Done _ _ _ _ _ Hcol) in Hrun. cbn [Z.ltb Z.compare] in Hrun.
  apply rbind_inv in Hrun as (g5 & name' & Hname' & Hrun).
  apply PyModule_GetName_maps in Hname' as (Hmap5 & _ & (_ & Harg5 & _)).
  assert (Hend : map_dict g1 = map_dict g5
                 ∧ arg_dict (store g1) = arg_dict (store g5)).
  { destruct finish_import_func as [f|].
    - apply rbind_inv in Hrun as (g6 & ok & Hcall & Hrun).
      injection Hrun as <- _. unfold call_finish_import in Hcall.
      destruct (f module (objects (store g5))) as [h [e|]];
        by injection Hcall as <- _.
    - destruct name' as [name'|].
      + apply rbind_inv in Hrun as (g6 & [] & Has & Hrun).
        injection Hrun as <-. unfold assert_ in Has.
        destruct (NDEBUG || _); [|discriminate]. by injection Has as <-.
      + destruct NDEBUG; [|discriminate]. by injection Hrun as <-. }
  destruct Hend as [Hmap1 Harg1].
  split; [done|]. split.
  - exists k. split; [done|]. split.
    + rewrite Harg1, Harg5, Hst4, Harg. apply lookup_insert_eq.
    + rewrite Hmap1, Hmap5.
      destruct (Hfr (key_of k)) as [Hs|[_ [ob Hob]]].
      * rewrite Hs, Hmap. apply lookup_insert_eq.
      * by apply key_of_not_object in Hob.
  - intros key func Hf Hc.
    assert (Hm : map_dict g1 !! VObj (ident_of func) = Some (OEntity module)).
    { rewrite Hmap1, Hmap5. by eapply Hin. }
    split; [done|]. intros id Hid.
    assert (Hv : map_view (map_dict g1) func (MKObject (ECFunction id None))
                 = Some module).
    { unfold map_view. rewrite (func_of_function func) by done.
      rewrite decide_True by done. by rewrite Hm. }
    rewrite Hid. cbn [Resolver.GetClassOrModOf]. unfold _get_class_of_cf.
    cbn [PyCFunction_GET_SELF]. rewrite Hv, Hmod, orb_true_r. reflexivity.
Qed.

Lemma length_append (a b : string) :
  String.length (a +:+ b) = String.length a + String.length b.
Proof. induction a as [|c a IH]; [done|]. simpl. by f_equal. Qed.

Lemma mangled_inj a b : mangled a = mangled b → a = b.
Proof.
  unfold mangled. revert b.
  induction a as [|c a IH]; intros [|c' b] H.
  - done.
  - apply (f_equal String.length) in H.
    rewrite !length_append in H. cbn in H. lia.
  - apply (f_equal String.length) in H.
    rewrite !length_append in H. cbn in H. lia.
  - cbn in H. injection H as -> H. f_equal. by apply IH.
Qed.

Lemma map_after_written obtype meth descr (m : gmap pyval object) key v :
  map_after staticmethod_name obtype meth descr ∅ !! key = Some v →
  map_after staticmethod_name obtype meth descr m !! key
  = Some (OEntity obtype).
Proof.
  unfold map_after.
  destruct (hides _ _ _).
  - destruct (decide (key = VStr (mangled (ml_name meth)))) as [->|Hne];
      [by rewrite !lookup_insert_eq|].
    rewrite !(lookup_insert_ne _ (VStr _)) by done.
    destruct (is_static meth); [|by rewrite lookup_empty].
    match goal with |- context [<[?k := _]> m] =>
      destruct (decide (key = k)) as [->|Hne2] end;
      [by rewrite !lookup_insert_eq|].
    rewrite lookup_insert_ne by done. by rewrite lookup_empty.
  - destruct (attr_func descr) as [look|]; [|by rewrite lookup_empty].
    destruct (is_static meth); [|by rewrite lookup_empty].
    destruct (decide (key = VObj (ident_of look))) as [->|Hne];
      [by rewrite !lookup_insert_eq|].
    rewrite lookup_insert_ne by done. by rewrite lookup_empty.
Qed.

(** What a run of the loop that returned 0 has written, when no method name
    of the table is a method name with the suffix. *)
Lemma func_to_type_loop_effects obtype meths : ∀ g g' d,
  dict_of g obtype = Some d →
  loop obtype meths g = Done g' 0%Z →
  (∀ m1 m2, m1 ∈ meths → m2 ∈ meths → ml_name m1 ≠ mangled (ml_name m2)) →
  ∃ d',
    dict_of g' obtype = Some d'
    ∧ (∀ n, is_Some (d !! n) → is_Some (d' !! n))
    ∧ (∀ n, (∀ m, m ∈ meths → n ≠ mangled (ml_name m)) → d' !! n = d !! n)
    ∧ (∀ meth, meth ∈ meths →
         ∃ descr,
           d !! ml_name meth = Some descr
           ∧ d' !! ml_name meth = Some descr
           ∧ (∀ key v,
                map_after staticmethod_name obtype meth descr ∅ !! key = Some v →
                map_dict g' !! key = Some (OEntity obtype))
           ∧ (hides staticmethod_name descr meth = true →
              is_Some (d' !! mangled (ml_name meth))
              ∧ (NoDup (ml_name <$> meths) →
                 d' !! mangled (ml_name meth)
                 = Some (if is_static meth then PyStaticMethod_New meth obtype
                         else PyDescr_NewMethod obtype meth)))).
Proof.
  induction meths as [|meth meths IH]; intros g g' d Hd Hrun Hnm.
  - injection Hrun as <-. exists d. split; [done|]. split; [done|].
    split; [done|]. by intros m ?%elem_of_nil.
  - pose proof (func_to_type_turn obtype meth meths g) as Hturn.
    rewrite Hd in Hturn.
    destruct (d !! ml_name meth) as [descr|] eqn:Hdescr; [|congruence].
    destruct (hides _ _ _ && _) eqn:Hlong; [congruence|].
    destruct Hturn as (g2 & Heq & _ & Hmap & Hd2 & _).
    rewrite Heq in Hrun.
    destruct (IH g2 g' _ Hd2 Hrun) as (d' & Hd' & Hmono & Hsame & Heff).
    { intros m1 m2 H1 H2. apply Hnm; by right. }
    destruct (func_to_type_loop_inv _ _ _ _ _ Hrun) as (_ & Hmap' & _).
    exists d'. split; [done|]. split; [|split].
    + intros n Hn. by apply Hmono, dict_after_mono.
    + intros n Hn. rewrite Hsame by (intros m Hm; apply Hn; by right).
      apply dict_after_ne, Hn. left.
    + intros m [->|Hm]%elem_of_cons.
      * exists descr. split; [done|].
        assert (Hname : ∀ m', m' ∈ meth :: meths →
                          ml_name meth ≠ mangled (ml_name m'))
          by (intros m' Hm'; apply Hnm; [left|done]).
        split; [|split].
        -- rewrite Hsame by (intros m' Hm'; apply Hname; by right).
           rewrite dict_after_ne by (apply Hname; left). done.
        -- intros key v Hw.
           destruct (Hmap' key) as [Hs|Hs]; rewrite Hs; [|done].
           rewrite Hmap. by eapply map_after_written.
        -- intros Hh.
           assert (Hnew : dict_after staticmethod_name obtype meth descr d
                          !! mangled (ml_name meth)
                          = Some (if is_static meth
                                  then PyStaticMethod_New meth obtype
                                  else PyDescr_NewMethod obtype meth)).
           { unfold dict_after. rewrite Hh. apply lookup_insert_eq. }
           split; [apply Hmono; eauto|].
           intros Hnd. rewrite Hsame; [done|].
           intros m' Hm' Heq'. apply mangled_inj in Heq'.
           apply NoDup_cons in Hnd as [Hnin _]. apply Hnin.
           rewrite Heq'. by apply list_elem_of_fmap_2.
      * destruct (Heff m Hm) as (dm & Hdm & Hdm' & Hw & Hh).
        exists dm. split; [|split; [done|split; [done|]]].
        -- rewrite <- Hdm. symmetry. apply dict_after_ne.
           apply Hnm; [by right|left].
        -- intros Hhm. destruct (Hh Hhm) as [Hs Hex]. split; [done|].
           intros Hnd. apply Hex. by apply NoDup_cons in Hnd as [_ ?].
Qed.

Lemma _build_func_to_type_loop obtype meths g g' r :
  tp_methods obtype = Some meths →
  buildFuncToType obtype g = Done g' r →
  ∃ e, loop obtype meths (with_err g e) = Done g' r.
Proof.
  intros Hm Hrun. unfold _build_func_to_type in Hrun.
  apply rbind_inv in Hrun as (g1 & ns & Hns & Hrun).
  unfold PepType_GetDict in Hns.
  destruct (tp_dict g !! obtype) as [ns'|]; [|discriminate].
  injection Hns as <- <-.
  apply rbind_inv in Hrun as (g2 & [] & Herr & Hrun). rewrite Hm in Hrun.
  destruct ns' as [|[|]]; injection Herr as <-; eauto.
  all: exists (py_err (store g)); by destruct g as [[] ? ?].
Qed.

(** X15: after [_build_func_to_type] has returned 0 for a type, when no
    method name of the table is a method name with the suffix [".overload"],
    every static method of the table can be resolved.  If the dict has a
    static method under the name, the function it wraps is mapped to the
    type, and [GetClassOrModOf] gives the type for the static method; if the
    name is hidden by something else, the pair of the new function (the
    function of the method with the type as its self) and ["overload"] is
    mapped to the type, and [GetClassOrModOf] gives the type for the new
    function and for the new static method that wraps it, unless [map_dict]
    had an entry for a function of that self and C function before. *)
Theorem _build_func_to_type_static obtype meths g g' d :
  buildFuncToType obtype g = Done g' 0%Z →
  tp_methods obtype = Some meths →
  dict_of g obtype = Some d →
  PyType_Check obtype = true →
  (∀ m1 m2, m1 ∈ meths → m2 ∈ meths → ml_name m1 ≠ mangled (ml_name m2)) →
  ∀ meth, meth ∈ meths → is_static meth = true →
    ∃ descr,
      d !! ml_name meth = Some descr
      ∧ match attr_func descr with
        | Some look =>
            map_dict g' !! VObj (ident_of look) = Some (OEntity obtype)
            ∧ (∀ id, entity_of descr = EStaticMethod id None →
                 Resolver.GetClassOrModOf (map_view (map_dict g') descr)
                   (entity_of descr) = Ret (Some obtype))
        | None =>
            let cfunc := PyCFunction_NewEx meth obtype in
            let new_descr := PyStaticMethod_New meth obtype in
            map_dict g' !! VTuple (VObj (ident_of cfunc)) (VStr "overload")
            = Some (OEntity obtype)
            ∧ (map_dict g !! VObj (ident_of cfunc) = None →
               Resolver.GetClassOrModOf (map_view (map_dict g') cfunc)
                 (entity_of cfunc) = Ret (Some obtype)
               ∧ Resolver.GetClassOrModOf (map_view (map_dict g') new_descr)
                   (entity_of new_descr) = Ret (Some obtype))
        end.
Proof.
  intros Hrun Hm Hd Hty Hnm meth Hin Hst.
  destruct (_build_func_to_type_inv _ _ _ _ Hrun) as (_ & Hmapinv & _).
  destruct (_build_func_to_type_loop _ _ _ _ _ Hm Hrun) as [e Hloop].
  destruct (func_to_type_loop_effects obtype meths (with_err g e) g' d Hd Hloop Hnm)
    as (d' & _ & _ & _ & Heff).
  destruct (Heff meth Hin) as (descr & Hdescr & _ & Hw & _).
  exists descr. split; [done|].
  destruct (attr_func descr) as [look|] eqn:Hlook.
  - assert (Hl : map_dict g' !! VObj (ident_of look) = Some (OEntity obtype)).
    { apply (Hw _ (OEntity obtype)). unfold map_after, hides.
      rewrite Hst, Hlook. rewrite bool_decide_eq_true_2 by eauto.
      cbn [negb]. apply lookup_insert_eq. }
    split; [done|]. intros id Hid.
    assert (Hlk : entity_of look = ECFunction id None).
    { destruct descr as [[]| | | |]; try discriminate.
      - injection Hlook as <-. cbn in Hid |- *. by injection Hid as -> ->.
      - injection Hlook as <-. cbn in Hid |- *. by injection Hid as -> ->. }
    assert (Hv : map_view (map_dict g') descr (MKObject (ECFunction id None))
                 = Some obtype).
    { unfold map_view, func_of. rewrite Hlook. cbv zeta.
      rewrite decide_True by done. by rewrite Hl. }
    rewrite Hid. cbn [Resolver.GetClassOrModOf]. unfold _get_class_of_sm.
    f_equal. unfold _get_class_of_cf. cbn [PyCFunction_GET_SELF].
    by rewrite Hv, Hty.
  - cbn zeta.
    set (cfunc := PyCFunction_NewEx meth obtype).
    assert (Hov : map_dict g' !! VTuple (VObj (ident_of cfunc)) (VStr "overload")
                  = Some (OEntity obtype)).
    { apply (Hw _ (OEntity obtype)). unfold map_after, hides.
      rewrite Hst, Hlook. rewrite bool_decide_eq_false_2 by (by intros [? ?]).
      cbn [negb]. rewrite lookup_insert_ne by done.
      apply lookup_insert_eq. }
    split; [done|]. intros Hnone.
    assert (Hcf : entity_of cfunc = ECFunction (ml_meth meth) None).
    { unfold cfunc. cbn [entity_of PyCFunction_NewEx]. unfold get_self.
      by rewrite Hst. }
    assert (Hres : ∀ ob, func_of ob = cfunc →
              _get_class_of_cf (map_view (map_dict g') ob)
                (ECFunction (ml_meth meth) None) = Some obtype).
    { intros ob Hob. unfold _get_class_of_cf. cbn [PyCFunction_GET_SELF].
      assert (Hv1 : map_view (map_dict g') ob
                      (MKObject (ECFunction (ml_meth meth) None))
                    = entity_of <$> map_dict g' !! VObj (ident_of cfunc)).
      { unfold map_view. rewrite Hob. cbv zeta.
        by rewrite decide_True by done. }
      assert (Hv2 : map_view (map_dict g') ob
                      (MKOverload (ECFunction (ml_meth meth) None))
                    = Some obtype).
      { unfold map_view. rewrite Hob. cbv zeta.
        rewrite decide_True by done. by rewrite Hov. }
      rewrite Hv1.
      destruct (Hmapinv (VObj (ident_of cfunc))) as [Hs|Hs]; rewrite Hs.
      - rewrite Hnone. cbn [fmap option_fmap option_map].
        by rewrite Hv2, Hty.
      - cbn [fmap option_fmap option_map entity_of]. by rewrite Hty. }
    split.
    + rewrite Hcf. cbn [Resolver.GetClassOrModOf]. f_equal. by apply Hres.
    + assert (Hsm : entity_of (PyStaticMethod_New meth obtype)
                    = EStaticMethod (ml_meth meth) None).
      { cbn [entity_of PyStaticMethod_New]. unfold get_self. by rewrite Hst. }
      rewrite Hsm. cbn [Resolver.GetClassOrModOf]. unfold _get_class_of_sm.
      f_equal. by apply Hres.
Qed.

(** X16: after [_build_func_to_type] has returned 0, when no method name of
    the table is a method name with the suffix [".overload"], a method of
    the table that the dict of the type hides is opened under its name with
    the suffix [".overload"]: the dict has an entry for that name, which is, when the
    names of the table are distinct, a new static method or method
    descriptor of the method; [map_dict] maps the name with the suffix to the
    type; and the entry that hides the method is still in its place. *)
Theorem _build_func_to_type_hidden obtype meths g g' d :
  buildFuncToType obtype g = Done g' 0%Z →
  tp_methods obtype = Some meths →
  dict_of g obtype = Some d →
  (∀ m1 m2, m1 ∈ meths → m2 ∈ meths → ml_name m1 ≠ mangled (ml_name m2)) →
  ∃ d',
    dict_of g' obtype = Some d'
    ∧ ∀ meth descr,
        meth ∈ meths → d !! ml_name meth = Some descr →
        d' !! ml_name meth = Some descr
        ∧ (hides staticmethod_name descr meth = true →
           is_Some (d' !! mangled (ml_name meth))
           ∧ map_dict g' !! VStr (mangled (ml_name meth))
             = Some (OEntity obtype)
           ∧ (NoDup (ml_name <$> meths) →
              d' !! mangled (ml_name meth)
              = Some (if is_static meth then PyStaticMethod_New meth obtype
                      else PyDescr_NewMethod obtype meth))).
Proof.
  intros Hrun Hm Hd Hnm.
  destruct (_build_func_to_type_loop _ _ _ _ _ Hm Hrun) as [e Hloop].
  destruct (func_to_type_loop_effects obtype meths (with_err g e) g' d Hd Hloop Hnm)
    as (d' & Hd' & _ & _ & Heff).
  exists d'. split; [done|]. intros meth descr Hin Hdescr.
  destruct (Heff meth Hin) as (descr' & Hdescr' & Hkeep & Hw & Hh).
  assert (descr' = descr) as -> by congruence.
  split; [done|]. intros Hhid. destruct (Hh Hhid) as [Hs Hex].
  split; [done|]. split; [|done].
  apply (Hw _ (OEntity obtype)). unfold map_after. rewrite Hhid.
  apply lookup_insert_eq.
Qed.

(** *** Functions by their name key *)

Local Abbreviation getClassOrModOf := (Registry.GetClassOrModOf AttributeError).
Local Abbreviation nameKeyToFunc :=
  (name_key_to_func AttributeError NDEBUG staticmethod_name tp_methods
     getSnakeCaseName).

Lemma GetClassOrModOf_Done ob g owner :
  Resolver.GetClassOrModOf (map_view (map_dict g) ob) (entity_of ob)
  = Ret (Some owner) →
  getClassOrModOf ob g = Done g (Some owner).
Proof. intros H. unfold Registry.GetClassOrModOf. by rewrite H. Qed.

Lemma with_err_twice g e e' : with_err (with_err g e) e' = with_err g e'.
Proof. reflexivity. Qed.







(** The first half of [name_key_to_func] for an object that is no type, has
    the name [n] and an owner with the key [k]. *)
Lemma compute_name_key_Done ob n owner k g :
  PyType_Check (entity_of ob) = false →
  get_funcname staticmethod_name ob = rret n →
  Resolver.GetClassOrModOf (map_view (map_dict g) ob) (entity_of ob)
  = Ret (Some owner) →
  Resolver.GetTypeKey owner = Ret (Some k) →
  ∃ e, compute_name_key AttributeError staticmethod_name ob g
       = Done (with_err g e) (Some (VTuple (key_of k) (VStr n))).
Proof.
  intros Hty Hn Ho Hk. unfold compute_name_key. rewrite Hty, Hn.
  unfold rbind at 1. unfold rret at 1.
  rewrite (rbind_Done _ _ _ _ _ (GetClassOrModOf_Done ob g owner Ho)).
  destruct (GetTypeKey_Done owner _ g Hk) as (e & Hrun & _).
  exists e. by rewrite (rbind_Done _ _ _ _ _ Hrun).
Qed.

(** X17: [name_key_to_func] for a function whose owner is not in [map_dict]
    returns [None] and leaves [map_dict] and the dicts of the types as they
    are. *)
Theorem name_key_to_func_unregistered ob n owner k g :
  PyType_Check (entity_of ob) = false →
  get_funcname staticmethod_name ob = rret n →
  Resolver.GetClassOrModOf (map_view (map_dict g) ob) (entity_of ob)
  = Ret (Some owner) →
  Resolver.GetTypeKey owner = Ret (Some k) →
  map_dict g !! VTuple (key_of k) (VStr n) = None →
  map_dict g !! key_of k = None →
  ∃ g',
    nameKeyToFunc ob g = Done g' (Some Py_None)
    ∧ map_dict g' = map_dict g
    ∧ tp_dict g' = tp_dict g
    ∧ keeps_store g g'.
Proof.
  intros Hty Hn Ho Hk Hnone Htype. unfold name_key_to_func.
  destruct (compute_name_key_Done ob n owner k g Hty Hn Ho Hk) as [e Hkey].
  rewrite (rbind_Done _ _ _ _ _ Hkey).
  unfold rbind at 1. unfold map_dict_get at 1. cbn [map_dict with_err with_store].
  rewrite Hnone.
  rewrite (rbind_Done _ _ _ _ _ (GetClassOrModOf_Done ob (with_err g e) owner Ho)).
  destruct (GetTypeKey_Done owner _ (with_err g e) Hk) as (e' & Hrun & _).
  rewrite (rbind_Done _ _ _ _ _ Hrun).
  unfold rbind, map_dict_get. cbn [map_dict with_err with_store].
  rewrite Htype. eexists. split; [reflexivity|]. by repeat split.
Qed.







(** X20: the lazy initialization is for types only.  For a function whose
    owner is registered and is no type, a module for one, and whose name key
    is not in [map_dict], [name_key_to_func] stops at its assertion; when
    assertions are compiled out it goes on to read the method table of an
    object that is no type. *)
Theorem name_key_to_func_module ob n module k g :
  PyType_Check (entity_of ob) = false →
  get_funcname staticmethod_name ob = rret n →
  Resolver.GetClassOrModOf (map_view (map_dict g) ob) (entity_of ob)
  = Ret (Some module) →
  Resolver.GetTypeKey module = Ret (Some k) →
  map_dict g !! VTuple (key_of k) (VStr n) = None →
  map_dict g !! key_of k = Some (OEntity module) →
  PyType_Check module = false →
  nameKeyToFunc ob g = if NDEBUG then Undefined else AssertionFailed.
Proof.
  intros Hty Hn Ho Hk Hnone Htype Htt. unfold name_key_to_func.
  destruct (compute_name_key_Done ob n module k g Hty Hn Ho Hk) as [e Hkey].
  rewrite (rbind_Done _ _ _ _ _ Hkey).
  unfold rbind at 1. unfold map_dict_get at 1. cbn [map_dict with_err with_store].
  rewrite Hnone.
  rewrite (rbind_Done _ _ _ _ _ (GetClassOrModOf_Done ob (with_err g e) module Ho)).
  destruct (GetTypeKey_Done module _ (with_err g e) Hk) as (e' & Hrun & _).
  rewrite (rbind_Done _ _ _ _ _ Hrun).
  unfold rbind at 1. unfold map_dict_get at 1. cbn [map_dict with_err with_store].
  rewrite Htype. cbn [entity_of]. rewrite Htt.
  unfold rbind, assert_. rewrite orb_false_r. by destruct NDEBUG.
Qed.

End RegistryFacts.

Section RegistryExamples.
Import Resolver Store Registry.

Local Abbreviation b := String.list_byte_of_string.
Local Abbreviation attribute_error := (Raised 7).
Local Abbreviation key := (KeyPair "PySide6.QtCore" "QObject").
Local Abbreviation no_finish :=
  (Some (fun (_ : entity) (h : Heap.heap) => (h, @None exc))).

Lemma sample_methods_short meth :
  meth ∈ sample_methods → String.length (ml_name meth) + 9 < 200.
Proof.
  intros H. repeat (apply elem_of_cons in H as [->|H]; [cbn; lia|]).
  by apply elem_of_nil in H.
Qed.

Lemma sample_methods_plain m1 m2 :
  m1 ∈ sample_methods → m2 ∈ sample_methods →
  ml_name m1 ≠ mangled (ml_name m2).
Proof.
  intros H1 H2.
  repeat (apply elem_of_cons in H1 as [->|H1];
          [repeat (apply elem_of_cons in H2 as [->|H2]; [discriminate|]);
           by apply elem_of_nil in H2|]).
  by apply elem_of_nil in H1.
Qed.

Lemma _build_func_to_type_result_witness :
  ∃ g' r,
    _build_func_to_type attribute_error true sample_tp_methods QObject
      sample_globals = Done g' r
    ∧ (r = 0 ∨ r = -1)%Z.
Proof.
  destruct (_build_func_to_type_result attribute_error true sample_tp_methods
              QObject sample_methods sample_globals sample_dict)
    as (g' & r & Hrun & _ & _ & Hr & _).
  - vm_compute. reflexivity.
  - vm_compute. reflexivity.
  - apply sample_methods_short.
  - by exists g', r.
Defined.

Lemma InitSignatureStrings_registers_witness :
  ∃ g1,
    InitSignatureStrings attribute_error true sample_tp_methods QObject
      [b "QObject.objectName(self)->str"] sample_globals = Done g1 0%Z
    ∧ arg_dict (store g1) !! key
      = Some (EAddress [b "QObject.objectName(self)->str"])
    ∧ map_dict g1 !! key_of key = Some (OEntity QObject).
Proof.
  assert (Hret : match InitSignatureStrings attribute_error true
                         sample_tp_methods QObject
                         [b "QObject.objectName(self)->str"] sample_globals
                 with Done _ _ => True | _ => False end)
    by (vm_compute; exact I).
  destruct (InitSignatureStrings attribute_error true sample_tp_methods QObject
              [b "QObject.objectName(self)->str"] sample_globals)
    as [g1 r| | |] eqn:Hrun; [|contradiction..].
  destruct (InitSignatureStrings_registers attribute_error true
              sample_tp_methods Variants.camel_to_snake sample_zlib sample_str
              sample_parser QObject [b "QObject.objectName(self)->str"] key
              sample_globals g1 r eq_refl Hrun)
    as (-> & Harg & _ & Hmap & _).
  exists g1. split; [done|]. split; [|done].
  rewrite Harg. apply lookup_insert_eq.
Defined.

Lemma InitSignatureBytes_registers_witness :
  ∃ g1,
    InitSignatureBytes attribute_error true sample_tp_methods QObject
      (x01 :: b "QObject.objectName(self)->str" ++ [x0a]) sample_globals
    = Done g1 0%Z
    ∧ n_expand (store g1) = 0
    ∧ map_dict g1 !! key_of key = Some (OEntity QObject).
Proof.
  assert (Hret : match InitSignatureBytes attribute_error true
                         sample_tp_methods QObject
                         (x01 :: b "QObject.objectName(self)->str" ++ [x0a])
                         sample_globals
                 with Done _ _ => True | _ => False end)
    by (vm_compute; exact I).
  destruct (InitSignatureBytes attribute_error true sample_tp_methods QObject
              (x01 :: b "QObject.objectName(self)->str" ++ [x0a])
              sample_globals)
    as [g1 r| | |] eqn:Hrun; [|contradiction..].
  destruct (InitSignatureBytes_registers attribute_error true
              sample_tp_methods Variants.camel_to_snake sample_zlib sample_str
              sample_parser QObject
              (x01 :: b "QObject.objectName(self)->str" ++ [x0a]) key
              sample_globals g1 r eq_refl Hrun)
    as (-> & _ & _ & Hexp & Hmap & _).
  exists g1. split; [done|]. split; [exact Hexp|exact Hmap].
Defined.

Lemma InitSignatureStrings_failure_witness :
  let bare := Globals (initial_state []) ∅ {[ QObject := Plain ∅ ]} in
  ∃ g1,
    InitSignatureStrings attribute_error true sample_tp_methods QObject
      [b "QObject.objectName(self)->str"] bare = Done g1 0%Z
    ∧ py_err (store g1) = Some ImportError
    ∧ arg_dict (store g1) !! key
      = Some (EAddress [b "QObject.objectName(self)->str"]).
Proof.
  cbn zeta.
  destruct (proj2 (InitSignatureStrings_failure attribute_error true
                     sample_tp_methods QObject
                     [b "QObject.objectName(self)->str"]
                     (Globals (initial_state []) ∅ {[ QObject := Plain ∅ ]}))
              key sample_methods ∅ objectName)
    as (g1 & Hrun & Herr & Harg & _).
  - reflexivity.
  - vm_compute. reflexivity.
  - vm_compute. reflexivity.
  - apply sample_methods_short.
  - left.
  - reflexivity.
  - intros m Hm. apply sample_methods_plain; [left|done].
  - by exists g1.
Defined.


Lemma PySide_FinishSignatures_maps_witness :
  ∃ g1,
    PySide_FinishSignatures attribute_error false sample_module_dict
      no_finish QtCore [b "qVersion()->str"] initial_globals = Done g1 0%Z
    ∧ Resolver.GetClassOrModOf
        (map_view (map_dict g1) (OFunction qAddPostRoutine None))
        (entity_of (OFunction qAddPostRoutine None))
      = Ret (Some QtCore).
Proof.
  assert (Hret : match PySide_FinishSignatures attribute_error false
                         sample_module_dict no_finish QtCore
                         [b "qVersion()->str"] initial_globals
                 with Done _ r => r = 0%Z | _ => False end)
    by (vm_compute; reflexivity).
  destruct (PySide_FinishSignatures attribute_error false sample_module_dict
              no_finish QtCore [b "qVersion()->str"] initial_globals)
    as [g1 r| | |] eqn:Hrun; [subst r|contradiction..].
  destruct (PySide_FinishSignatures_maps attribute_error false
              sample_module_dict no_finish QtCore [b "qVersion()->str"]
              initial_globals g1 Hrun) as (_ & _ & Hfun).
  exists g1. split; [done|].
  destruct (Hfun "qAddPostRoutine" (OFunction qAddPostRoutine None))
    as [_ Hres].
  - vm_compute. right. right. left.
  - reflexivity.
  - apply (Hres 8). reflexivity.
Defined.

Lemma _build_func_to_type_static_witness :
  (∃ g',
     _build_func_to_type attribute_error true sample_tp_methods QObject
       sample_globals = Done g' 0%Z
     ∧ Resolver.GetClassOrModOf
         (map_view (map_dict g') (OStaticMethod tr (Some QObject)))
         (entity_of (OStaticMethod tr (Some QObject)))
       = Ret (Some QObject))
  ∧ (∃ g',
       _build_func_to_type attribute_error true hidden_tp_methods TestObject
         hidden_globals = Done g' 0%Z
       ∧ Resolver.GetClassOrModOf
           (map_view (map_dict g')
              (PyStaticMethod_New staticMethodDouble TestObject))
           (entity_of (PyStaticMethod_New staticMethodDouble TestObject))
         = Ret (Some TestObject)).
Proof.
  split.
  - assert (Hret : match _build_func_to_type attribute_error true
                           sample_tp_methods QObject sample_globals
                   with Done _ r => r = 0%Z | _ => False end)
      by (vm_compute; reflexivity).
    destruct (_build_func_to_type attribute_error true sample_tp_methods
                QObject sample_globals)
      as [g' r| | |] eqn:Hrun; [subst r|contradiction..].
    destruct (_build_func_to_type_static attribute_error true
                sample_tp_methods QObject sample_methods sample_globals g'
                sample_dict Hrun)
      with (meth := tr) as (descr & Hdescr & Hres).
    + vm_compute. reflexivity.
    + vm_compute. reflexivity.
    + reflexivity.
    + apply sample_methods_plain.
    + right. left.
    + reflexivity.
    + exists g'. split; [done|].
      assert (descr = OStaticMethod tr (Some QObject)) as ->
        by (vm_compute in Hdescr; injection Hdescr as <-; reflexivity).
      cbn [attr_func] in Hres. destruct Hres as [_ Hres].
      apply (Hres 2). reflexivity.
  - assert (Hret : match _build_func_to_type attribute_error true
                           hidden_tp_methods TestObject hidden_globals
                   with Done _ r => r = 0%Z | _ => False end)
      by (vm_compute; reflexivity).
    destruct (_build_func_to_type attribute_error true hidden_tp_methods
                TestObject hidden_globals)
      as [g' r| | |] eqn:Hrun; [subst r|contradiction..].
    destruct (_build_func_to_type_static attribute_error true
                hidden_tp_methods TestObject [staticMethodDouble]
                hidden_globals g' hidden_dict Hrun)
      with (meth := staticMethodDouble) as (descr & Hdescr & Hres).
    + vm_compute. reflexivity.
    + vm_compute. reflexivity.
    + reflexivity.
    + intros m1 m2 ->%list_elem_of_singleton ->%list_elem_of_singleton.
      discriminate.
    + left.
    + reflexivity.
    + exists g'. split; [done|].
      assert (descr = OOther Signal None) as ->
        by (vm_compute in Hdescr; injection Hdescr as <-; reflexivity).
      cbn [attr_func] in Hres. destruct Hres as [_ Hres].
      apply Hres. reflexivity.
Defined.

(** The static methods of two types that share a C function are two keys of
    [map_dict]: after both types are registered each method is resolved to
    its own type. *)
Lemma _build_func_to_type_shared_function :
  match _build_func_to_type attribute_error true shared_tp_methods QObject
          shared_globals with
  | Done g1 0%Z =>
      match _build_func_to_type attribute_error true shared_tp_methods QTimer
              g1 with
      | Done g2 0%Z =>
          Resolver.GetClassOrModOf
            (map_view (map_dict g2) (OStaticMethod tr (Some QObject)))
            (entity_of (OStaticMethod tr (Some QObject)))
          = Ret (Some QObject)
          ∧ Resolver.GetClassOrModOf
              (map_view (map_dict g2) (OStaticMethod tr (Some QTimer)))
              (entity_of (OStaticMethod tr (Some QTimer)))
            = Ret (Some QTimer)
      | _ => False
      end
  | _ => False
  end.
Proof. vm_compute. split; reflexivity. Qed.

Lemma _build_func_to_type_hidden_witness :
  ∃ g' d',
    _build_func_to_type attribute_error true sample_tp_methods QObject
      sample_globals = Done g' 0%Z
    ∧ dict_of g' QObject = Some d'
    ∧ d' !! "destroyed" = Some (OOther Signal None)
    ∧ d' !! "destroyed.overload" = Some (OMethodDescr destroyed QObject)
    ∧ map_dict g' !! VStr "destroyed.overload" = Some (OEntity QObject).
Proof.
  assert (Hret : match _build_func_to_type attribute_error true
                         sample_tp_methods QObject sample_globals
                 with Done _ r => r = 0%Z | _ => False end)
    by (vm_compute; reflexivity).
  destruct (_build_func_to_type attribute_error true sample_tp_methods QObject
              sample_globals)
    as [g' r| | |] eqn:Hrun; [subst r|contradiction..].
  destruct (_build_func_to_type_hidden attribute_error true sample_tp_methods
              QObject sample_methods sample_globals g' sample_dict Hrun)
    as (d' & Hd' & Hall).
  - vm_compute. reflexivity.
  - vm_compute. reflexivity.
  - apply sample_methods_plain.
  - exists g', d'. split; [done|]. split; [done|].
    destruct (Hall destroyed (OOther Signal None)) as [Hkeep Hhid].
    + right. right. left.
    + vm_compute. reflexivity.
    + split; [exact Hkeep|].
      destruct (Hhid eq_refl) as (_ & Hmap & Hnew).
      split; [|exact Hmap]. apply Hnew.
      apply (bool_decide_unpack _). vm_compute. reflexivity.
Defined.

Lemma name_key_to_func_unregistered_witness :
  ∃ g',
    name_key_to_func attribute_error false true sample_tp_methods
      Variants.camel_to_snake (OMethodDescr objectName QObject)
      initial_globals = Done g' (Some Py_None)
    ∧ map_dict g' = ∅.
Proof.
  destruct (name_key_to_func_unregistered attribute_error false true
              sample_tp_methods Variants.camel_to_snake
              (OMethodDescr objectName QObject) "objectName" QObject key
              initial_globals) as (g' & Hrun & Hmap & _).
  - reflexivity.
  - reflexivity.
  - reflexivity.
  - reflexivity.
  - reflexivity.
  - reflexivity.
  - by exists g'.
Defined.



Lemma name_key_to_func_module_witness :
  let g := Globals (initial_state [])
             {[ VStr "PySide6.QtCore" := OEntity QtCore ]} ∅ in
  name_key_to_func attribute_error false true sample_tp_methods
    Variants.camel_to_snake (OFunction qVersion (Some QtCore)) g
  = AssertionFailed.
Proof.
  cbn zeta.
  apply (name_key_to_func_module attribute_error false true sample_tp_methods
           Variants.camel_to_snake (OFunction qVersion (Some QtCore))
           "qVersion" QtCore (KeyName "PySide6.QtCore")
           (Globals (initial_state [])
              {[ VStr "PySide6.QtCore" := OEntity QtCore ]} ∅)).
  - reflexivity.
  - reflexivity.
  - reflexivity.
  - reflexivity.
  - reflexivity.
  - reflexivity.
  - reflexivity.
Defined.

End RegistryExamples.
